(** * VMFS block layer: [vmfs_block.c]

    A shallow embedding of the block-allocation layer of vmfs-tools
    ([vmfs_block.c]) and the properties its specification states about it.

    The file is organised as follows.
    - [Bits]: bit fields of a 32-bit block identifier.
    - [vmfs_h]: the constants and macros that [vmfs_block.c] takes from
      [vmfs.h], which is not part of the sources at hand.
    - The data model ([vmfs_fs_t], bitmaps, bitmap entries).
    - [prog]: programs that call the collaborators of the block layer (bitmap
      codec, metadata lock, volume I/O); a run records every call and its
      answer in a trace.
    - The functions of [vmfs_block.c].
    - [Disk]: a model of the collaborators, following the specification, and
      [Example], a small volume.
    - [Fuse]: the functions of [vmfs-fuse.c] over the calls they make to
      libfuse, libc and the rest of the driver.
    - The properties: bit fields and macros, block identifiers, the zeroize
      loop, locking, allocation on the [Disk] model, the queries and the
      early exits of the block layer, the FUSE bridge. *)

From Stdlib Require Import ZArith Lia List Bool.
From stdpp Require Import base numbers list gmap strings.

Local Open Scope Z_scope.

(** ** Unsigned 32-bit values *)

(** [uint32_t] arithmetic wraps modulo [2^32]. *)
Definition u32 (x : Z) : Z := x mod 2 ^ 32.

(** C's logical negation on [int]: [!x] is [1] when [x] is [0] and [0]
    otherwise. *)
Definition c_lnot (x : Z) : Z := if x =? 0 then 1 else 0.

(** ** Bit fields *)

Module Bits.

(** A field of [bf_width] bits whose least significant bit is bit
    [bf_shift]. *)
Record bitfield : Type := { bf_shift : Z; bf_width : Z }.

(** [(x >> shift) & mask] *)
Definition bf_get (f : bitfield) (x : Z) : Z :=
  Z.land (Z.shiftr x (bf_shift f)) (Z.ones (bf_width f)).

(** [(v & mask) << shift] *)
Definition bf_put (f : bitfield) (v : Z) : Z :=
  Z.shiftl (Z.land v (Z.ones (bf_width f))) (bf_shift f).

(** The field lies inside a 32-bit word. *)
Definition bf_ok (f : bitfield) : Prop :=
  0 <= bf_shift f /\ 0 <= bf_width f /\ bf_shift f + bf_width f <= 32.

(** Two fields share no bit. *)
Definition bf_disjoint (f g : bitfield) : Prop :=
  bf_shift f + bf_width f <= bf_shift g \/
  bf_shift g + bf_width g <= bf_shift f.

(** The value fits the field. *)
Definition bf_fits (f : bitfield) (v : Z) : Prop :=
  0 <= v < 2 ^ bf_width f.

End Bits.

Export Bits.

(** ** The header [vmfs.h] *)

(** Modelled from the spec: [vmfs.h] is missing from the sources.  The
    specification says that a block identifier is a 32-bit value that holds a
    class tag and, in the remaining bits, the class-specific addressing: one
    flat item index for a File Block, an entry index and an item index for
    the three other classes.  The positions and widths of the fields and the
    values of the four tags are parameters here, as are the two buffer sizes
    the source names. *)
Class vmfs_h : Type := {
  blk_type_bits : bitfield;
  VMFS_BLK_TYPE_FB : Z;
  VMFS_BLK_TYPE_SB : Z;
  VMFS_BLK_TYPE_PB : Z;
  VMFS_BLK_TYPE_FD : Z;
  fb_item_bits : bitfield;
  sb_entry_bits : bitfield;
  sb_item_bits : bitfield;
  pb_entry_bits : bitfield;
  pb_item_bits : bitfield;
  fd_entry_bits : bitfield;
  fd_item_bits : bitfield;
  M_DIO_BLK_SIZE : Z;
  VMFS_BITMAP_ENTRY_SIZE : Z
}.

Section Macros.
Context {H : vmfs_h}.

(** Modelled from the spec: the macros of [vmfs.h].  [VMFS_BLK_TYPE] extracts
    the class tag; [VMFS_BLK_x_ENTRY] and [VMFS_BLK_x_ITEM] extract the
    coordinates; [VMFS_BLK_x_BUILD] packs the coordinates and the tag into a
    [uint32_t]. *)
Definition VMFS_BLK_TYPE (blk_id : Z) : Z := bf_get blk_type_bits blk_id.

Definition VMFS_BLK_FB_ITEM (blk_id : Z) : Z := bf_get fb_item_bits blk_id.
Definition VMFS_BLK_FB_BUILD (item : Z) : Z :=
  u32 (Z.lor (bf_put fb_item_bits item)
             (bf_put blk_type_bits VMFS_BLK_TYPE_FB)).

Definition VMFS_BLK_SB_ENTRY (blk_id : Z) : Z := bf_get sb_entry_bits blk_id.
Definition VMFS_BLK_SB_ITEM (blk_id : Z) : Z := bf_get sb_item_bits blk_id.
Definition VMFS_BLK_SB_BUILD (entry item : Z) : Z :=
  u32 (Z.lor (Z.lor (bf_put sb_item_bits item) (bf_put sb_entry_bits entry))
             (bf_put blk_type_bits VMFS_BLK_TYPE_SB)).

Definition VMFS_BLK_PB_ENTRY (blk_id : Z) : Z := bf_get pb_entry_bits blk_id.
Definition VMFS_BLK_PB_ITEM (blk_id : Z) : Z := bf_get pb_item_bits blk_id.
Definition VMFS_BLK_PB_BUILD (entry item : Z) : Z :=
  u32 (Z.lor (Z.lor (bf_put pb_item_bits item) (bf_put pb_entry_bits entry))
             (bf_put blk_type_bits VMFS_BLK_TYPE_PB)).

Definition VMFS_BLK_FD_ENTRY (blk_id : Z) : Z := bf_get fd_entry_bits blk_id.
Definition VMFS_BLK_FD_ITEM (blk_id : Z) : Z := bf_get fd_item_bits blk_id.
Definition VMFS_BLK_FD_BUILD (entry item : Z) : Z :=
  u32 (Z.lor (Z.lor (bf_put fd_item_bits item) (bf_put fd_entry_bits entry))
             (bf_put blk_type_bits VMFS_BLK_TYPE_FD)).

(** [DECL_ALIGNED_BUFFER(buf,size)] declares a scratch buffer [buf] of [size]
    bytes and its length [buf_len]; the value here is [buf_len]. *)
Definition DECL_ALIGNED_BUFFER (size : Z) : Z := size.

(** What a sound header provides: every field lies in the 32-bit word, the
    tag field shares no bit with a coordinate field, the two coordinate
    fields of a class share no bit, the four tags fit the tag field and are
    pairwise different (they are the labels of one [switch]). *)
Record vmfs_h_ok : Prop := {
  type_bits_ok : bf_ok blk_type_bits;
  fb_bits_ok : bf_ok fb_item_bits /\ bf_disjoint blk_type_bits fb_item_bits;
  sb_bits_ok :
    bf_ok sb_entry_bits /\ bf_ok sb_item_bits /\
    bf_disjoint blk_type_bits sb_entry_bits /\
    bf_disjoint blk_type_bits sb_item_bits /\
    bf_disjoint sb_entry_bits sb_item_bits;
  pb_bits_ok :
    bf_ok pb_entry_bits /\ bf_ok pb_item_bits /\
    bf_disjoint blk_type_bits pb_entry_bits /\
    bf_disjoint blk_type_bits pb_item_bits /\
    bf_disjoint pb_entry_bits pb_item_bits;
  fd_bits_ok :
    bf_ok fd_entry_bits /\ bf_ok fd_item_bits /\
    bf_disjoint blk_type_bits fd_entry_bits /\
    bf_disjoint blk_type_bits fd_item_bits /\
    bf_disjoint fd_entry_bits fd_item_bits;
  tags_fit :
    bf_fits blk_type_bits VMFS_BLK_TYPE_FB /\
    bf_fits blk_type_bits VMFS_BLK_TYPE_SB /\
    bf_fits blk_type_bits VMFS_BLK_TYPE_PB /\
    bf_fits blk_type_bits VMFS_BLK_TYPE_FD;
  tags_distinct :
    VMFS_BLK_TYPE_FB <> VMFS_BLK_TYPE_SB /\
    VMFS_BLK_TYPE_FB <> VMFS_BLK_TYPE_PB /\
    VMFS_BLK_TYPE_FB <> VMFS_BLK_TYPE_FD /\
    VMFS_BLK_TYPE_SB <> VMFS_BLK_TYPE_PB /\
    VMFS_BLK_TYPE_SB <> VMFS_BLK_TYPE_FD /\
    VMFS_BLK_TYPE_PB <> VMFS_BLK_TYPE_FD
}.

End Macros.

Arguments vmfs_h_ok : clear implicits.

(** One header of the shape the specification describes: the class tag in
    the three top bits, the flat File Block index in the 29 bits below; for
    the other classes the item index in the low bits and the entry index
    above it.  The widths and the tag values are one choice among those
    [vmfs_h_ok] admits; the properties below hold for every such choice and
    this one serves as a concrete instance. *)
Definition spec_vmfs_h : vmfs_h := {|
  blk_type_bits := {| bf_shift := 29; bf_width := 3 |};
  VMFS_BLK_TYPE_FB := 1;
  VMFS_BLK_TYPE_SB := 2;
  VMFS_BLK_TYPE_PB := 3;
  VMFS_BLK_TYPE_FD := 4;
  fb_item_bits := {| bf_shift := 0; bf_width := 29 |};
  sb_entry_bits := {| bf_shift := 4; bf_width := 25 |};
  sb_item_bits := {| bf_shift := 0; bf_width := 4 |};
  pb_entry_bits := {| bf_shift := 4; bf_width := 25 |};
  pb_item_bits := {| bf_shift := 0; bf_width := 4 |};
  fd_entry_bits := {| bf_shift := 10; bf_width := 19 |};
  fd_item_bits := {| bf_shift := 0; bf_width := 10 |};
  M_DIO_BLK_SIZE := 512;
  VMFS_BITMAP_ENTRY_SIZE := 1024
|}.

(** ** Data model *)

(** Modelled from the spec: the structures of [vmfs.h].  The source reads
    [bmp->bmh.items_per_bitmap_entry], [entry.mdh], [entry.mdh.pos],
    [entry.id], [fs->fbb], [fs->sbc], [fs->pbc] and [fs->fdc]; the
    specification adds the total entry count of a bitmap, the lock field of
    a metadata header, the allocation map of an entry and the block size of
    the file system. *)
Record vmfs_bitmap_header_t : Type := {
  items_per_bitmap_entry : Z;
  total_entries : Z
}.

(** A bitmap handle: its header and the volume position of its first
    entry. *)
Record vmfs_bitmap_t : Type := {
  bmh : vmfs_bitmap_header_t;
  bmp_pos : Z
}.

(** A metadata header: the position of the record on the volume and the
    on-disk lock ([0] when free). *)
Record vmfs_metadata_hdr_t : Type := {
  pos : Z;
  hb_lock : Z
}.

(** A bitmap entry: header, entry number and allocation map of its items
    ([true] for an allocated item). *)
Record vmfs_bitmap_entry_t : Type := {
  mdh : vmfs_metadata_hdr_t;
  id : Z;
  bitmap : list bool
}.

Record vmfs_fs_t : Type := {
  fbb : vmfs_bitmap_t;
  sbc : vmfs_bitmap_t;
  pbc : vmfs_bitmap_t;
  fdc : vmfs_bitmap_t;
  block_size : Z
}.

(** Modelled from the spec: [vmfs_fs_get_blocksize], which is missing from
    the sources, gives the block size the file system is configured with. *)
Definition vmfs_fs_get_blocksize (fs : vmfs_fs_t) : Z := block_size fs.

(** [memset(buf,c,n)] *)
Definition memset (c : Byte.byte) (n : Z) : list Byte.byte :=
  repeat c (Z.to_nat n).

(** The assignment [entry.mdh = m] that a callee performs through
    [&entry.mdh]. *)
Definition set_mdh (entry : vmfs_bitmap_entry_t) (m : vmfs_metadata_hdr_t)
  : vmfs_bitmap_entry_t :=
  {| mdh := m; id := id entry; bitmap := bitmap entry |}.

(** ** Programs over the collaborators *)

(** The functions of the bitmap codec, of the metadata lock and of the volume
    I/O that [vmfs_block.c] calls.  They are defined in other files, so a
    call here is a node of the program and its answer comes from the
    environment.  Arguments passed by pointer for the callee to fill or
    update appear in the answer (see [resp]).  The scratch buffer handed to
    [vmfs_metadata_lock] is represented by its length. *)
Inductive call : Type :=
| vmfs_bitmap_get_entry (bmp : vmfs_bitmap_t) (entry item : Z)
| vmfs_bitmap_get_item_status
    (h : vmfs_bitmap_header_t) (e : vmfs_bitmap_entry_t) (entry item : Z)
| vmfs_metadata_lock
    (fs : vmfs_fs_t) (p : Z) (buf_len : Z) (m : vmfs_metadata_hdr_t)
| vmfs_bitmap_set_item_status
    (h : vmfs_bitmap_header_t) (e : vmfs_bitmap_entry_t) (entry item : Z)
    (status : Z)
| vmfs_bme_update (fs : vmfs_fs_t) (e : vmfs_bitmap_entry_t)
| vmfs_metadata_unlock (fs : vmfs_fs_t) (m : vmfs_metadata_hdr_t)
| vmfs_bitmap_find_free_items (bmp : vmfs_bitmap_t) (n_items : Z)
| vmfs_bitmap_alloc_item (e : vmfs_bitmap_entry_t)
| vmfs_fs_write
    (fs : vmfs_fs_t) (blk : Z) (p : Z) (buf : list Byte.byte) (len : Z).

(** The answer to a call: the returned [int] (or [ssize_t]) and the new value
    of every object the callee may write through a pointer. *)
Definition resp (c : call) : Type :=
  match c with
  | vmfs_bitmap_get_entry _ _ _ => Z * vmfs_bitmap_entry_t
  | vmfs_bitmap_get_item_status _ _ _ _ => Z
  | vmfs_metadata_lock _ _ _ _ => Z * vmfs_metadata_hdr_t
  | vmfs_bitmap_set_item_status _ _ _ _ _ => Z * vmfs_bitmap_entry_t
  | vmfs_bme_update _ _ => Z
  | vmfs_metadata_unlock _ _ => Z
  | vmfs_bitmap_find_free_items _ _ => Z * vmfs_bitmap_entry_t
  | vmfs_bitmap_alloc_item _ => Z * vmfs_bitmap_entry_t * Z
  | vmfs_fs_write _ _ _ _ _ => Z
  end%type.

Inductive prog (A : Type) : Type :=
| Ret (a : A)
| Vis (c : call) (k : resp c -> prog A).

Arguments Ret {A} a.
Arguments Vis {A} c k.

Notation "'let*' x ':=' c 'in' k" := (Vis c (fun x => k))
  (at level 10, x pattern, c at level 100, k at level 200).

(** One call and its answer. *)
Definition event : Type := {c : call & resp c}.

Definition ev_call (e : event) : call := projT1 e.

Section Run.
Context {W : Type}.

(** The environment: what each collaborator answers in a state of the world
    [W], and the state it leaves. *)
Definition handler : Type := forall c : call, W -> resp c * W.

Variable h : handler.

(** A run returns the result, the final world and the trace of the calls in
    the order they were made. *)
Fixpoint run {A : Type} (p : prog A) (w : W) : A * W * list event :=
  match p with
  | Ret a => (a, w, [])
  | Vis c k =>
      let '(r, w1) := h c w in
      let '(a, w2, tr) := run (k r) w1 in
      (a, w2, existT c r :: tr)
  end.

End Run.

(** *** Reading a trace *)

Definition is_lock (c : call) : bool :=
  match c with vmfs_metadata_lock _ _ _ _ => true | _ => false end.

Definition is_unlock (c : call) : bool :=
  match c with vmfs_metadata_unlock _ _ => true | _ => false end.

Definition is_find_free_items (c : call) : bool :=
  match c with vmfs_bitmap_find_free_items _ _ => true | _ => false end.

Definition is_write (c : call) : bool :=
  match c with vmfs_fs_write _ _ _ _ _ => true | _ => false end.

(** The calls that change a bitmap entry or store it on the volume. *)
Definition is_mutation (c : call) : bool :=
  match c with
  | vmfs_bitmap_set_item_status _ _ _ _ _ => true
  | vmfs_bitmap_alloc_item _ => true
  | vmfs_bme_update _ _ => true
  | _ => false
  end.

(** The [int] a call returned. *)
Definition ev_rc (e : event) : Z :=
  match e with
  | existT c r =>
      match c return resp c -> Z with
      | vmfs_bitmap_get_entry _ _ _ => fun r => fst r
      | vmfs_bitmap_get_item_status _ _ _ _ => fun r => r
      | vmfs_metadata_lock _ _ _ _ => fun r => fst r
      | vmfs_bitmap_set_item_status _ _ _ _ _ => fun r => fst r
      | vmfs_bme_update _ _ => fun r => r
      | vmfs_metadata_unlock _ _ => fun r => r
      | vmfs_bitmap_find_free_items _ _ => fun r => fst r
      | vmfs_bitmap_alloc_item _ => fun r => fst (fst r)
      | vmfs_fs_write _ _ _ _ _ => fun r => r
      end r
  end.

(** The number of calls of a kind in a trace. *)
Definition count_calls (f : call -> bool) (tr : list event) : nat :=
  length (List.filter (fun e => f (ev_call e)) tr).

(** The lock on a bitmap entry was taken during the run: by
    [vmfs_metadata_lock], or by [vmfs_bitmap_find_free_items], which returns
    the entry it found with its lock held.  Both report failure by [-1]. *)
Definition lock_acquired (tr : list event) : Prop :=
  exists e : event, In e tr /\
    (is_lock (ev_call e) = true \/ is_find_free_items (ev_call e) = true) /\
    ev_rc e <> -1.

(** ** The functions of [vmfs_block.c] *)

Section Block.
Context {H : vmfs_h}.

(** [vmfs_block_get_bitmap_info]: bitmap, entry and item of a block
    identifier.  [None] is the [default] branch, which returns [-1] without
    storing through [bmp], [entry] or [item]; [Some (b, e, i)] is a branch
    that stores the three values and returns [0].  The [switch] is the chain
    of comparisons with its labels in source order. *)
Definition vmfs_block_get_bitmap_info (fs : vmfs_fs_t) (blk_id : Z)
  : option (vmfs_bitmap_t * Z * Z) :=
  let blk_type := VMFS_BLK_TYPE blk_id in
  if blk_type =? VMFS_BLK_TYPE_FB then
    Some (fbb fs, 0, VMFS_BLK_FB_ITEM blk_id)
  else if blk_type =? VMFS_BLK_TYPE_SB then
    Some (sbc fs, VMFS_BLK_SB_ENTRY blk_id, VMFS_BLK_SB_ITEM blk_id)
  else if blk_type =? VMFS_BLK_TYPE_PB then
    Some (pbc fs, VMFS_BLK_PB_ENTRY blk_id, VMFS_BLK_PB_ITEM blk_id)
  else if blk_type =? VMFS_BLK_TYPE_FD then
    Some (fdc fs, VMFS_BLK_FD_ENTRY blk_id, VMFS_BLK_FD_ITEM blk_id)
  else None.

(** The [int] that [vmfs_block_get_bitmap_info] returns. *)
Definition bitmap_info_rc (r : option (vmfs_bitmap_t * Z * Z)) : Z :=
  match r with Some _ => 0 | None => -1 end.

(** [vmfs_block_get_status]: block status, allocated or free. *)
Definition vmfs_block_get_status (fs : vmfs_fs_t) (blk_id : Z) : prog Z :=
  match vmfs_block_get_bitmap_info fs blk_id with
  | None => Ret (-1)
  | Some (bmp, blk_entry, blk_item) =>
      let* (rc, entry) := vmfs_bitmap_get_entry bmp blk_entry blk_item in
      if rc =? -1 then Ret (-1) else
      let* st :=
        vmfs_bitmap_get_item_status (bmh bmp) entry blk_entry blk_item in
      Ret st
  end.

(** [vmfs_block_set_status]: allocate or free the specified block.  The test
    after the lock call is the source's [!vmfs_metadata_lock(...) == -1]:
    the negation applies to the returned value and its result is compared
    with [-1]. *)
Definition vmfs_block_set_status (fs : vmfs_fs_t) (blk_id : Z) (status : Z)
  : prog Z :=
  let buf_len := DECL_ALIGNED_BUFFER VMFS_BITMAP_ENTRY_SIZE in
  match vmfs_block_get_bitmap_info fs blk_id with
  | None => Ret (-1)
  | Some (bmp, blk_entry, blk_item) =>
      let* (rc, entry) := vmfs_bitmap_get_entry bmp blk_entry blk_item in
      if rc =? -1 then Ret (-1) else
      let* (rc, m) :=
        vmfs_metadata_lock fs (pos (mdh entry)) buf_len (mdh entry) in
      let entry := set_mdh entry m in
      if c_lnot rc =? -1 then Ret (-1) else
      let* (rc, entry) :=
        vmfs_bitmap_set_item_status (bmh bmp) entry blk_entry blk_item status
      in
      if rc =? -1 then
        let* _ := vmfs_metadata_unlock fs (mdh entry) in
        Ret (-1)
      else
        let* _ := vmfs_bme_update fs entry in
        let* _ := vmfs_metadata_unlock fs (mdh entry) in
        Ret 0
  end.

(** [vmfs_block_alloc_specified]: allocate the specified block. *)
Definition vmfs_block_alloc_specified (fs : vmfs_fs_t) (blk_id : Z) : prog Z :=
  vmfs_block_set_status fs blk_id 1.

(** [vmfs_block_free]: free the specified block. *)
Definition vmfs_block_free (fs : vmfs_fs_t) (blk_id : Z) : prog Z :=
  vmfs_block_set_status fs blk_id 0.

(** The first [switch] of [vmfs_block_alloc]: the bitmap of a class, [None]
    in the [default] branch. *)
Definition alloc_select_bitmap (fs : vmfs_fs_t) (blk_type : Z)
  : option vmfs_bitmap_t :=
  if blk_type =? VMFS_BLK_TYPE_FB then Some (fbb fs)
  else if blk_type =? VMFS_BLK_TYPE_SB then Some (sbc fs)
  else if blk_type =? VMFS_BLK_TYPE_PB then Some (pbc fs)
  else if blk_type =? VMFS_BLK_TYPE_FD then Some (fdc fs)
  else None.

(** The second [switch] of [vmfs_block_alloc], which has no [default]
    branch: the value stored through [blk_id], [None] when no branch is
    taken and nothing is stored. *)
Definition alloc_build_id (bmp : vmfs_bitmap_t) (entry : vmfs_bitmap_entry_t)
    (item : Z) (blk_type : Z) : option Z :=
  if blk_type =? VMFS_BLK_TYPE_FB then
    let addr := u32 (u32 (id entry * items_per_bitmap_entry (bmh bmp)) + item)
    in Some (VMFS_BLK_FB_BUILD addr)
  else if blk_type =? VMFS_BLK_TYPE_SB then
    Some (VMFS_BLK_SB_BUILD (id entry) item)
  else if blk_type =? VMFS_BLK_TYPE_PB then
    Some (VMFS_BLK_PB_BUILD (id entry) item)
  else if blk_type =? VMFS_BLK_TYPE_FD then
    Some (VMFS_BLK_FD_BUILD (id entry) item)
  else None.

(** [vmfs_block_alloc]: allocate a single block.  The result is the returned
    [int] and what was stored through the output parameter [blk_id]. *)
Definition vmfs_block_alloc (fs : vmfs_fs_t) (blk_type : Z)
  : prog (Z * option Z) :=
  match alloc_select_bitmap fs blk_type with
  | None => Ret (-1, None)
  | Some bmp =>
      let* (rc, entry) := vmfs_bitmap_find_free_items bmp 1 in
      if rc =? -1 then Ret (-1, None) else
      let* (rc, entry, item) := vmfs_bitmap_alloc_item entry in
      if rc =? -1 then
        let* _ := vmfs_metadata_unlock fs (mdh entry) in
        Ret (-1, None)
      else
        let* _ := vmfs_bme_update fs entry in
        let* _ := vmfs_metadata_unlock fs (mdh entry) in
        Ret (0, alloc_build_id bmp entry item blk_type)
  end.

(** The [while(pos < len)] loop of [vmfs_block_zeroize_fb].  [fuel] bounds
    the number of iterations; [None] means the bound was reached before the
    loop ended. *)
Fixpoint zeroize_loop (fuel : nat) (fs : vmfs_fs_t) (blk_item : Z)
    (buf : list Byte.byte) (buf_len : Z) (len : Z) (pos : Z)
  : prog (option Z) :=
  match fuel with
  | O => Ret None
  | S fuel' =>
      if pos <? len then
        let* n := vmfs_fs_write fs blk_item pos buf buf_len in
        if negb (n =? buf_len) then Ret (Some (-1))
        else zeroize_loop fuel' fs blk_item buf buf_len len (pos + buf_len)
      else Ret (Some 0)
  end.

(** [vmfs_block_zeroize_fb]: zeroize a file block.  [pos] and [len] are
    [off_t] values; with a positive [buf_len] the loop ends after at most
    [len] iterations, which the fuel allows. *)
Definition vmfs_block_zeroize_fb (fs : vmfs_fs_t) (blk_id : Z)
  : prog (option Z) :=
  let buf_len := DECL_ALIGNED_BUFFER M_DIO_BLK_SIZE in
  if negb (VMFS_BLK_TYPE blk_id =? VMFS_BLK_TYPE_FB) then Ret (Some (-1))
  else
    let buf := memset Byte.x00 buf_len in
    let blk_item := VMFS_BLK_FB_ITEM blk_id in
    let len := vmfs_fs_get_blocksize fs in
    let pos := 0 in
    zeroize_loop (S (Z.to_nat len)) fs blk_item buf buf_len len pos.

End Block.

(** ** A model of the collaborators *)

Module Disk.

(** Modelled from the spec: the bitmap codec ([vmfs_bitmap_*],
    [vmfs_bme_update]), the metadata lock ([vmfs_metadata_lock],
    [vmfs_metadata_unlock]) and the volume I/O ([vmfs_fs_write]) are defined
    outside [vmfs_block.c] and are missing from the sources.  This module
    follows what the specification says of them: a bitmap entry is a record
    on the volume that covers a contiguous run of items; it is read fresh
    from the volume; the lock is kept on the volume, in the metadata header
    of the entry; the search for free items consults the entries in
    ascending order, takes the first one with enough free items and returns
    it with its lock held; an item is allocated at the lowest free index of
    its entry; the codec rejects a status change to the state the item is
    already in or at an index outside the entry; a write returns the number
    of bytes written, and a store of an entry that the device truncates
    fails. *)

(** The volume: the bitmap entries by position, the writes made to file
    blocks (block, offset, bytes) and the number of bytes the device still
    accepts from the writes of data and the stores of entries.  Taking and
    releasing a lock changes the lock field of a metadata header in place
    and does not draw on that number. *)
Record world : Type := {
  disk : gmap Z vmfs_bitmap_entry_t;
  written : list (Z * Z * list Byte.byte);
  room : Z
}.

Definition set_disk (w : world) (d : gmap Z vmfs_bitmap_entry_t) : world :=
  {| disk := d; written := written w; room := room w |}.

(** The value left in an entry that a failed call did not fill. *)
Definition bme_none : vmfs_bitmap_entry_t :=
  {| mdh := {| pos := 0; hb_lock := 0 |}; id := 0; bitmap := [] |}.

Definition set_lock (e : vmfs_bitmap_entry_t) (l : Z) : vmfs_bitmap_entry_t :=
  set_mdh e {| pos := pos (mdh e); hb_lock := l |}.

Definition set_bitmap (e : vmfs_bitmap_entry_t) (b : list bool)
  : vmfs_bitmap_entry_t :=
  {| mdh := mdh e; id := id e; bitmap := b |}.

(** The status bit of item [i] of an allocation map. *)
Definition bit_at (l : list bool) (i : Z) : option bool :=
  if i <? 0 then None else l !! Z.to_nat i.

(** The number of free items of an entry. *)
Definition free_count (e : vmfs_bitmap_entry_t) : Z :=
  Z.of_nat (length (List.filter negb (bitmap e))).

(** The lowest free index of an allocation map. *)
Fixpoint first_free (l : list bool) : option nat :=
  match l with
  | [] => None
  | b :: l' => if b then option_map S (first_free l') else Some O
  end.

Section WithHeader.
Context {H : vmfs_h}.

(** The volume position of entry number [k] of a bitmap. *)
Definition entry_pos (bmp : vmfs_bitmap_t) (k : Z) : Z :=
  bmp_pos bmp + k * VMFS_BITMAP_ENTRY_SIZE.

(** Items are numbered through the whole bitmap: item [item] counted from the
    start of entry [entry] has number [entry * items_per_bitmap_entry + item].
    A File Block identifier gives entry [0] and the number itself. *)
Definition item_addr (h : vmfs_bitmap_header_t) (entry item : Z) : Z :=
  entry * items_per_bitmap_entry h + item.

Definition get_entry (w : world) (bmp : vmfs_bitmap_t) (entry item : Z)
  : Z * vmfs_bitmap_entry_t :=
  let n := items_per_bitmap_entry (bmh bmp) in
  let addr := item_addr (bmh bmp) entry item in
  if (0 <? n) && (0 <=? addr) && (addr / n <? total_entries (bmh bmp)) then
    match disk w !! entry_pos bmp (addr / n) with
    | Some e => (0, e)
    | None => (-1, bme_none)
    end
  else (-1, bme_none).

(** Status of an item: [1] allocated, [0] free, [-1] outside the entry. *)
Definition get_item_status (h : vmfs_bitmap_header_t)
    (e : vmfs_bitmap_entry_t) (entry item : Z) : Z :=
  match bit_at (bitmap e)
               (item_addr h entry item mod items_per_bitmap_entry h) with
  | Some true => 1
  | Some false => 0
  | None => -1
  end.

Definition set_item_status (h : vmfs_bitmap_header_t)
    (e : vmfs_bitmap_entry_t) (entry item : Z) (status : Z)
  : Z * vmfs_bitmap_entry_t :=
  let i := item_addr h entry item mod items_per_bitmap_entry h in
  let s := negb (status =? 0) in
  match bit_at (bitmap e) i with
  | None => (-1, e)
  | Some b =>
      if Bool.eqb b s then (-1, e)
      else (0, set_bitmap e (<[Z.to_nat i := s]> (bitmap e)))
  end.

(** Acquire the on-disk lock of the record at position [p]: refused when the
    record is absent or its lock is held. *)
Definition lock (w : world) (p : Z) (m : vmfs_metadata_hdr_t)
  : (Z * vmfs_metadata_hdr_t) * world :=
  match disk w !! p with
  | Some e =>
      if hb_lock (mdh e) =? 0 then
        ((0, {| pos := p; hb_lock := 1 |}),
         set_disk w (<[p := set_lock e 1]> (disk w)))
      else ((-1, m), w)
  | None => ((-1, m), w)
  end.

(** Release the on-disk lock of the record the header belongs to. *)
Definition unlock (w : world) (m : vmfs_metadata_hdr_t) : Z * world :=
  (0, set_disk w (alter (fun e => set_lock e 0) (pos m) (disk w))).

(** Store an entry at its position: a write of [VMFS_BITMAP_ENTRY_SIZE]
    bytes, of which the device takes as many as it has room for.  When it
    takes them all the entry is on the volume and the result is [0].  A
    truncated write is a failure, result [-1]; the specification leaves what
    the volume then holds at that position open, and this model keeps the
    entry that was there, which is what the volume holds when the device
    took no byte at all. *)
Definition bme_update (w : world) (e : vmfs_bitmap_entry_t) : Z * world :=
  let n := Z.max 0 (Z.min VMFS_BITMAP_ENTRY_SIZE (room w)) in
  if n =? VMFS_BITMAP_ENTRY_SIZE then
    (0, {| disk := <[pos (mdh e) := e]> (disk w);
           written := written w;
           room := room w - n |})
  else
    (-1, {| disk := disk w; written := written w; room := room w - n |}).

(** The first entry, among the entry numbers [ks] in order, that has at
    least [n] free items. *)
Fixpoint find_entry (w : world) (bmp : vmfs_bitmap_t) (n : Z) (ks : list Z)
  : option vmfs_bitmap_entry_t :=
  match ks with
  | [] => None
  | k :: ks' =>
      match disk w !! entry_pos bmp k with
      | Some e =>
          if n <=? free_count e then Some e
          else find_entry w bmp n ks'
      | None => find_entry w bmp n ks'
      end
  end.

(** The entry numbers of a bitmap, ascending. *)
Definition entry_numbers (bmp : vmfs_bitmap_t) : list Z :=
  map Z.of_nat (seq 0 (Z.to_nat (total_entries (bmh bmp)))).

Definition find_free_items (w : world) (bmp : vmfs_bitmap_t) (n : Z)
  : (Z * vmfs_bitmap_entry_t) * world :=
  match find_entry w bmp n (entry_numbers bmp) with
  | None => ((-1, bme_none), w)
  | Some e =>
      let '((rc, m), w') := lock w (pos (mdh e)) (mdh e) in
      if rc =? -1 then ((-1, bme_none), w') else ((0, set_mdh e m), w')
  end.

Definition alloc_item (e : vmfs_bitmap_entry_t)
  : Z * vmfs_bitmap_entry_t * Z :=
  match first_free (bitmap e) with
  | Some j => (0, set_bitmap e (<[j := true]> (bitmap e)), Z.of_nat j)
  | None => (-1, e, 0)
  end.

(** Write [len] bytes of [buf] at offset [p] of block [blk]; the device
    takes as many bytes as it has room for and returns their number. *)
Definition fs_write (w : world) (blk p : Z) (buf : list Byte.byte) (len : Z)
  : Z * world :=
  let n := Z.max 0 (Z.min len (room w)) in
  (n, {| disk := disk w;
         written := written w ++ [(blk, p, take (Z.to_nat n) buf)];
         room := room w - n |}).

(** The collaborators as one environment. *)
Definition handle : handler (W := world) :=
  fun c =>
    match c as c0 return world -> resp c0 * world with
    | vmfs_bitmap_get_entry bmp entry item =>
        fun w => (get_entry w bmp entry item, w)
    | vmfs_bitmap_get_item_status h e entry item =>
        fun w => (get_item_status h e entry item, w)
    | vmfs_metadata_lock _ p _ m => fun w => lock w p m
    | vmfs_bitmap_set_item_status h e entry item status =>
        fun w => (set_item_status h e entry item status, w)
    | vmfs_bme_update _ e => fun w => bme_update w e
    | vmfs_metadata_unlock _ m => fun w => unlock w m
    | vmfs_bitmap_find_free_items bmp n => fun w => find_free_items w bmp n
    | vmfs_bitmap_alloc_item e => fun w => (alloc_item e, w)
    | vmfs_fs_write _ blk p buf len => fun w => fs_write w blk p buf len
    end.

(** A bitmap is well formed on a volume: its header counts are sensible and
    every entry number in range has its record at its position, carrying
    that position and number and an allocation map of the size the header
    gives. *)
Definition wf_bitmap (w : world) (bmp : vmfs_bitmap_t) : Prop :=
  0 < items_per_bitmap_entry (bmh bmp) /\
  0 <= total_entries (bmh bmp) /\
  forall k, 0 <= k < total_entries (bmh bmp) ->
    exists e, disk w !! entry_pos bmp k = Some e /\
      pos (mdh e) = entry_pos bmp k /\
      id e = k /\
      Z.of_nat (length (bitmap e)) = items_per_bitmap_entry (bmh bmp).

(** Every item of the File Block bitmap has a number that fits the item
    field of a File Block identifier. *)
Definition fb_addressable (fs : vmfs_fs_t) : Prop :=
  total_entries (bmh (fbb fs)) * items_per_bitmap_entry (bmh (fbb fs))
  <= 2 ^ bf_width fb_item_bits.

(** No entry of the bitmap has a free item. *)
Definition bitmap_full (w : world) (bmp : vmfs_bitmap_t) : Prop :=
  forall k e, 0 <= k < total_entries (bmh bmp) ->
    disk w !! entry_pos bmp k = Some e -> free_count e = 0.

End WithHeader.

End Disk.

(** *** The local variable [entry] along a trace *)

(** The value of the local [entry] of [vmfs_block_set_status] and
    [vmfs_block_alloc] after a call: the codec calls that receive [&entry]
    leave their answer in it, the lock call stores the header it answers in
    [entry.mdh], the other calls do not write it. *)
Definition entry_after (o : option vmfs_bitmap_entry_t) (e : event)
  : option vmfs_bitmap_entry_t :=
  match e with
  | existT c r =>
      match c return resp c -> option vmfs_bitmap_entry_t with
      | vmfs_bitmap_get_entry _ _ _ => fun r => Some (snd r)
      | vmfs_metadata_lock _ _ _ _ =>
          fun r => option_map (fun x => set_mdh x (snd r)) o
      | vmfs_bitmap_set_item_status _ _ _ _ _ => fun r => Some (snd r)
      | vmfs_bitmap_find_free_items _ _ => fun r => Some (snd r)
      | vmfs_bitmap_alloc_item _ => fun r => Some (snd (fst r))
      | _ => fun _ => o
      end r
  end.

Definition entry_local (tr : list event) : option vmfs_bitmap_entry_t :=
  fold_left entry_after tr None.

(** *** Writes of a trace *)

(** The bytes the writes of a trace stored, as the device reported them. *)
Definition bytes_written (tr : list event) : Z :=
  fold_right
    (fun e s => (if is_write (ev_call e) then ev_rc e else 0) + s) 0 tr.

(** No write of the trace was short: each returned the length asked for,
    [buf_len]. *)
Definition all_complete (buf_len : Z) (tr : list event) : Prop :=
  Forall (fun e => ev_rc e = buf_len) tr.

(** The smallest number of chunks of [c] bytes that cover [len] bytes. *)
Definition ceil_div (len c : Z) : Z := (len + c - 1) / c.

(** ** A small volume *)

Module Example.

#[local] Existing Instance spec_vmfs_h.

Definition entry_at (p k l : Z) (b : list bool) : vmfs_bitmap_entry_t :=
  {| mdh := {| pos := p; hb_lock := l |}; id := k; bitmap := b |}.

(** A bitmap of two entries of four items each, starting at position [p]. *)
Definition bitmap_at (p : Z) : vmfs_bitmap_t :=
  {| bmh := {| items_per_bitmap_entry := 4; total_entries := 2 |};
     bmp_pos := p |}.

Definition fs0 : vmfs_fs_t :=
  {| fbb := bitmap_at 4096; sbc := bitmap_at 8192; pbc := bitmap_at 12288;
     fdc := bitmap_at 16384; block_size := 4096 |}.

(** The File Block bitmap: entry 0 is full, entry 1 has items 1 and 3 free.
    No lock is held. *)
Definition w0 : Disk.world :=
  {| Disk.disk :=
       <[4096 := entry_at 4096 0 0 [true; true; true; true]]>
         (<[5120 := entry_at 5120 1 0 [true; false; true; false]]> ∅);
     Disk.written := [];
     Disk.room := 1048576 |}.

(** The same volume when another host holds the lock of entry 0. *)
Definition w_locked : Disk.world :=
  {| Disk.disk :=
       <[4096 := entry_at 4096 0 1 [true; true; true; true]]>
         (<[5120 := entry_at 5120 1 0 [true; false; true; false]]> ∅);
     Disk.written := [];
     Disk.room := 1048576 |}.

(** A volume whose File Block bitmap has no free item. *)
Definition w_full : Disk.world :=
  {| Disk.disk :=
       <[4096 := entry_at 4096 0 0 [true; true; true; true]]>
         (<[5120 := entry_at 5120 1 0 [true; true; true; true]]> ∅);
     Disk.written := [];
     Disk.room := 1048576 |}.

(** A volume whose device accepts 1200 more bytes. *)
Definition w_short : Disk.world :=
  {| Disk.disk := ∅; Disk.written := []; Disk.room := 1200 |}.

(** A file system with a block size that is not a multiple of the 512-byte
    chunk. *)
Definition fs_odd : vmfs_fs_t :=
  {| fbb := bitmap_at 4096; sbc := bitmap_at 8192; pbc := bitmap_at 12288;
     fdc := bitmap_at 16384; block_size := 1300 |}.

End Example.

(** The [i]-th write of the zeroize loop when it starts at offset [pos]:
    [c] bytes of [buf] at offset [pos + i * c] of the block. *)
Definition nth_write (fs : vmfs_fs_t) (blk_item : Z) (buf : list Byte.byte)
    (c : Z) (pos : Z) (i : nat) : call :=
  vmfs_fs_write fs blk_item (pos + Z.of_nat i * c) buf c.

(** *** Release of the lock *)

(** The lock taken during the run is released exactly once: the trace has
    one call of [vmfs_metadata_unlock]; it is the last call of the run, it
    comes after the acquisition, and its argument is [&entry.mdh], the header
    of the local [entry] as the calls before it left it. *)
Definition released_once (fs : vmfs_fs_t) (tr : list event) : Prop :=
  count_calls is_unlock tr = 1%nat /\
  exists (pre : list event) (e : vmfs_bitmap_entry_t) (r : Z),
    tr = pre ++ [existT (vmfs_metadata_unlock fs (mdh e)) r] /\
    entry_local pre = Some e /\
    lock_acquired pre.

(** *** More readers of a trace *)

Definition is_bme_update (c : call) : bool :=
  match c with vmfs_bme_update _ _ => true | _ => false end.

(** Every store of an entry in the trace succeeded: no call of
    [vmfs_bme_update] returned [-1].  The functions of [vmfs_block.c] do not
    look at that result. *)
Definition stores_ok (tr : list event) : Prop :=
  Forall (fun e => is_bme_update (ev_call e) = true -> ev_rc e <> -1) tr.

Definition stores_okb (tr : list event) : bool :=
  forallb (fun e => negb (is_bme_update (ev_call e) && (ev_rc e =? -1))) tr.

(** The calls [vmfs_block_get_status] may make: loading an entry and reading
    the status of an item. *)
Definition is_query (c : call) : bool :=
  match c with
  | vmfs_bitmap_get_entry _ _ _ => true
  | vmfs_bitmap_get_item_status _ _ _ _ => true
  | _ => false
  end.

(** The offset of a write. *)
Definition write_offset (c : call) : Z :=
  match c with vmfs_fs_write _ _ p _ _ => p | _ => 0 end.

(** The value of the local [item] of [vmfs_block_alloc] after a trace: what
    the last call of [vmfs_bitmap_alloc_item] stored through [&item]. *)
Definition item_after (o : option Z) (e : event) : option Z :=
  match e with
  | existT c r =>
      match c return resp c -> option Z with
      | vmfs_bitmap_alloc_item _ => fun r => Some (snd r)
      | _ => fun _ => o
      end r
  end.

Definition item_local (tr : list event) : option Z :=
  fold_left item_after tr None.

(** ** The FUSE bridge: [vmfs-fuse.c] *)

Module Fuse.

(** Constants of [fuse_lowlevel.h], [fuse_opt.h], [errno.h] and
    [sys/stat.h] (Linux values). *)
Definition FUSE_ROOT_ID : Z := 1.
Definition FUSE_OPT_KEY_NONOPT : Z := -2.
Definition ENOENT : Z := 2.
Definition S_IFMT : Z := 61440.
Definition S_IFDIR : Z := 16384.
Definition S_IFREG : Z := 32768.
Definition S_IFBLK : Z := 24576.

(** [S_ISDIR(m)], [S_ISREG(m)], [S_ISBLK(m)]: [(m & S_IFMT) == S_IFxxx]. *)
Definition S_ISDIR (m : Z) : bool := Z.land m S_IFMT =? S_IFDIR.
Definition S_ISREG (m : Z) : bool := Z.land m S_IFMT =? S_IFREG.
Definition S_ISBLK (m : Z) : bool := Z.land m S_IFMT =? S_IFBLK.

(** [struct stat], with the fields of interest here. *)
Record stat_t : Type := {
  st_ino : Z;
  st_mode : Z;
  st_nlink : Z;
  st_size : Z
}.

(** The assignment [stbuf.st_ino = ino]. *)
Definition set_st_ino (st : stat_t) (ino : Z) : stat_t :=
  {| st_ino := ino; st_mode := st_mode st; st_nlink := st_nlink st;
     st_size := st_size st |}.

(** [struct vmfs_fuse_opts].  Pointers are [option] values, [None] for
    [NULL]; the LVM structure is an opaque handle. *)
Record vmfs_fuse_opts : Type := {
  lvm : option Z;
  mountpoint : option string;
  foreground : Z
}.

Definition set_lvm (o : vmfs_fuse_opts) (l : option Z) : vmfs_fuse_opts :=
  {| lvm := l; mountpoint := mountpoint o; foreground := foreground o |}.

Definition set_mountpoint (o : vmfs_fuse_opts) (m : option string)
  : vmfs_fuse_opts :=
  {| lvm := lvm o; mountpoint := m; foreground := foreground o |}.

(** The newline and the double quote of the messages. *)
Definition nl : string := String (Ascii.ascii_of_nat 10) EmptyString.
Definition dq : string := String (Ascii.ascii_of_nat 34) EmptyString.

(** The functions [vmfs-fuse.c] calls: libfuse, libc and the driver.  File
    systems, sessions, channels and requests are opaque handles; [args] is
    the argument vector of a [struct fuse_args]. *)
Inductive fcall : Type :=
| fuse_req_userdata (req : Z)
| vmfs_inode_stat_from_blkid (fs : Z) (blk_id : Z)
| fuse_reply_attr (req : Z) (attr : stat_t) (attr_timeout : Z)
| fuse_reply_err (req : Z) (err : Z)
| fprintf_stderr (msg : string)
| stat (path : string)
| strdup (s : string)
| vmfs_lvm_add_extent (l : option Z) (path : string)
| vmfs_host_init
| vmfs_lvm_create (flags : Z)
| fuse_opt_parse (args : list string) (opts : vmfs_fuse_opts)
| fuse_opt_add_arg (args : list string) (arg : string)
| vmfs_fs_create (l : option Z)
| vmfs_fs_open (fs : Z)
| fuse_mount (mp : option string) (args : list string)
| fuse_lowlevel_new (args : list string) (userdata : Z)
| fuse_daemonize (fg : Z)
| fuse_set_signal_handlers (se : Z)
| fuse_session_add_chan (se ch : Z)
| fuse_session_loop_mt (se : Z)
| fuse_remove_signal_handlers (se : Z)
| fuse_session_remove_chan (ch : Z)
| fuse_session_destroy (se : Z)
| fuse_unmount (mp : option string) (ch : Z)
| vmfs_fs_close (fs : option Z)
| fuse_opt_free_args (args : list string)
| free (p : option string).

(** The answer to a call: the value returned and the new value of what the
    callee writes through a pointer ([stbuf], [args], [opts]). *)
Definition fresp (c : fcall) : Type :=
  match c with
  | fuse_req_userdata _ => Z
  | vmfs_inode_stat_from_blkid _ _ => Z * stat_t
  | fuse_reply_attr _ _ _ => Z
  | fuse_reply_err _ _ => Z
  | fprintf_stderr _ => Z
  | stat _ => Z * stat_t
  | strdup _ => option string
  | vmfs_lvm_add_extent _ _ => Z
  | vmfs_host_init => unit
  | vmfs_lvm_create _ => option Z
  | fuse_opt_parse _ _ => Z * list string * vmfs_fuse_opts
  | fuse_opt_add_arg _ _ => Z * list string
  | vmfs_fs_create _ => option Z
  | vmfs_fs_open _ => Z
  | fuse_mount _ _ => option Z * list string
  | fuse_lowlevel_new _ _ => option Z * list string
  | fuse_daemonize _ => Z
  | fuse_set_signal_handlers _ => Z
  | fuse_session_add_chan _ _ => unit
  | fuse_session_loop_mt _ => Z
  | fuse_remove_signal_handlers _ => unit
  | fuse_session_remove_chan _ => unit
  | fuse_session_destroy _ => unit
  | fuse_unmount _ _ => unit
  | vmfs_fs_close _ => unit
  | fuse_opt_free_args _ => unit
  | free _ => unit
  end%type.

Inductive fprog (A : Type) : Type :=
| FRet (a : A)
| FVis (c : fcall) (k : fresp c -> fprog A).

Arguments FRet {A} a.
Arguments FVis {A} c k.

Notation "'do*' x ':=' c 'in' k" := (FVis c (fun x => k))
  (at level 10, x pattern, c at level 100, k at level 200).

Definition fevent : Type := {c : fcall & fresp c}.

Section Run.
Context {W : Type}.

Definition fhandler : Type := forall c : fcall, W -> fresp c * W.

Variable h : fhandler.

(** A run returns the result, the final world and the calls made, with
    their answers, in order. *)
Fixpoint frun {A : Type} (p : fprog A) (w : W) : A * W * list fevent :=
  match p with
  | FRet a => (a, w, [])
  | FVis c k =>
      let '(r, w1) := h c w in
      let '(a, w2, tr) := frun (k r) w1 in
      (a, w2, existT c r :: tr)
  end.

End Run.

(** The calls of a run. *)
Definition calls (tr : list fevent) : list fcall := map (fun e => projT1 e) tr.

Section WithHeader.
Context {H : vmfs_h}.

(** [ino2blkid]: the block identifier of an inode number.  [fuse_ino_t] is
    an unsigned integer wider than [uint32_t]; the cast keeps the low 32
    bits. *)
Definition ino2blkid (ino : Z) : Z :=
  if ino =? FUSE_ROOT_ID then VMFS_BLK_FD_BUILD 0 0 else u32 ino.

(** [vmfs_fuse_getattr].  The timeout [1.0] is the number [1]. *)
Definition vmfs_fuse_getattr (req : Z) (ino : Z) : fprog unit :=
  do* fs := fuse_req_userdata req in
  do* (rc, stbuf) := vmfs_inode_stat_from_blkid fs (ino2blkid ino) in
  if negb (c_lnot rc =? 0) then
    let stbuf := set_st_ino stbuf ino in
    do* _ := fuse_reply_attr req stbuf 1 in FRet tt
  else
    do* _ := fuse_reply_err req ENOENT in FRet tt.

End WithHeader.

(** [vmfs_fuse_opts_func].  The result is the returned [int] and the value
    of [*opts] on return. *)
Definition vmfs_fuse_opts_func (opts : vmfs_fuse_opts) (arg : string)
    (key : Z) : fprog (Z * vmfs_fuse_opts) :=
  if key =? FUSE_OPT_KEY_NONOPT then
    match mountpoint opts with
    | Some _ =>
        do* _ := fprintf_stderr ("'" +:+ arg +:+ "' is not allowed here" +:+ nl)
        in FRet (-1, opts)
    | None =>
        do* (rc, st) := stat arg in
        if negb (rc =? 0) then
          do* _ := fprintf_stderr ("Error stat()ing '" +:+ arg +:+ "'" +:+ nl)
          in FRet (-1, opts)
        else if S_ISDIR (st_mode st) then
          do* m := strdup arg in
          FRet (0, set_mountpoint opts m)
        else if S_ISREG (st_mode st) || S_ISBLK (st_mode st) then
          do* rc := vmfs_lvm_add_extent (lvm opts) arg in
          if rc =? -1 then
            do* _ := fprintf_stderr
                       ("Unable to open device/file " +:+ dq +:+ arg +:+ dq
                        +:+ "." +:+ nl)
            in FRet (-1, opts)
          else FRet (0, opts)
        else FRet (0, opts)
    end
  else FRet (1, opts).

(** The [cleanup] label of [main] and its [return err ? 1 : 0]. *)
Definition main_cleanup (fs : option Z) (args : list string)
    (opts : vmfs_fuse_opts) (err : Z) : fprog Z :=
  do* _ := vmfs_fs_close fs in
  do* _ := fuse_opt_free_args args in
  do* _ := free (mountpoint opts) in
  FRet (if err =? 0 then 0 else 1).

(** The end of the [if (session != NULL)] block and of the
    [if ((chan = fuse_mount(...)) != NULL)] block of [main]. *)
Definition main_teardown (se ch : Z) (fs : option Z) (args : list string)
    (opts : vmfs_fuse_opts) (err : Z) : fprog Z :=
  do* _ := fuse_session_destroy se in
  do* _ := fuse_unmount (mountpoint opts) ch in
  main_cleanup fs args opts err.

(** [main].  [argv] is the argument vector. *)
Definition main (argv : list string) : fprog Z :=
  let args := argv in
  let opts := {| lvm := None; mountpoint := None; foreground := 0 |} in
  let fs := None in
  let err := -1 in
  do* _ := vmfs_host_init in
  do* l := vmfs_lvm_create 0 in
  let opts := set_lvm opts l in
  match l with
  | None =>
      do* _ := fprintf_stderr ("Unable to create LVM structure" +:+ nl) in
      main_cleanup fs args opts err
  | Some _ =>
      do* (rc, args, opts) := fuse_opt_parse args opts in
      if rc =? -1 then main_cleanup fs args opts err else
      do* (rc, args) := fuse_opt_add_arg args "-odefault_permissions" in
      if negb (rc =? 0) then main_cleanup fs args opts err else
      do* fs := vmfs_fs_create (lvm opts) in
      match fs with
      | None =>
          do* _ := fprintf_stderr ("Unable to open filesystem" +:+ nl) in
          main_cleanup fs args opts err
      | Some f =>
          do* rc := vmfs_fs_open f in
          if rc =? -1 then
            do* _ := fprintf_stderr ("Unable to open volume." +:+ nl) in
            main_cleanup fs args opts err
          else
            do* (chan, args) := fuse_mount (mountpoint opts) args in
            match chan with
            | None => main_cleanup fs args opts err
            | Some ch =>
                do* (session, args) := fuse_lowlevel_new args f in
                match session with
                | None =>
                    do* _ := fuse_unmount (mountpoint opts) ch in
                    main_cleanup fs args opts err
                | Some se =>
                    do* _ := fuse_daemonize (foreground opts) in
                    do* rc := fuse_set_signal_handlers se in
                    if negb (rc =? -1) then
                      do* _ := fuse_session_add_chan se ch in
                      do* err := fuse_session_loop_mt se in
                      do* _ := fuse_remove_signal_handlers se in
                      do* _ := fuse_session_remove_chan ch in
                      main_teardown se ch fs args opts err
                    else main_teardown se ch fs args opts err
                end
            end
      end
  end.

(** *** Reading a trace of the bridge *)

Definition is_reply (c : fcall) : bool :=
  match c with
  | fuse_reply_attr _ _ _ => true
  | fuse_reply_err _ _ => true
  | _ => false
  end.

Definition is_message (c : fcall) : bool :=
  match c with fprintf_stderr _ => true | _ => false end.

Definition is_add_extent (c : fcall) : bool :=
  match c with vmfs_lvm_add_extent _ _ => true | _ => false end.

Definition is_stat (c : fcall) : bool :=
  match c with stat _ => true | _ => false end.

(** The three calls after the [cleanup] label. *)
Definition is_cleanup (c : fcall) : bool :=
  match c with
  | vmfs_fs_close _ => true
  | fuse_opt_free_args _ => true
  | free _ => true
  | _ => false
  end.

Definition fcount (f : fcall -> bool) (tr : list fevent) : nat :=
  length (List.filter f (calls tr)).

(** What [fuse_session_loop_mt] returned, for an event that is a call of
    it. *)
Definition loop_result (e : fevent) : option Z :=
  match e with
  | existT c r =>
      match c return fresp c -> option Z with
      | fuse_session_loop_mt _ => fun r => Some r
      | _ => fun _ => None
      end r
  end.

(** The file system [vmfs_fs_create] returned, for an event that is a call
    of it ([None] inside [Some] for [NULL]). *)
Definition fs_created (e : fevent) : option (option Z) :=
  match e with
  | existT c r =>
      match c return fresp c -> option (option Z) with
      | vmfs_fs_create _ => fun r => Some r
      | _ => fun _ => None
      end r
  end.

(** The value of [*opts] that [fuse_opt_parse] left, for an event that is a
    call of it. *)
Definition parsed_opts (e : fevent) : option vmfs_fuse_opts :=
  match e with
  | existT c r =>
      match c return fresp c -> option vmfs_fuse_opts with
      | fuse_opt_parse _ _ => fun r => Some (snd r)
      | _ => fun _ => None
      end r
  end.

(** Set-up events and the tear-down calls that answer them: a mount that
    gave a channel and [fuse_unmount]; a session that was created and
    [fuse_session_destroy]; signal handlers that were set and
    [fuse_remove_signal_handlers]; a channel added to a session and
    [fuse_session_remove_chan]. *)
Definition mounted (e : fevent) : option (option string * Z) :=
  match e with
  | existT c r =>
      match c return fresp c -> option (option string * Z) with
      | fuse_mount mp _ =>
          fun r => match fst r with Some ch => Some (mp, ch) | None => None end
      | _ => fun _ => None
      end r
  end.

Definition unmounted (c : fcall) : option (option string * Z) :=
  match c with fuse_unmount mp ch => Some (mp, ch) | _ => None end.

Definition session_created (e : fevent) : option Z :=
  match e with
  | existT c r =>
      match c return fresp c -> option Z with
      | fuse_lowlevel_new _ _ => fun r => fst r
      | _ => fun _ => None
      end r
  end.

Definition session_destroyed (c : fcall) : option Z :=
  match c with fuse_session_destroy se => Some se | _ => None end.

Definition handlers_set (e : fevent) : option Z :=
  match e with
  | existT c r =>
      match c return fresp c -> option Z with
      | fuse_set_signal_handlers se =>
          fun r => if r =? -1 then None else Some se
      | _ => fun _ => None
      end r
  end.

Definition handlers_removed (c : fcall) : option Z :=
  match c with fuse_remove_signal_handlers se => Some se | _ => None end.

Definition chan_added (c : fcall) : option Z :=
  match c with fuse_session_add_chan _ ch => Some ch | _ => None end.

Definition chan_removed (c : fcall) : option Z :=
  match c with fuse_session_remove_chan ch => Some ch | _ => None end.

(** *** An environment for the bridge *)

(** A world for examples: the files that exist, with their modes, and
    whether the volume can be opened.  Every other call succeeds. *)
Record demo_world : Type := {
  files : list (string * Z);
  volume_ok : bool;
  parsed_mountpoint : option string
}.

Fixpoint file_mode (l : list (string * Z)) (path : string) : option Z :=
  match l with
  | [] => None
  | (p, m) :: l' => if String.eqb p path then Some m else file_mode l' path
  end.

Definition stat_zero : stat_t :=
  {| st_ino := 0; st_mode := 0; st_nlink := 0; st_size := 0 |}.

Definition demo_handle : fhandler (W := demo_world) :=
  fun c =>
    match c as c0 return demo_world -> fresp c0 * demo_world with
    | fuse_req_userdata _ => fun w => (7, w)
    | vmfs_inode_stat_from_blkid _ blk =>
        fun w =>
          if blk =? 0 then ((-1, stat_zero), w)
          else ((0, {| st_ino := blk; st_mode := 16877; st_nlink := 2;
                       st_size := 4096 |}), w)
    | fuse_reply_attr _ _ _ => fun w => (0, w)
    | fuse_reply_err _ _ => fun w => (0, w)
    | fprintf_stderr _ => fun w => (0, w)
    | stat path =>
        fun w =>
          match file_mode (files w) path with
          | Some m => ((0, {| st_ino := 1; st_mode := m; st_nlink := 1;
                              st_size := 0 |}), w)
          | None => ((-1, stat_zero), w)
          end
    | strdup s => fun w => (Some s, w)
    | vmfs_lvm_add_extent _ _ => fun w => (0, w)
    | vmfs_host_init => fun w => (tt, w)
    | vmfs_lvm_create _ => fun w => (Some 1, w)
    | fuse_opt_parse args opts =>
        fun w => ((0, args, set_mountpoint opts (parsed_mountpoint w)), w)
    | fuse_opt_add_arg args a => fun w => ((0, args ++ [a]), w)
    | vmfs_fs_create _ => fun w => (Some 7, w)
    | vmfs_fs_open _ => fun w => (if volume_ok w then 0 else -1, w)
    | fuse_mount _ args => fun w => ((Some 3, args), w)
    | fuse_lowlevel_new args _ => fun w => ((Some 5, args), w)
    | fuse_daemonize _ => fun w => (0, w)
    | fuse_set_signal_handlers _ => fun w => (0, w)
    | fuse_session_add_chan _ _ => fun w => (tt, w)
    | fuse_session_loop_mt _ => fun w => (0, w)
    | fuse_remove_signal_handlers _ => fun w => (tt, w)
    | fuse_session_remove_chan _ => fun w => (tt, w)
    | fuse_session_destroy _ => fun w => (tt, w)
    | fuse_unmount _ _ => fun w => (tt, w)
    | vmfs_fs_close _ => fun w => (tt, w)
    | fuse_opt_free_args _ => fun w => (tt, w)
    | free _ => fun w => (tt, w)
    end.

(** A block device, a directory and a character device. *)
Definition demo_w : demo_world :=
  {| files := [("/dev/sdb", 25008); ("/mnt", 16877); ("/dev/tty", 8592)];
     volume_ok := true;
     parsed_mountpoint := Some "/mnt" |}.

End Fuse.

(** ** More small inputs *)

Module Example2.

(** A file system whose block size is [0]. *)
Definition fs_empty : vmfs_fs_t :=
  {| fbb := Example.bitmap_at 4096; sbc := Example.bitmap_at 8192;
     pbc := Example.bitmap_at 12288; fdc := Example.bitmap_at 16384;
     block_size := 0 |}.

(** Options with an LVM structure and no mount point yet, and the same once
    the mount point is set. *)
Definition opts0 : Fuse.vmfs_fuse_opts :=
  {| Fuse.lvm := Some 1; Fuse.mountpoint := None; Fuse.foreground := 0 |}.

Definition opts_mnt : Fuse.vmfs_fuse_opts :=
  {| Fuse.lvm := Some 1; Fuse.mountpoint := Some "/mnt";
     Fuse.foreground := 0 |}.

(** The world of [Fuse.demo_w] when the command line names no directory. *)
Definition demo_no_mountpoint : Fuse.demo_world :=
  {| Fuse.files := Fuse.files Fuse.demo_w; Fuse.volume_ok := true;
     Fuse.parsed_mountpoint := None |}.

(** The same world when the volume cannot be opened. *)
Definition demo_bad_volume : Fuse.demo_world :=
  {| Fuse.files := Fuse.files Fuse.demo_w; Fuse.volume_ok := false;
     Fuse.parsed_mountpoint := Some "/mnt" |}.

Definition argv0 : list string := ["vmfs-fuse"; "/dev/sdb"; "/mnt"].

(** The volume [Example.w0] on a device that accepts no more bytes, and on
    one that accepts the bytes of one entry only. *)
Definition w_no_room : Disk.world :=
  {| Disk.disk := Disk.disk Example.w0; Disk.written := []; Disk.room := 0 |}.

Definition w_one_store : Disk.world :=
  {| Disk.disk := Disk.disk Example.w0; Disk.written := [];
     Disk.room := 1024 |}.

End Example2.

(** * Properties *)

(** ** Bit fields *)

Module BitsFacts.

Lemma testbit_u32 x n : Z.testbit (u32 x) n = (n <? 32) && Z.testbit x n.
Proof. unfold u32. apply Z.testbit_mod_pow2. lia. Qed.

Lemma u32_small x : 0 <= x < 2 ^ 32 -> u32 x = x.
Proof. intros Hx. unfold u32. apply Z.mod_small. exact Hx. Qed.

Lemma testbit_bf_put f v n :
  0 <= bf_shift f -> 0 <= bf_width f -> 0 <= n ->
  Z.testbit (bf_put f v) n =
  (bf_shift f <=? n) && (n <? bf_shift f + bf_width f) &&
  Z.testbit v (n - bf_shift f).
Proof.
  intros Hs Hw Hn. unfold bf_put.
  rewrite Z.shiftl_spec by exact Hn.
  rewrite Z.land_spec, Z.testbit_ones by exact Hw.
  destruct (Z.leb_spec (bf_shift f) n) as [Hle | Hlt].
  - replace (0 <=? n - bf_shift f) with true by (symmetry; apply Z.leb_le; lia).
    destruct (Z.ltb_spec (n - bf_shift f) (bf_width f)),
             (Z.ltb_spec n (bf_shift f + bf_width f)); try lia;
      simpl; rewrite ?andb_true_r, ?andb_false_r; reflexivity.
  - rewrite (Z.testbit_neg_r v) by lia. reflexivity.
Qed.

Lemma testbit_bf_get f x n :
  0 <= bf_width f -> 0 <= n ->
  Z.testbit (bf_get f x) n =
  (n <? bf_width f) && Z.testbit x (n + bf_shift f).
Proof.
  intros Hw Hn. unfold bf_get.
  rewrite Z.land_spec, Z.shiftr_spec, Z.testbit_ones by assumption.
  replace (0 <=? n) with true by (symmetry; apply Z.leb_le; exact Hn).
  simpl. apply andb_comm.
Qed.

(** Extraction commutes with [|]. *)
Lemma bf_get_lor f a b : bf_get f (Z.lor a b) = Z.lor (bf_get f a) (bf_get f b).
Proof.
  unfold bf_get. rewrite Z.shiftr_lor. apply Z.land_lor_distr_l.
Qed.

(** Truncation to 32 bits does not change a field of the word. *)
Lemma bf_get_u32 f x : bf_ok f -> bf_get f (u32 x) = bf_get f x.
Proof.
  intros (Hs & Hw & Hsw). apply Z.bits_inj'. intros n Hn.
  rewrite !testbit_bf_get, testbit_u32 by assumption.
  destruct (Z.ltb_spec n (bf_width f)); simpl; [| reflexivity].
  replace (n + bf_shift f <? 32) with true by (symmetry; apply Z.ltb_lt; lia).
  reflexivity.
Qed.

(** A field reads back what was put in it, cut to its width. *)
Lemma bf_get_put f v :
  bf_ok f -> bf_get f (bf_put f v) = Z.land v (Z.ones (bf_width f)).
Proof.
  intros (Hs & Hw & Hsw). apply Z.bits_inj'. intros n Hn.
  rewrite testbit_bf_get, testbit_bf_put by lia.
  rewrite Z.land_spec, Z.testbit_ones by exact Hw.
  replace (n + bf_shift f - bf_shift f) with n by lia.
  replace (0 <=? n) with true by (symmetry; apply Z.leb_le; exact Hn).
  destruct (Z.ltb_spec n (bf_width f)); simpl;
    rewrite ?andb_false_r; [| reflexivity].
  replace (bf_shift f <=? n + bf_shift f) with true
    by (symmetry; apply Z.leb_le; lia).
  replace (n + bf_shift f <? bf_shift f + bf_width f) with true
    by (symmetry; apply Z.ltb_lt; lia).
  simpl. rewrite andb_true_r. reflexivity.
Qed.

Lemma bf_get_put_fits f v : bf_ok f -> bf_fits f v -> bf_get f (bf_put f v) = v.
Proof.
  intros Hf Hv. rewrite bf_get_put by exact Hf.
  destruct Hf as (Hs & Hw & Hsw).
  rewrite Z.land_ones by exact Hw. apply Z.mod_small. exact Hv.
Qed.

(** A field does not see what was put in a field disjoint from it. *)
Lemma bf_get_put_disjoint f g v :
  bf_ok f -> bf_ok g -> bf_disjoint f g -> bf_get f (bf_put g v) = 0.
Proof.
  intros (Hs & Hw & Hsw) (Hs' & Hw' & Hsw') Hd. apply Z.bits_inj'. intros n Hn.
  rewrite testbit_bf_get, testbit_bf_put, Z.bits_0 by lia.
  destruct (Z.ltb_spec n (bf_width f)); simpl; [| reflexivity].
  destruct (Z.leb_spec (bf_shift g) (n + bf_shift f)); simpl; [| reflexivity].
  destruct (Z.ltb_spec (n + bf_shift f) (bf_shift g + bf_width g)); simpl;
    [| reflexivity].
  unfold bf_disjoint in Hd. lia.
Qed.

Lemma bf_disjoint_sym f g : bf_disjoint f g -> bf_disjoint g f.
Proof. unfold bf_disjoint. tauto. Qed.

Lemma bf_fits_nonneg f v : bf_fits f v -> 0 <= v.
Proof. unfold bf_fits. lia. Qed.

End BitsFacts.

Import BitsFacts.

(** ** The macros of the header *)

Section MacroFacts.
Context {H : vmfs_h}.
Hypothesis Hok : vmfs_h_ok H.

Local Ltac field_facts :=
  destruct Hok as [Ht [Hfb Hfbd] (Hsbe & Hsbi & Hsbte & Hsbti & Hsbei)
                   (Hpbe & Hpbi & Hpbte & Hpbti & Hpbei)
                   (Hfde & Hfdi & Hfdte & Hfdti & Hfdei)
                   (Htfb & Htsb & Htpb & Htfd) Hdist].

Local Ltac fields :=
  repeat first
    [ rewrite bf_get_u32 by assumption
    | rewrite bf_get_lor
    | rewrite bf_get_put_fits by assumption
    | rewrite bf_get_put_disjoint
        by (assumption || (apply bf_disjoint_sym; assumption))
    | rewrite Z.lor_0_l
    | rewrite Z.lor_0_r ].

(** The tag of a built identifier is the tag of its class, whatever the
    coordinates. *)
Lemma type_of_FB_BUILD item :
  VMFS_BLK_TYPE (VMFS_BLK_FB_BUILD item) = VMFS_BLK_TYPE_FB.
Proof. field_facts. unfold VMFS_BLK_TYPE, VMFS_BLK_FB_BUILD. fields. reflexivity. Qed.

Lemma type_of_SB_BUILD entry item :
  VMFS_BLK_TYPE (VMFS_BLK_SB_BUILD entry item) = VMFS_BLK_TYPE_SB.
Proof. field_facts. unfold VMFS_BLK_TYPE, VMFS_BLK_SB_BUILD. fields. reflexivity. Qed.

Lemma type_of_PB_BUILD entry item :
  VMFS_BLK_TYPE (VMFS_BLK_PB_BUILD entry item) = VMFS_BLK_TYPE_PB.
Proof. field_facts. unfold VMFS_BLK_TYPE, VMFS_BLK_PB_BUILD. fields. reflexivity. Qed.

Lemma type_of_FD_BUILD entry item :
  VMFS_BLK_TYPE (VMFS_BLK_FD_BUILD entry item) = VMFS_BLK_TYPE_FD.
Proof. field_facts. unfold VMFS_BLK_TYPE, VMFS_BLK_FD_BUILD. fields. reflexivity. Qed.

(** The coordinates of a built identifier are the ones it was built from,
    when they fit their fields. *)
Lemma item_of_FB_BUILD item :
  bf_fits fb_item_bits item -> VMFS_BLK_FB_ITEM (VMFS_BLK_FB_BUILD item) = item.
Proof.
  intros Hi. field_facts. unfold VMFS_BLK_FB_ITEM, VMFS_BLK_FB_BUILD. fields.
  reflexivity.
Qed.

Lemma coords_of_SB_BUILD entry item :
  bf_fits sb_entry_bits entry -> bf_fits sb_item_bits item ->
  VMFS_BLK_SB_ENTRY (VMFS_BLK_SB_BUILD entry item) = entry /\
  VMFS_BLK_SB_ITEM (VMFS_BLK_SB_BUILD entry item) = item.
Proof.
  intros He Hi. field_facts.
  unfold VMFS_BLK_SB_ENTRY, VMFS_BLK_SB_ITEM, VMFS_BLK_SB_BUILD.
  split; fields; reflexivity.
Qed.

Lemma coords_of_PB_BUILD entry item :
  bf_fits pb_entry_bits entry -> bf_fits pb_item_bits item ->
  VMFS_BLK_PB_ENTRY (VMFS_BLK_PB_BUILD entry item) = entry /\
  VMFS_BLK_PB_ITEM (VMFS_BLK_PB_BUILD entry item) = item.
Proof.
  intros He Hi. field_facts.
  unfold VMFS_BLK_PB_ENTRY, VMFS_BLK_PB_ITEM, VMFS_BLK_PB_BUILD.
  split; fields; reflexivity.
Qed.

Lemma coords_of_FD_BUILD entry item :
  bf_fits fd_entry_bits entry -> bf_fits fd_item_bits item ->
  VMFS_BLK_FD_ENTRY (VMFS_BLK_FD_BUILD entry item) = entry /\
  VMFS_BLK_FD_ITEM (VMFS_BLK_FD_BUILD entry item) = item.
Proof.
  intros He Hi. field_facts.
  unfold VMFS_BLK_FD_ENTRY, VMFS_BLK_FD_ITEM, VMFS_BLK_FD_BUILD.
  split; fields; reflexivity.
Qed.

End MacroFacts.

(** ** Running a program *)

Section RunFacts.
Context {W : Type} (h : handler (W := W)).

Lemma run_Ret {A} (a : A) (w : W) : run h (Ret a) w = (a, w, []).
Proof. reflexivity. Qed.

Lemma run_Vis {A} (c : call) (k : resp c -> prog A) (w : W) :
  run h (Vis c k) w =
  (let '(r, w1) := h c w in
   let '(a, w2, tr) := run h (k r) w1 in (a, w2, existT c r :: tr)).
Proof. reflexivity. Qed.

End RunFacts.

(** ** Block identifiers *)

Section Resolve.
Context {H : vmfs_h}.

Lemma spec_vmfs_h_ok : vmfs_h_ok spec_vmfs_h.
Proof.
  constructor; unfold bf_ok, bf_disjoint, bf_fits; simpl; lia.
Qed.

(** Resolving a built identifier, class by class. *)
Lemma get_bitmap_info_FB_BUILD (fs : vmfs_fs_t) (item : Z) :
  vmfs_h_ok H -> bf_fits fb_item_bits item ->
  vmfs_block_get_bitmap_info fs (VMFS_BLK_FB_BUILD item)
  = Some (fbb fs, 0, item).
Proof.
  intros Hok Hi. unfold vmfs_block_get_bitmap_info; cbv zeta.
  rewrite type_of_FB_BUILD, Z.eqb_refl, item_of_FB_BUILD by assumption.
  reflexivity.
Qed.

Lemma get_bitmap_info_SB_BUILD (fs : vmfs_fs_t) (entry item : Z) :
  vmfs_h_ok H -> bf_fits sb_entry_bits entry -> bf_fits sb_item_bits item ->
  vmfs_block_get_bitmap_info fs (VMFS_BLK_SB_BUILD entry item)
  = Some (sbc fs, entry, item).
Proof.
  intros Hok He Hi. unfold vmfs_block_get_bitmap_info; cbv zeta.
  pose proof (tags_distinct Hok) as (D1 & D2 & D3 & D4 & D5 & D6).
  destruct (coords_of_SB_BUILD Hok entry item) as [-> ->]; try assumption.
  rewrite type_of_SB_BUILD by assumption.
  rewrite (proj2 (Z.eqb_neq _ _)) by congruence.
  rewrite Z.eqb_refl. reflexivity.
Qed.

Lemma get_bitmap_info_PB_BUILD (fs : vmfs_fs_t) (entry item : Z) :
  vmfs_h_ok H -> bf_fits pb_entry_bits entry -> bf_fits pb_item_bits item ->
  vmfs_block_get_bitmap_info fs (VMFS_BLK_PB_BUILD entry item)
  = Some (pbc fs, entry, item).
Proof.
  intros Hok He Hi. unfold vmfs_block_get_bitmap_info; cbv zeta.
  pose proof (tags_distinct Hok) as (D1 & D2 & D3 & D4 & D5 & D6).
  destruct (coords_of_PB_BUILD Hok entry item) as [-> ->]; try assumption.
  rewrite type_of_PB_BUILD by assumption.
  rewrite !(proj2 (Z.eqb_neq VMFS_BLK_TYPE_PB _)) by congruence.
  rewrite Z.eqb_refl. reflexivity.
Qed.

Lemma get_bitmap_info_FD_BUILD (fs : vmfs_fs_t) (entry item : Z) :
  vmfs_h_ok H -> bf_fits fd_entry_bits entry -> bf_fits fd_item_bits item ->
  vmfs_block_get_bitmap_info fs (VMFS_BLK_FD_BUILD entry item)
  = Some (fdc fs, entry, item).
Proof.
  intros Hok He Hi. unfold vmfs_block_get_bitmap_info; cbv zeta.
  pose proof (tags_distinct Hok) as (D1 & D2 & D3 & D4 & D5 & D6).
  destruct (coords_of_FD_BUILD Hok entry item) as [-> ->]; try assumption.
  rewrite type_of_FD_BUILD by assumption.
  rewrite !(proj2 (Z.eqb_neq VMFS_BLK_TYPE_FD _)) by congruence.
  rewrite Z.eqb_refl. reflexivity.
Qed.

(** C3: for each of the four block classes, resolving the identifier that
    the class's builder makes from coordinates that fit their fields gives
    the bitmap of that class and the coordinates themselves.  For a File
    Block the entry index is [0] and the item index is the flat index. *)
Theorem resolve_build_roundtrip (fs : vmfs_fs_t) (Hok : vmfs_h_ok H) :
  (forall item,
      bf_fits fb_item_bits item ->
      vmfs_block_get_bitmap_info fs (VMFS_BLK_FB_BUILD item)
      = Some (fbb fs, 0, item)) /\
  (forall entry item,
      bf_fits sb_entry_bits entry -> bf_fits sb_item_bits item ->
      vmfs_block_get_bitmap_info fs (VMFS_BLK_SB_BUILD entry item)
      = Some (sbc fs, entry, item)) /\
  (forall entry item,
      bf_fits pb_entry_bits entry -> bf_fits pb_item_bits item ->
      vmfs_block_get_bitmap_info fs (VMFS_BLK_PB_BUILD entry item)
      = Some (pbc fs, entry, item)) /\
  (forall entry item,
      bf_fits fd_entry_bits entry -> bf_fits fd_item_bits item ->
      vmfs_block_get_bitmap_info fs (VMFS_BLK_FD_BUILD entry item)
      = Some (fdc fs, entry, item)).
Proof.
  repeat split; intros.
  - apply get_bitmap_info_FB_BUILD; assumption.
  - apply get_bitmap_info_SB_BUILD; assumption.
  - apply get_bitmap_info_PB_BUILD; assumption.
  - apply get_bitmap_info_FD_BUILD; assumption.
Qed.

(** C6: a block identifier whose class tag is none of the four known tags is
    rejected by [vmfs_block_get_bitmap_info], which stores none of its
    outputs; [vmfs_block_alloc] rejects such a class argument without calling
    any collaborator, so before any search or mutation. *)
Theorem unknown_class_rejected (fs : vmfs_fs_t) (t : Z) :
  t <> VMFS_BLK_TYPE_FB -> t <> VMFS_BLK_TYPE_SB ->
  t <> VMFS_BLK_TYPE_PB -> t <> VMFS_BLK_TYPE_FD ->
  (forall blk_id,
      VMFS_BLK_TYPE blk_id = t ->
      vmfs_block_get_bitmap_info fs blk_id = None) /\
  (forall (W : Type) (h : handler) (w : W),
      run h (vmfs_block_alloc fs t) w = ((-1, None), w, [])).
Proof.
  intros N1 N2 N3 N4. split.
  - intros blk_id Ht. subst t. unfold vmfs_block_get_bitmap_info. cbv zeta.
    rewrite !(proj2 (Z.eqb_neq (VMFS_BLK_TYPE blk_id) _)) by assumption.
    reflexivity.
  - intros W h w. unfold vmfs_block_alloc, alloc_select_bitmap.
    rewrite !(proj2 (Z.eqb_neq t _)) by assumption.
    reflexivity.
Qed.

(** The class test at the head of [vmfs_block_zeroize_fb]. *)
Lemma zeroize_fb_other_class (fs : vmfs_fs_t) (blk_id : Z)
    (W : Type) (h : handler) (w : W) :
  VMFS_BLK_TYPE blk_id <> VMFS_BLK_TYPE_FB ->
  run h (vmfs_block_zeroize_fb fs blk_id) w = (Some (-1), w, []).
Proof.
  intros N. unfold vmfs_block_zeroize_fb.
  rewrite (proj2 (Z.eqb_neq _ _) N). reflexivity.
Qed.

(** C7: for an identifier whose class tag is not the File Block tag,
    [vmfs_block_zeroize_fb] returns [-1] without calling any collaborator:
    no write is issued and the volume is left as it was. *)
Theorem zeroize_rejects_other_classes (fs : vmfs_fs_t) (blk_id : Z)
    (W : Type) (h : handler) (w : W) :
  VMFS_BLK_TYPE blk_id <> VMFS_BLK_TYPE_FB ->
  run h (vmfs_block_zeroize_fb fs blk_id) w = (Some (-1), w, []).
Proof. apply zeroize_fb_other_class. Qed.

(** The second [switch] of [vmfs_block_alloc] takes a branch for every class
    the first one accepts. *)
Lemma alloc_build_id_covers (fs : vmfs_fs_t) (blk_type : Z)
    (bmp bmp' : vmfs_bitmap_t) (entry : vmfs_bitmap_entry_t) (item : Z) :
  alloc_select_bitmap fs blk_type = Some bmp ->
  exists blk_id,
    alloc_build_id bmp' entry item blk_type = Some blk_id /\
    (vmfs_h_ok H -> VMFS_BLK_TYPE blk_id = blk_type).
Proof.
  unfold alloc_select_bitmap, alloc_build_id.
  destruct (Z.eqb_spec blk_type VMFS_BLK_TYPE_FB) as [-> | _].
  { intros _. eexists. split; [reflexivity |].
    intros Hok. apply type_of_FB_BUILD, Hok. }
  destruct (Z.eqb_spec blk_type VMFS_BLK_TYPE_SB) as [-> | _].
  { intros _. eexists. split; [reflexivity |].
    intros Hok. apply type_of_SB_BUILD, Hok. }
  destruct (Z.eqb_spec blk_type VMFS_BLK_TYPE_PB) as [-> | _].
  { intros _. eexists. split; [reflexivity |].
    intros Hok. apply type_of_PB_BUILD, Hok. }
  destruct (Z.eqb_spec blk_type VMFS_BLK_TYPE_FD) as [-> | _].
  { intros _. eexists. split; [reflexivity |].
    intros Hok. apply type_of_FD_BUILD, Hok. }
  discriminate.
Qed.

(** C10: when [vmfs_block_alloc] returns [0] it has stored a block
    identifier through its output parameter, and the class tag of that
    identifier is the requested class. *)
Theorem alloc_success_writes_id (fs : vmfs_fs_t) (blk_type : Z)
    (W : Type) (h : handler) (w w' : W) (rc : Z) (out : option Z)
    (tr : list event) :
  run h (vmfs_block_alloc fs blk_type) w = ((rc, out), w', tr) ->
  rc = 0 ->
  exists blk_id,
    out = Some blk_id /\ (vmfs_h_ok H -> VMFS_BLK_TYPE blk_id = blk_type).
Proof.
  unfold vmfs_block_alloc.
  destruct (alloc_select_bitmap fs blk_type) as [bmp |] eqn:Hsel.
  2:{ simpl. intros [= <- <- <- <-]. discriminate. }
  rewrite run_Vis. destruct (h _ w) as [[rc1 e1] w1].
  destruct (rc1 =? -1).
  { simpl. intros [= <- <- <- <-]. discriminate. }
  rewrite run_Vis. destruct (h _ w1) as [[[rc2 e2] item] w2].
  destruct (rc2 =? -1).
  { rewrite run_Vis. destruct (h _ w2) as [r3 w3].
    simpl. intros [= <- <- <- <-]. discriminate. }
  rewrite run_Vis. destruct (h _ w2) as [r3 w3].
  rewrite run_Vis. destruct (h _ w3) as [r4 w4].
  simpl. intros [= <- <- <- <-] _.
  eapply alloc_build_id_covers. exact Hsel.
Qed.

End Resolve.

(** ** The zeroize loop *)

Section ZeroizeLoop.
Context {W : Type} (h : handler (W := W)).
Variables (fs : vmfs_fs_t) (blk_item : Z) (buf : list Byte.byte).
Variables (c len : Z).

Local Abbreviation loop fuel pos :=
  (zeroize_loop fuel fs blk_item buf c len pos).
Local Abbreviation nth_write pos := (nth_write fs blk_item buf c pos).

Lemma nth_write_shift (pos : Z) (n : nat) :
  map (nth_write pos) (seq 1 n) = map (nth_write (pos + c)) (seq 0 n).
Proof.
  rewrite <- seq_shift, map_map. apply map_ext. intros i.
  unfold nth_write. f_equal. lia.
Qed.

(** Every call of the loop is a write of [c] bytes of [buf], at offsets that
    advance by [c]. *)
Lemma zeroize_loop_calls (fuel : nat) :
  forall pos w r w' tr,
    run h (loop fuel pos) w = (r, w', tr) ->
    map ev_call tr = map (nth_write pos) (seq 0 (length tr)).
Proof.
  induction fuel as [| fuel IH]; intros pos w r w' tr; simpl.
  - intros [= <- <- <-]. reflexivity.
  - destruct (pos <? len).
    2:{ simpl. intros [= <- <- <-]. reflexivity. }
    rewrite run_Vis. destruct (h _ w) as [n w1]. simpl in n.
    destruct (negb (n =? c)).
    + simpl. intros [= <- <- <-]. simpl. unfold nth_write. simpl.
      do 2 f_equal. lia.
    + destruct (run h (loop fuel (pos + c)) w1) as [[r1 w2] tr1] eqn:Hrun.
      intros [= <- <- <-]. simpl length.
      change (seq 0 (S (length tr1))) with (0%nat :: seq 1 (length tr1)).
      simpl map. rewrite nth_write_shift, <- (IH _ _ _ _ _ Hrun).
      unfold nth_write at 1. simpl. do 2 f_equal. lia.
Qed.

(** A write that does not return [c] is the last call, and the loop
    returns [-1]. *)
Lemma zeroize_loop_short (fuel : nat) :
  forall pos w r w' tr (i : nat) ev,
    run h (loop fuel pos) w = (r, w', tr) ->
    tr !! i = Some ev -> ev_rc ev <> c ->
    r = Some (-1) /\ length tr = S i.
Proof.
  induction fuel as [| fuel IH]; intros pos w r w' tr i ev; simpl.
  - intros [= <- <- <-]. discriminate.
  - destruct (pos <? len).
    2:{ simpl. intros [= <- <- <-]. discriminate. }
    rewrite run_Vis. destruct (h _ w) as [n w1]. simpl in n.
    destruct (Z.eqb_spec n c) as [-> | Hn]; simpl negb; cbv iota.
    + destruct (run h (loop fuel (pos + c)) w1) as [[r1 w2] tr1] eqn:Hrun.
      intros [= <- <- <-]. destruct i as [| i]; simpl.
      * intros [= <-]. simpl. congruence.
      * intros Hi Hev. destruct (IH _ _ _ _ _ _ _ Hrun Hi Hev) as [-> ->].
        split; reflexivity.
    + simpl. intros [= <- <- <-]. destruct i as [| i]; simpl.
      * intros _ _. split; reflexivity.
      * discriminate.
Qed.

(** With enough fuel, a run without a short write returns [0] after the
    least number of writes that covers [len]. *)
Lemma zeroize_loop_complete (fuel : nat) :
  0 < c ->
  forall pos w r w' tr,
    run h (loop fuel pos) w = (r, w', tr) ->
    Z.max 0 (len - pos) < Z.of_nat fuel ->
    all_complete c tr ->
    r = Some 0 /\
    len <= pos + Z.of_nat (length tr) * c /\
    (tr <> [] -> pos + (Z.of_nat (length tr) - 1) * c < len).
Proof.
  intros Hc. induction fuel as [| fuel IH]; intros pos w r w' tr; simpl run.
  - intros _ Hf. lia.
  - destruct (Z.ltb_spec pos len) as [Hlt | Hge].
    2:{ simpl. intros [= <- <- <-] _ _. simpl.
        split; [reflexivity | split; [lia | congruence]]. }
    rewrite run_Vis. destruct (h _ w) as [n w1]. simpl in n.
    destruct (Z.eqb_spec n c) as [-> | Hn]; simpl negb; cbv iota.
    + destruct (run h (loop fuel (pos + c)) w1) as [[r1 w2] tr1] eqn:Hrun.
      intros [= <- <- <-] Hf Hall.
      apply Forall_cons in Hall as [_ Hall].
      destruct (IH _ _ _ _ _ Hrun ltac:(lia) Hall) as (-> & Hcov & Hmin).
      split; [reflexivity |]. simpl length. split; [lia |].
      intros _. destruct tr1 as [| ev tr1].
      * simpl. lia.
      * specialize (Hmin ltac:(discriminate)). simpl length in *. lia.
    + simpl. intros [= <- <- <-] _ Hall.
      apply Forall_cons in Hall as [Hev _]. simpl in Hev. congruence.
Qed.

(** With enough fuel the loop ends within the bound. *)
Lemma zeroize_loop_ends (fuel : nat) :
  0 < c ->
  forall pos w,
    Z.max 0 (len - pos) < Z.of_nat fuel ->
    (run h (loop fuel pos) w).1.1 <> None.
Proof.
  intros Hc. induction fuel as [| fuel IH]; intros pos w Hf; simpl run.
  - lia.
  - destruct (Z.ltb_spec pos len) as [Hlt | Hge]; [| simpl; discriminate].
    rewrite run_Vis. destruct (h _ w) as [n w1]. simpl in n.
    destruct (negb (n =? c)); [simpl; discriminate |].
    specialize (IH (pos + c) w1 ltac:(lia)).
    destruct (run h (loop fuel (pos + c)) w1) as [[r1 w2] tr1]. exact IH.
Qed.

(** In a run without a short write the device reported [c] bytes for each
    call. *)
Lemma bytes_written_complete (tr : list event) :
  all_complete c tr ->
  Forall (fun e => is_write (ev_call e) = true) tr ->
  bytes_written tr = Z.of_nat (length tr) * c.
Proof.
  induction tr as [| ev tr IH]; intros Hall Hw.
  - reflexivity.
  - apply Forall_cons in Hall as [Hev Hall].
    apply Forall_cons in Hw as [Hwev Hw].
    simpl bytes_written. rewrite Hwev, Hev, (IH Hall Hw). simpl length. lia.
Qed.

Lemma calls_are_writes (tr : list event) (pos : Z) (n : nat) :
  map ev_call tr = map (nth_write pos) (seq 0 n) ->
  Forall (fun e => is_write (ev_call e) = true) tr.
Proof.
  intros Hm. apply List.Forall_forall. intros e He.
  apply (in_map ev_call) in He. rewrite Hm in He.
  apply in_map_iff in He as (i & <- & _). reflexivity.
Qed.

End ZeroizeLoop.

(** The number of chunks the loop writes is the ceiling of [len / c]. *)
Lemma ceil_div_unique (len c n : Z) :
  0 < c -> 0 <= n ->
  len <= n * c -> (0 < n -> (n - 1) * c < len) -> (n = 0 -> 0 <= len) ->
  n = ceil_div len c.
Proof.
  intros Hc Hn Hcov Hmin H0. unfold ceil_div.
  apply (Z.div_unique_pos _ _ n (len + c - 1 - n * c)); nia.
Qed.

(** ** [vmfs_block_zeroize_fb] *)

Section Zeroize.
Context {H : vmfs_h}.

Lemma zeroize_fb_unfold (fs : vmfs_fs_t) (blk_id : Z) :
  VMFS_BLK_TYPE blk_id = VMFS_BLK_TYPE_FB ->
  vmfs_block_zeroize_fb fs blk_id =
  zeroize_loop (S (Z.to_nat (vmfs_fs_get_blocksize fs))) fs
    (VMFS_BLK_FB_ITEM blk_id) (memset Byte.x00 M_DIO_BLK_SIZE)
    M_DIO_BLK_SIZE (vmfs_fs_get_blocksize fs) 0.
Proof.
  intros Ht. unfold vmfs_block_zeroize_fb, DECL_ALIGNED_BUFFER.
  rewrite Ht, Z.eqb_refl. reflexivity.
Qed.

(** With a positive chunk size the function returns: the bound on the
    iterations of its loop is never reached. *)
Lemma zeroize_fb_returns (fs : vmfs_fs_t) (blk_id : Z)
    (W : Type) (h : handler) (w : W) :
  0 < M_DIO_BLK_SIZE ->
  (run h (vmfs_block_zeroize_fb fs blk_id) w).1.1 <> None.
Proof.
  intros Hc. destruct (Z.eq_dec (VMFS_BLK_TYPE blk_id) VMFS_BLK_TYPE_FB) as [Ht | Ht].
  - rewrite (zeroize_fb_unfold fs blk_id Ht).
    apply zeroize_loop_ends; [exact Hc | lia].
  - rewrite (zeroize_fb_other_class fs blk_id W h w Ht). discriminate.
Qed.

(** C8: with a block size of 4096 and a chunk size of 512, a run of
    [vmfs_block_zeroize_fb] on a File Block identifier in which no write is
    short returns [0] after exactly the eight writes of 512 zero bytes at
    offsets 0, 512, ..., 3584 of the block.  And in every run, a write that
    returns another number than the chunk size (fewer bytes in particular)
    is the last call of the run, which returns [-1]. *)
Theorem zeroize_4096_in_512_chunks :
  (forall (fs : vmfs_fs_t) (blk_id : Z) (W : Type) (h : handler) (w w' : W)
          (r : option Z) (tr : list event),
      M_DIO_BLK_SIZE = 512 ->
      vmfs_fs_get_blocksize fs = 4096 ->
      VMFS_BLK_TYPE blk_id = VMFS_BLK_TYPE_FB ->
      run h (vmfs_block_zeroize_fb fs blk_id) w = (r, w', tr) ->
      all_complete 512 tr ->
      r = Some 0 /\
      map ev_call tr =
      map (fun p => vmfs_fs_write fs (VMFS_BLK_FB_ITEM blk_id) p
                      (repeat Byte.x00 512) 512)
          [0; 512; 1024; 1536; 2048; 2560; 3072; 3584]) /\
  (forall (fs : vmfs_fs_t) (blk_id : Z) (W : Type) (h : handler) (w w' : W)
          (r : option Z) (tr : list event) (i : nat) (ev : event),
      run h (vmfs_block_zeroize_fb fs blk_id) w = (r, w', tr) ->
      tr !! i = Some ev ->
      ev_rc ev <> M_DIO_BLK_SIZE ->
      r = Some (-1) /\ length tr = S i).
Proof.
  split.
  - intros fs blk_id W h w w' r tr Hc Hlen Ht Hrun Hall.
    rewrite (zeroize_fb_unfold fs blk_id Ht), Hc, Hlen in Hrun.
    destruct (zeroize_loop_complete h fs _ _ 512 4096 _ ltac:(lia)
                _ _ _ _ _ Hrun ltac:(lia) Hall) as (Hr & Hcov & Hmin).
    split; [exact Hr |].
    rewrite (zeroize_loop_calls h _ _ _ _ _ _ _ _ _ _ _ Hrun).
    assert (Hn : length tr = 8%nat).
    { destruct tr as [| ev tr]; [simpl in Hcov; lia |].
      specialize (Hmin ltac:(discriminate)). lia. }
    rewrite Hn. reflexivity.
  - intros fs blk_id W h w w' r tr i ev Hrun Hi Hev.
    destruct (Z.eq_dec (VMFS_BLK_TYPE blk_id) VMFS_BLK_TYPE_FB) as [Ht | Ht].
    + rewrite (zeroize_fb_unfold fs blk_id Ht) in Hrun.
      exact (zeroize_loop_short h _ _ _ _ _ _ _ _ _ _ _ _ _ Hrun Hi Hev).
    + rewrite (zeroize_fb_other_class fs blk_id W h w Ht) in Hrun.
      injection Hrun as <- <- <-. discriminate.
Qed.

(** C9: for a block size [len] and a chunk size [c > 0], a run of
    [vmfs_block_zeroize_fb] on a File Block identifier in which no write is
    short makes exactly [ceil (len / c)] writes, each of [c] bytes, at
    offsets [0], [c], [2c], ...; they store [ceil (len / c) * c] bytes, which
    is more than the block size when [len] is not a multiple of [c]. *)
Theorem zeroize_writes_whole_chunks (fs : vmfs_fs_t) (blk_id : Z)
    (W : Type) (h : handler) (w w' : W) (r : option Z) (tr : list event) :
  0 < M_DIO_BLK_SIZE ->
  0 <= vmfs_fs_get_blocksize fs ->
  VMFS_BLK_TYPE blk_id = VMFS_BLK_TYPE_FB ->
  run h (vmfs_block_zeroize_fb fs blk_id) w = (r, w', tr) ->
  all_complete M_DIO_BLK_SIZE tr ->
  r = Some 0 /\
  Z.of_nat (length tr) = ceil_div (vmfs_fs_get_blocksize fs) M_DIO_BLK_SIZE /\
  map ev_call tr =
  map (nth_write fs (VMFS_BLK_FB_ITEM blk_id)
         (memset Byte.x00 M_DIO_BLK_SIZE) M_DIO_BLK_SIZE 0)
      (seq 0 (length tr)) /\
  bytes_written tr =
  ceil_div (vmfs_fs_get_blocksize fs) M_DIO_BLK_SIZE * M_DIO_BLK_SIZE /\
  (vmfs_fs_get_blocksize fs mod M_DIO_BLK_SIZE <> 0 ->
   vmfs_fs_get_blocksize fs < bytes_written tr).
Proof.
  intros Hc Hlen Ht Hrun Hall.
  rewrite (zeroize_fb_unfold fs blk_id Ht) in Hrun.
  set (c := M_DIO_BLK_SIZE) in *. set (len := vmfs_fs_get_blocksize fs) in *.
  destruct (zeroize_loop_complete h fs _ _ c len _ Hc
              _ _ _ _ _ Hrun ltac:(lia) Hall) as (Hr & Hcov & Hmin).
  pose proof (zeroize_loop_calls h _ _ _ _ _ _ _ _ _ _ _ Hrun) as Hcalls.
  assert (Hn : Z.of_nat (length tr) = ceil_div len c).
  { apply ceil_div_unique; try lia.
    intros Hpos. destruct tr as [| ev tr]; [simpl in Hpos; lia |].
    specialize (Hmin ltac:(discriminate)). lia. }
  assert (Hb : bytes_written tr = ceil_div len c * c).
  { rewrite <- Hn. apply bytes_written_complete; [exact Hall |].
    eapply calls_are_writes. exact Hcalls. }
  repeat split; try assumption.
  intros Hmod. rewrite Hb, <- Hn.
  destruct (Z.eq_dec len (Z.of_nat (length tr) * c)) as [Heq | Hne]; [| lia].
  exfalso. apply Hmod. rewrite Heq. apply Z.mod_mul. lia.
Qed.

End Zeroize.

Section ZeroizeWitness.
Import Example.
#[local] Existing Instance spec_vmfs_h.

Lemma zeroize_4096_in_512_chunks_witness :
  let fb5 := VMFS_BLK_FB_BUILD 5 in
  let good := run Disk.handle (vmfs_block_zeroize_fb fs0 fb5) w0 in
  let short :=
    run Disk.handle (vmfs_block_zeroize_fb fs0 fb5) w_short in
  (good.1.1 = Some 0 /\
   map ev_call good.2 =
   map (fun p => vmfs_fs_write fs0 5 p (repeat Byte.x00 512) 512)
       [0; 512; 1024; 1536; 2048; 2560; 3072; 3584]) /\
  (map ev_rc short.2 = [512; 512; 176] /\
   short.1.1 = Some (-1) /\ length short.2 = 3%nat).
Proof.
  intros fb5 good short. split.
  - apply (proj1 (@zeroize_4096_in_512_chunks spec_vmfs_h)
             fs0 fb5 Disk.world Disk.handle w0 good.1.2 good.1.1 good.2).
    + reflexivity.
    + reflexivity.
    + reflexivity.
    + vm_compute. reflexivity.
    + vm_compute. repeat constructor.
  - split; [vm_compute; reflexivity |].
    apply (proj2 (@zeroize_4096_in_512_chunks spec_vmfs_h)
             fs0 fb5 Disk.world Disk.handle w_short short.1.2 short.1.1
             short.2 2%nat
             (existT (vmfs_fs_write fs0 5 1024 (repeat Byte.x00 512) 512) 176)).
    + vm_compute. reflexivity.
    + vm_compute. reflexivity.
    + vm_compute. discriminate.
Defined.

Lemma zeroize_writes_whole_chunks_witness :
  let fb5 := VMFS_BLK_FB_BUILD 5 in
  let r := run Disk.handle (vmfs_block_zeroize_fb fs_odd fb5) w0 in
  r.1.1 = Some 0 /\
  Z.of_nat (length r.2) = 3 /\
  bytes_written r.2 = 1536 /\
  1300 < bytes_written r.2.
Proof.
  intros fb5 r.
  destruct (@zeroize_writes_whole_chunks spec_vmfs_h fs_odd fb5
              Disk.world Disk.handle w0 r.1.2 r.1.1 r.2)
    as (Hr & Hn & _ & Hb & Hover).
  - simpl. lia.
  - simpl. lia.
  - reflexivity.
  - vm_compute. reflexivity.
  - vm_compute. repeat constructor.
  - split; [exact Hr |]. split; [exact Hn |]. split; [exact Hb |].
    apply Hover. vm_compute. discriminate.
Defined.

End ZeroizeWitness.

(** ** Locking *)

Section Locking.
Context {H : vmfs_h}.

(** [!x] is [0] or [1], never [-1]. *)
Lemma c_lnot_never_minus_one (x : Z) : (c_lnot x =? -1) = false.
Proof. unfold c_lnot. destruct (x =? 0); reflexivity. Qed.

(** A trace without a lock call and without a search holds no
    acquisition. *)
Local Ltac no_acquisition Hacq :=
  let ev := fresh "ev" in
  let Hin := fresh "Hin" in
  let Hk := fresh "Hk" in
  destruct Hacq as (ev & Hin & Hk & _); simpl in Hin;
  repeat (destruct Hin as [Hin | Hin]; [subst ev; simpl in Hk;
                                        destruct Hk; discriminate |]);
  contradiction.

(** The acquisition found in the whole trace lies in the prefix [pre]. *)
Local Ltac acquisition_in_prefix Hacq :=
  let ev := fresh "ev" in
  let Hin := fresh "Hin" in
  let Hk := fresh "Hk" in
  let Hrc := fresh "Hrc" in
  destruct Hacq as (ev & Hin & Hk & Hrc); exists ev;
  split; [| split; [exact Hk | exact Hrc]];
  simpl in Hin |- *;
  repeat (destruct Hin as [Hin | Hin];
          [first [ left; exact Hin
                 | right; left; exact Hin
                 | right; right; left; exact Hin
                 | subst ev; simpl in Hk; destruct Hk; discriminate ] |]);
  contradiction.

(** C2: in every run of [vmfs_block_set_status] and of [vmfs_block_alloc] in
    which the lock of a bitmap entry is acquired, [vmfs_metadata_unlock] is
    called exactly once, on the header of that entry, after the acquisition
    and as the last call before the function returns.  This covers the exit
    where the codec rejects the change ([vmfs_bitmap_set_item_status] or
    [vmfs_bitmap_alloc_item] returns [-1]). *)
Theorem unlock_exactly_once (fs : vmfs_fs_t) (W : Type) (h : handler)
    (w : W) :
  (forall (blk_id status : Z) (tr : list event),
      tr = (run h (vmfs_block_set_status fs blk_id status) w).2 ->
      lock_acquired tr -> released_once fs tr) /\
  (forall (blk_type : Z) (tr : list event),
      tr = (run h (vmfs_block_alloc fs blk_type) w).2 ->
      lock_acquired tr -> released_once fs tr).
Proof.
  split.
  - intros blk_id status tr. unfold vmfs_block_set_status.
    destruct (vmfs_block_get_bitmap_info fs blk_id) as [[[bmp be] bi] |].
    2:{ simpl. intros -> Hacq. no_acquisition Hacq. }
    rewrite run_Vis. destruct (h _ w) as [[rc e] w1].
    destruct (rc =? -1).
    { simpl. intros -> Hacq. no_acquisition Hacq. }
    rewrite run_Vis. destruct (h _ w1) as [[rcl m] w2].
    rewrite c_lnot_never_minus_one.
    rewrite run_Vis. destruct (h _ w2) as [[rcs e2] w3].
    destruct (rcs =? -1).
    + rewrite run_Vis. destruct (h _ w3) as [ru w4]. simpl.
      intros -> Hacq. split; [reflexivity |].
      eexists [_; _; _], e2, ru. split; [reflexivity |].
      split; [reflexivity |]. acquisition_in_prefix Hacq.
    + rewrite run_Vis. destruct (h _ w3) as [rp w4].
      rewrite run_Vis. destruct (h _ w4) as [ru w5]. simpl.
      intros -> Hacq. split; [reflexivity |].
      eexists [_; _; _; _], e2, ru. split; [reflexivity |].
      split; [reflexivity |]. acquisition_in_prefix Hacq.
  - intros blk_type tr. unfold vmfs_block_alloc.
    destruct (alloc_select_bitmap fs blk_type) as [bmp |].
    2:{ simpl. intros -> Hacq. no_acquisition Hacq. }
    rewrite run_Vis. destruct (h _ w) as [[rc e] w1].
    destruct (Z.eqb_spec rc (-1)) as [-> | Hrc].
    { simpl. intros -> Hacq.
      destruct Hacq as (ev & [<- | []] & _ & Hne). simpl in Hne. congruence. }
    rewrite run_Vis. destruct (h _ w1) as [[[rca e2] item] w2].
    destruct (rca =? -1).
    + rewrite run_Vis. destruct (h _ w2) as [ru w3]. simpl.
      intros -> Hacq. split; [reflexivity |].
      eexists [_; _], e2, ru. split; [reflexivity |].
      split; [reflexivity |]. acquisition_in_prefix Hacq.
    + rewrite run_Vis. destruct (h _ w2) as [rp w3].
      rewrite run_Vis. destruct (h _ w3) as [ru w4]. simpl.
      intros -> Hacq. split; [reflexivity |].
      eexists [_; _; _], e2, ru. split; [reflexivity |].
      split; [reflexivity |]. acquisition_in_prefix Hacq.
Qed.

(** Whatever [vmfs_metadata_lock] returns, [vmfs_block_set_status] goes on
    to change the entry: the test on the result of the lock call never
    succeeds. *)
Lemma set_status_lock_result_unused (fs : vmfs_fs_t) (blk_id status : Z)
    (W : Type) (h : handler) (w : W) (bmp : vmfs_bitmap_t) (be bi : Z) :
  vmfs_block_get_bitmap_info fs blk_id = Some (bmp, be, bi) ->
  (h (vmfs_bitmap_get_entry bmp be bi) w).1.1 <> -1 ->
  exists ev_get ev_lock ev_set rest,
    (run h (vmfs_block_set_status fs blk_id status) w).2
    = ev_get :: ev_lock :: ev_set :: rest /\
    is_lock (ev_call ev_lock) = true /\
    is_mutation (ev_call ev_set) = true.
Proof.
  intros Hinfo. unfold vmfs_block_set_status. rewrite Hinfo.
  rewrite run_Vis. destruct (h _ w) as [[rc e] w1].
  intros Hrc. change (rc <> -1) in Hrc. rewrite (proj2 (Z.eqb_neq _ _) Hrc).
  rewrite run_Vis. destruct (h _ w1) as [[rcl m] w2].
  rewrite c_lnot_never_minus_one.
  rewrite run_Vis. destruct (h _ w2) as [[rcs e2] w3].
  destruct (run h _ w3) as [[a w4] tr].
  do 4 eexists. split; [reflexivity |]. split; reflexivity.
Qed.

End Locking.

(** ** The collaborators of the [Disk] model *)

Section DiskFacts.
Context {H : vmfs_h}.

Lemma entry_numbers_range (bmp : vmfs_bitmap_t) (k : Z) :
  In k (Disk.entry_numbers bmp) <-> 0 <= k < total_entries (bmh bmp).
Proof.
  unfold Disk.entry_numbers. rewrite in_map_iff. split.
  - intros (i & <- & Hi). apply in_seq in Hi. lia.
  - intros Hk. exists (Z.to_nat k). split; [lia |]. apply in_seq. lia.
Qed.

(** The search fails when no entry it consults has a free item. *)
Lemma find_entry_none (w : Disk.world) (bmp : vmfs_bitmap_t) (n : Z)
    (ks : list Z) :
  0 < n ->
  (forall k e, In k ks ->
     Disk.disk w !! Disk.entry_pos bmp k = Some e -> Disk.free_count e = 0) ->
  Disk.find_entry w bmp n ks = None.
Proof.
  intros Hn. induction ks as [| k ks IH]; intros Hfull; simpl.
  - reflexivity.
  - destruct (Disk.disk w !! Disk.entry_pos bmp k) as [e |] eqn:He.
    + rewrite (Hfull k e (or_introl eq_refl) He).
      destruct (Z.leb_spec n 0); [lia |].
      apply IH. intros k' e' Hk'. apply Hfull. right. exact Hk'.
    + apply IH. intros k' e' Hk'. apply Hfull. right. exact Hk'.
Qed.

(** The entry the search returns is on the volume, at the position of one of
    the entry numbers consulted, and has the free items asked for. *)
Lemma find_entry_some (w : Disk.world) (bmp : vmfs_bitmap_t) (n : Z)
    (ks : list Z) (e : vmfs_bitmap_entry_t) :
  Disk.find_entry w bmp n ks = Some e ->
  exists k, In k ks /\
    Disk.disk w !! Disk.entry_pos bmp k = Some e /\ n <= Disk.free_count e.
Proof.
  induction ks as [| k ks IH]; simpl; [discriminate |].
  destruct (Disk.disk w !! Disk.entry_pos bmp k) as [e0 |] eqn:He.
  - destruct (Z.leb_spec n (Disk.free_count e0)) as [Hle | Hgt].
    + intros [= <-]. exists k. split; [left; reflexivity |]. split; assumption.
    + intros Hf. destruct (IH Hf) as (k' & Hk' & Hr). exists k'.
      split; [right; exact Hk' | exact Hr].
  - intros Hf. destruct (IH Hf) as (k' & Hk' & Hr). exists k'.
    split; [right; exact Hk' | exact Hr].
Qed.

(** C5: when no entry of the bitmap of the requested class has a free item,
    [vmfs_block_alloc] returns [-1] and stores no identifier; the only call
    it makes is the search for free items, whose failure it passes on; no
    call changes or stores an entry and the volume is left as it was.  (For
    a class argument outside the four classes there is no bitmap and the
    function returns [-1] at once.) *)
Theorem alloc_without_free_item (fs : vmfs_fs_t) (blk_type : Z)
    (w : Disk.world) :
  (forall bmp, alloc_select_bitmap fs blk_type = Some bmp ->
               Disk.bitmap_full w bmp) ->
  (run Disk.handle (vmfs_block_alloc fs blk_type) w).1 = ((-1, None), w) /\
  count_calls is_mutation
    (run Disk.handle (vmfs_block_alloc fs blk_type) w).2 = 0%nat /\
  (forall bmp, alloc_select_bitmap fs blk_type = Some bmp ->
     (run Disk.handle (vmfs_block_alloc fs blk_type) w).2
     = [existT (vmfs_bitmap_find_free_items bmp 1) (-1, Disk.bme_none)]).
Proof.
  intros Hfull. unfold vmfs_block_alloc.
  destruct (alloc_select_bitmap fs blk_type) as [bmp |].
  2:{ simpl. repeat split. discriminate. }
  assert (Hnone : Disk.find_free_items w bmp 1 = ((-1, Disk.bme_none), w)).
  { unfold Disk.find_free_items. rewrite find_entry_none; [reflexivity | lia |].
    intros k e Hk. apply (Hfull bmp eq_refl). apply entry_numbers_range, Hk. }
  rewrite run_Vis.
  change (Disk.handle (vmfs_bitmap_find_free_items bmp 1) w)
    with (Disk.find_free_items w bmp 1).
  rewrite Hnone. simpl. repeat split. intros bmp' [= <-]. reflexivity.
Qed.

End DiskFacts.

(** ** Allocation, status and release on the [Disk] model *)

Section DiskAlloc.
Context {H : vmfs_h}.

Lemma first_free_some (l : list bool) (j : nat) :
  Disk.first_free l = Some j -> l !! j = Some false.
Proof.
  revert j. induction l as [| b l IH]; intros j; simpl; [discriminate |].
  destruct b.
  - destruct (Disk.first_free l) as [j' |]; simpl; [| discriminate].
    intros [= <-]. simpl. apply IH. reflexivity.
  - intros [= <-]. reflexivity.
Qed.

Lemma bit_at_of_nat (l : list bool) (j : nat) :
  Disk.bit_at l (Z.of_nat j) = l !! j.
Proof.
  unfold Disk.bit_at. destruct (Z.ltb_spec (Z.of_nat j) 0); [lia |].
  rewrite Nat2Z.id. reflexivity.
Qed.

Lemma bit_at_insert (l : list bool) (j : Z) (b b' : bool) :
  Disk.bit_at l j = Some b ->
  Disk.bit_at (<[Z.to_nat j := b']> l) j = Some b'.
Proof.
  unfold Disk.bit_at. destruct (j <? 0); [discriminate |].
  intros Hj. apply list_lookup_insert_eq. eapply lookup_lt_Some. exact Hj.
Qed.

(** The position of an item number in its bitmap. *)
Lemma item_addr_split (n k j : Z) :
  0 < n -> 0 <= j < n ->
  (0 * n + (k * n + j)) / n = k /\ (0 * n + (k * n + j)) mod n = j.
Proof.
  intros Hn Hj. split.
  - symmetry. apply (Z.div_unique_pos _ _ k j); lia.
  - symmetry. apply (Z.mod_unique_pos _ _ k j); lia.
Qed.

Variable fs : vmfs_fs_t.
Hypothesis Hok : vmfs_h_ok H.
Hypothesis Haddr : Disk.fb_addressable fs.

Local Abbreviation n := (items_per_bitmap_entry (bmh (fbb fs))).
Local Abbreviation total := (total_entries (bmh (fbb fs))).

Lemma fb_number_fits (k j : Z) :
  0 <= k < total -> 0 <= j < n -> bf_fits fb_item_bits (k * n + j).
Proof.
  intros Hk Hj. unfold bf_fits. unfold Disk.fb_addressable in Haddr. nia.
Qed.

Lemma fb_number_u32 (k j : Z) :
  0 <= k < total -> 0 <= j < n -> u32 (u32 (k * n) + j) = k * n + j.
Proof.
  intros Hk Hj.
  pose proof (fb_number_fits k j Hk Hj) as [Hlo Hhi].
  pose proof (fb_bits_ok Hok) as [(Hs & Hw & Hsw) _].
  assert (Hpow : 2 ^ bf_width fb_item_bits <= 2 ^ 32)
    by (apply Z.pow_le_mono_r; lia).
  rewrite (u32_small (k * n)) by nia. apply u32_small. lia.
Qed.

(** The status of a File Block is the bit of its item in the entry read from
    the volume. *)
Lemma get_status_fb (w : Disk.world) (k j : Z) (e : vmfs_bitmap_entry_t) :
  0 <= k < total -> 0 <= j < n ->
  Disk.disk w !! Disk.entry_pos (fbb fs) k = Some e ->
  (run Disk.handle
     (vmfs_block_get_status fs (VMFS_BLK_FB_BUILD (k * n + j))) w).1.1
  = match Disk.bit_at (bitmap e) j with
    | Some true => 1
    | Some false => 0
    | None => -1
    end.
Proof.
  intros Hk Hj He. unfold vmfs_block_get_status.
  rewrite (get_bitmap_info_FB_BUILD fs _ Hok)
    by (apply fb_number_fits; assumption).
  destruct (item_addr_split n k j ltac:(lia) Hj) as [Hdiv Hmod].
  rewrite run_Vis.
  change (Disk.handle (vmfs_bitmap_get_entry (fbb fs) 0 (k * n + j)) w)
    with (Disk.get_entry w (fbb fs) 0 (k * n + j), w).
  unfold Disk.get_entry, Disk.item_addr. rewrite Hdiv, He.
  replace (0 <? n) with true by (symmetry; apply Z.ltb_lt; lia).
  replace (0 <=? 0 * n + (k * n + j)) with true
    by (symmetry; apply Z.leb_le; nia).
  replace (k <? total) with true by (symmetry; apply Z.ltb_lt; lia).
  simpl. unfold Disk.get_item_status, Disk.item_addr. rewrite Hmod.
  reflexivity.
Qed.

(** [stores_okb] decides [stores_ok]. *)
Lemma stores_okb_sound (tr : list event) :
  stores_okb tr = true -> stores_ok tr.
Proof.
  unfold stores_okb, stores_ok. induction tr as [| e tr IH]; simpl.
  - intros _. apply Forall_nil. exact I.
  - intros Hb. apply andb_prop in Hb as [He Htr].
    apply Forall_cons. split; [| exact (IH Htr)].
    intros Hq Hrc. rewrite Hq, Hrc in He. discriminate He.
Qed.

(** The store of an entry, by its result. *)
Lemma bme_update_stored (w wp : Disk.world) (e : vmfs_bitmap_entry_t)
    (rp : Z) :
  Disk.bme_update w e = (rp, wp) -> rp <> -1 ->
  Disk.disk wp = <[pos (mdh e) := e]> (Disk.disk w).
Proof.
  unfold Disk.bme_update.
  destruct (Z.max 0 (Z.min VMFS_BITMAP_ENTRY_SIZE (Disk.room w))
            =? VMFS_BITMAP_ENTRY_SIZE).
  - intros [= <- <-] _. reflexivity.
  - intros [= <- <-] Hrp. congruence.
Qed.

Lemma bme_update_result (w : Disk.world) (e : vmfs_bitmap_entry_t) :
  (Disk.bme_update w e).1 = 0 \/ (Disk.bme_update w e).1 = -1.
Proof.
  unfold Disk.bme_update.
  destruct (Z.max 0 (Z.min VMFS_BITMAP_ENTRY_SIZE (Disk.room w))
            =? VMFS_BITMAP_ENTRY_SIZE); [left | right]; reflexivity.
Qed.

(** A run of [vmfs_block_alloc] for the File Block class that returns [0]:
    the search found entry [k], whose lowest free item is [j]; the entry
    with that item allocated was handed to [vmfs_bme_update], whose result
    [rp] the function did not look at; the lock of the entry was released;
    the identifier names item [j] of entry [k]. *)
Lemma alloc_fb_run (w w1 : Disk.world) (blk_id : Z) (tr : list event) :
  Disk.wf_bitmap w (fbb fs) ->
  run Disk.handle (vmfs_block_alloc fs VMFS_BLK_TYPE_FB) w
  = ((0, Some blk_id), w1, tr) ->
  exists (k : Z) (j : nat) e0 rp wp,
    0 <= k < total /\ 0 <= Z.of_nat j < n /\
    blk_id = VMFS_BLK_FB_BUILD (k * n + Z.of_nat j) /\
    Disk.disk w !! Disk.entry_pos (fbb fs) k = Some e0 /\
    pos (mdh e0) = Disk.entry_pos (fbb fs) k /\ id e0 = k /\
    bitmap e0 !! j = Some false /\
    Disk.bme_update
      (Disk.set_disk w
         (<[Disk.entry_pos (fbb fs) k := Disk.set_lock e0 1]> (Disk.disk w)))
      (Disk.set_bitmap
         (set_mdh e0 {| pos := Disk.entry_pos (fbb fs) k; hb_lock := 1 |})
         (<[j := true]> (bitmap e0)))
    = (rp, wp) /\
    Disk.disk w1
    = alter (fun e => Disk.set_lock e 0) (Disk.entry_pos (fbb fs) k)
        (Disk.disk wp) /\
    (stores_ok tr -> rp <> -1).
Proof.
  intros (Hn & Htot & Hwf). unfold vmfs_block_alloc, alloc_select_bitmap.
  rewrite Z.eqb_refl. rewrite run_Vis.
  change (Disk.handle (vmfs_bitmap_find_free_items (fbb fs) 1) w)
    with (Disk.find_free_items w (fbb fs) 1).
  unfold Disk.find_free_items.
  destruct (Disk.find_entry w (fbb fs) 1 (Disk.entry_numbers (fbb fs)))
    as [e0 |] eqn:Hfind; [| simpl; discriminate].
  destruct (find_entry_some _ _ _ _ _ Hfind) as (k & Hk & He0 & Hfree).
  apply entry_numbers_range in Hk.
  destruct (Hwf k Hk) as (e0' & He0' & Hpos & Hid & Hlen).
  rewrite He0 in He0'. injection He0' as <-.
  unfold Disk.lock. rewrite Hpos, He0.
  destruct (hb_lock (mdh e0) =? 0); [| simpl; discriminate].
  repeat (progress change (0 =? -1) with false; cbv iota).
  rewrite run_Vis.
  match goal with
  | |- context [Disk.handle (vmfs_bitmap_alloc_item ?x) ?y] =>
      change (Disk.handle (vmfs_bitmap_alloc_item x) y)
        with (Disk.alloc_item x, y)
  end.
  unfold Disk.alloc_item. simpl bitmap.
  destruct (Disk.first_free (bitmap e0)) as [j |] eqn:Hj; [| simpl; discriminate].
  apply first_free_some in Hj.
  pose proof (lookup_lt_Some _ _ _ Hj) as Hjlen.
  repeat (progress change (0 =? -1) with false; cbv iota).
  rewrite run_Vis.
  match goal with
  | |- context [Disk.handle (vmfs_bme_update ?a ?x) ?y] =>
      change (Disk.handle (vmfs_bme_update a x) y) with (Disk.bme_update y x);
      destruct (Disk.bme_update y x) as [rp wp] eqn:Hupd
  end.
  rewrite run_Vis.
  match goal with
  | |- context [Disk.handle (vmfs_metadata_unlock ?a ?m) ?y] =>
      change (Disk.handle (vmfs_metadata_unlock a m) y) with (Disk.unlock y m)
  end.
  unfold Disk.unlock. simpl. unfold alloc_build_id. rewrite Z.eqb_refl.
  simpl id. intros [= <- <- <-].
  exists k, j, e0, rp, wp.
  split; [exact Hk |]. split; [lia |].
  split; [rewrite Hid, fb_number_u32 by lia; reflexivity |].
  split; [exact He0 |]. split; [exact Hpos |]. split; [exact Hid |].
  split; [exact Hj |]. split; [exact Hupd |]. split; [reflexivity |].
  intros Hst. unfold stores_ok in Hst.
  apply Forall_cons in Hst as [_ Hst]. apply Forall_cons in Hst as [_ Hst].
  apply Forall_cons in Hst as [Hrp _]. exact (Hrp eq_refl).
Qed.

(** What a successful allocation of a File Block leaves when the store of
    the entry succeeded: the identifier names item [j] of entry [k], and
    the entry stored at the position of entry [k] has that item
    allocated. *)
Lemma alloc_fb_success (w w1 : Disk.world) (blk_id : Z) (tr : list event) :
  Disk.wf_bitmap w (fbb fs) ->
  run Disk.handle (vmfs_block_alloc fs VMFS_BLK_TYPE_FB) w
  = ((0, Some blk_id), w1, tr) ->
  stores_ok tr ->
  exists k j e,
    0 <= k < total /\ 0 <= j < n /\
    blk_id = VMFS_BLK_FB_BUILD (k * n + j) /\
    Disk.disk w1 !! Disk.entry_pos (fbb fs) k = Some e /\
    pos (mdh e) = Disk.entry_pos (fbb fs) k /\
    Disk.bit_at (bitmap e) j = Some true.
Proof.
  intros Hwf Hrun Hst.
  destruct (alloc_fb_run w w1 blk_id tr Hwf Hrun)
    as (k & j & e0 & rp & wp & Hk & Hj & Hid & He0 & Hpos & Hide & Hbit
        & Hupd & Hw1 & Hrp).
  apply bme_update_stored in Hupd; [| exact (Hrp Hst)]. simpl in Hupd.
  exists k, (Z.of_nat j), (Disk.set_lock
    (Disk.set_bitmap
       (set_mdh e0 {| pos := Disk.entry_pos (fbb fs) k; hb_lock := 1 |})
       (<[j := true]> (bitmap e0))) 0).
  split; [exact Hk |]. split; [exact Hj |]. split; [exact Hid |].
  split.
  { rewrite Hw1, Hupd, lookup_alter_eq, lookup_insert_eq. reflexivity. }
  split; [reflexivity |].
  simpl. rewrite bit_at_of_nat. apply list_lookup_insert_eq.
  eapply lookup_lt_Some. exact Hbit.
Qed.

(** What releasing an allocated File Block leaves when the store of the
    entry succeeded, whether or not the lock call succeeded: the entry
    stored at the position of entry [k] has the item free. *)
Lemma free_fb_allocated (w w2 : Disk.world) (k j : Z)
    (e : vmfs_bitmap_entry_t) (rc : Z) (tr : list event) :
  0 <= k < total -> 0 <= j < n ->
  Disk.disk w !! Disk.entry_pos (fbb fs) k = Some e ->
  pos (mdh e) = Disk.entry_pos (fbb fs) k ->
  Disk.bit_at (bitmap e) j = Some true ->
  run Disk.handle (vmfs_block_free fs (VMFS_BLK_FB_BUILD (k * n + j))) w
  = (rc, w2, tr) ->
  stores_ok tr ->
  rc = 0 /\
  exists e',
    Disk.disk w2 !! Disk.entry_pos (fbb fs) k = Some e' /\
    Disk.bit_at (bitmap e') j = Some false.
Proof.
  intros Hk Hj He Hpos Hbit.
  unfold vmfs_block_free, vmfs_block_set_status.
  rewrite (get_bitmap_info_FB_BUILD fs _ Hok)
    by (apply fb_number_fits; assumption).
  destruct (item_addr_split n k j ltac:(lia) Hj) as [Hdiv Hmod].
  rewrite run_Vis.
  change (Disk.handle (vmfs_bitmap_get_entry (fbb fs) 0 (k * n + j)) w)
    with (Disk.get_entry w (fbb fs) 0 (k * n + j), w).
  unfold Disk.get_entry, Disk.item_addr. rewrite Hdiv, He.
  replace (0 <? n) with true by (symmetry; apply Z.ltb_lt; lia).
  replace (0 <=? 0 * n + (k * n + j)) with true
    by (symmetry; apply Z.leb_le; nia).
  replace (k <? total) with true by (symmetry; apply Z.ltb_lt; lia).
  simpl andb. cbv iota.
  repeat (progress change (0 =? -1) with false; cbv iota).
  rewrite run_Vis.
  match goal with
  | |- context [Disk.handle (vmfs_metadata_lock ?a ?b ?c ?d) ?y] =>
      change (Disk.handle (vmfs_metadata_lock a b c d) y)
        with (Disk.lock y b d)
  end.
  unfold Disk.lock. rewrite Hpos, He.
  destruct (hb_lock (mdh e) =? 0);
    rewrite c_lnot_never_minus_one; rewrite run_Vis;
    match goal with
    | |- context [Disk.handle (vmfs_bitmap_set_item_status ?a ?b ?c ?d ?s) ?y] =>
        change (Disk.handle (vmfs_bitmap_set_item_status a b c d s) y)
          with (Disk.set_item_status a b c d s, y)
    end;
    unfold Disk.set_item_status, Disk.item_addr; rewrite Hmod;
    simpl bitmap; rewrite Hbit; simpl Bool.eqb; cbv iota;
    repeat (progress change (0 =? -1) with false; cbv iota);
    rewrite run_Vis;
    match goal with
    | |- context [Disk.handle (vmfs_bme_update ?a ?x) ?y] =>
        change (Disk.handle (vmfs_bme_update a x) y)
          with (Disk.bme_update y x);
        destruct (Disk.bme_update y x) as [rp wp] eqn:Hupd
    end;
    rewrite run_Vis;
    match goal with
    | |- context [Disk.handle (vmfs_metadata_unlock ?a ?m) ?y] =>
        change (Disk.handle (vmfs_metadata_unlock a m) y)
          with (Disk.unlock y m)
    end;
    unfold Disk.unlock; simpl; rewrite ?Hpos;
    intros [= <- <- <-] Hst; (split; [reflexivity |]);
    unfold stores_ok in Hst;
    apply Forall_cons in Hst as [_ Hst]; apply Forall_cons in Hst as [_ Hst];
    apply Forall_cons in Hst as [_ Hst]; apply Forall_cons in Hst as [Hrp _];
    (apply bme_update_stored in Hupd; [| exact (Hrp eq_refl)]);
    simpl in Hupd; rewrite ?Hpos in Hupd;
    eexists; (split;
      [simpl; rewrite Hupd, lookup_alter_eq, lookup_insert_eq; reflexivity |]);
    simpl; eapply bit_at_insert; exact Hbit.
Qed.

End DiskAlloc.

Section DiskClaims.
Context {H : vmfs_h}.

(** C4: on a volume whose File Block bitmap is well formed and addressable,
    after [vmfs_block_alloc] for the File Block class has returned [0] with
    an identifier, in a run whose store of the entry succeeded,
    [vmfs_block_get_status] of that identifier is [1] (allocated); a
    subsequent [vmfs_block_free] of it returns [0] and, when its store of
    the entry succeeded too, [vmfs_block_get_status] is then [0] (free).
    The functions do not look at the result of [vmfs_bme_update], so they
    return [0] also when the store failed. *)
Theorem alloc_then_free_status (fs : vmfs_fs_t) (w w1 : Disk.world)
    (blk_id : Z) (tr : list event) :
  vmfs_h_ok H ->
  Disk.wf_bitmap w (fbb fs) ->
  Disk.fb_addressable fs ->
  run Disk.handle (vmfs_block_alloc fs VMFS_BLK_TYPE_FB) w
  = ((0, Some blk_id), w1, tr) ->
  stores_ok tr ->
  (run Disk.handle (vmfs_block_get_status fs blk_id) w1).1.1 = 1 /\
  forall (rc : Z) (w2 : Disk.world) (tr2 : list event),
    run Disk.handle (vmfs_block_free fs blk_id) w1 = (rc, w2, tr2) ->
    stores_ok tr2 ->
    rc = 0 /\
    (run Disk.handle (vmfs_block_get_status fs blk_id) w2).1.1 = 0.
Proof.
  intros Hok Hwf Haddr Halloc Hst.
  destruct (alloc_fb_success fs Hok Haddr w w1 blk_id tr Hwf Halloc Hst)
    as (k & j & e & Hk & Hj & -> & He & Hpos & Hbit).
  split.
  - rewrite (get_status_fb fs Hok Haddr w1 k j e Hk Hj He), Hbit. reflexivity.
  - intros rc w2 tr2 Hfree Hst2.
    destruct (free_fb_allocated fs Hok Haddr w1 w2 k j e rc tr2
                Hk Hj He Hpos Hbit Hfree Hst2) as (Hrc & e' & He' & Hbit').
    split; [exact Hrc |].
    rewrite (get_status_fb fs Hok Haddr w2 k j e' Hk Hj He'), Hbit'.
    reflexivity.
Qed.

End DiskClaims.

(** ** The properties on the small volume *)

Section OnExample.
Import Example.
#[local] Existing Instance spec_vmfs_h.

Lemma w0_wf : Disk.wf_bitmap w0 (fbb fs0).
Proof.
  split; [simpl; lia |]. split; [simpl; lia |].
  intros k Hk. simpl in Hk.
  assert (Hcase : k = 0 \/ k = 1) by lia.
  destruct Hcase as [-> | ->]; eexists;
    (split; [vm_compute; reflexivity | repeat split]).
Qed.

Lemma w_full_full : Disk.bitmap_full w_full (fbb fs0).
Proof.
  intros k e Hk. simpl in Hk.
  assert (Hcase : k = 0 \/ k = 1) by lia.
  destruct Hcase as [-> | ->]; vm_compute; intros [= <-]; reflexivity.
Qed.

Lemma fs0_addressable : Disk.fb_addressable fs0.
Proof. unfold Disk.fb_addressable. simpl. lia. Qed.

(** C1: when [vmfs_metadata_lock] fails, [vmfs_block_set_status] is meant to
    change nothing and to pass the failure on.  The code does not: here
    another host holds the lock of entry 0, so [vmfs_metadata_lock] returns
    [-1]; all the same [vmfs_block_free] changes the status of the item,
    stores the entry, releases the lock it does not hold and returns [0]. *)
Theorem free_ignores_lock_failure :
  let blk := VMFS_BLK_FB_BUILD 0 in
  let r := run Disk.handle (vmfs_block_free fs0 blk) w_locked in
  (run Disk.handle (vmfs_block_get_status fs0 blk) w_locked).1.1 = 1 /\
  map (fun e => is_lock (ev_call e)) r.2 = [false; true; false; false; false] /\
  map ev_rc r.2 = [0; -1; 0; 0; 0] /\
  count_calls is_mutation r.2 = 2%nat /\
  count_calls is_unlock r.2 = 1%nat /\
  r.1.1 = 0 /\
  Disk.disk r.1.2 !! 4096 = Some (entry_at 4096 0 0 [false; true; true; true]) /\
  (run Disk.handle (vmfs_block_get_status fs0 blk) r.1.2).1.1 = 0.
Proof. vm_compute. repeat split. Qed.

Lemma unlock_exactly_once_witness :
  released_once fs0
    (run Disk.handle (vmfs_block_free fs0 (VMFS_BLK_FB_BUILD 0)) w0).2 /\
  released_once fs0
    (run Disk.handle (vmfs_block_alloc_specified fs0 (VMFS_BLK_FB_BUILD 0))
       w0).2 /\
  released_once fs0 (run Disk.handle (vmfs_block_alloc fs0 1) w0).2.
Proof.
  destruct (unlock_exactly_once fs0 Disk.world Disk.handle w0) as [Hset Halloc].
  split; [| split].
  - apply (Hset (VMFS_BLK_FB_BUILD 0) 0 _ eq_refl).
    exists (existT (vmfs_metadata_lock fs0 4096 1024
                      {| pos := 4096; hb_lock := 0 |})
                   (0, {| pos := 4096; hb_lock := 1 |})).
    split; [vm_compute; right; left; reflexivity |].
    split; [left; reflexivity | vm_compute; discriminate].
  - apply (Hset (VMFS_BLK_FB_BUILD 0) 1 _ eq_refl).
    exists (existT (vmfs_metadata_lock fs0 4096 1024
                      {| pos := 4096; hb_lock := 0 |})
                   (0, {| pos := 4096; hb_lock := 1 |})).
    split; [vm_compute; right; left; reflexivity |].
    split; [left; reflexivity | vm_compute; discriminate].
  - apply (Halloc 1 _ eq_refl).
    exists (existT (vmfs_bitmap_find_free_items (fbb fs0) 1)
                   (0, entry_at 5120 1 1 [true; false; true; false])).
    split; [vm_compute; left; reflexivity |].
    split; [right; reflexivity | vm_compute; discriminate].
Defined.

Lemma resolve_build_roundtrip_witness :
  vmfs_block_get_bitmap_info fs0 (VMFS_BLK_FB_BUILD 5) = Some (fbb fs0, 0, 5) /\
  vmfs_block_get_bitmap_info fs0 (VMFS_BLK_SB_BUILD 3 2) = Some (sbc fs0, 3, 2) /\
  vmfs_block_get_bitmap_info fs0 (VMFS_BLK_PB_BUILD 7 1) = Some (pbc fs0, 7, 1) /\
  vmfs_block_get_bitmap_info fs0 (VMFS_BLK_FD_BUILD 2 9) = Some (fdc fs0, 2, 9).
Proof.
  destruct (resolve_build_roundtrip fs0 spec_vmfs_h_ok) as (A & B & C & D).
  split; [| split; [| split]].
  - apply A. unfold bf_fits. simpl. lia.
  - apply B; unfold bf_fits; simpl; lia.
  - apply C; unfold bf_fits; simpl; lia.
  - apply D; unfold bf_fits; simpl; lia.
Defined.

Lemma unknown_class_rejected_witness :
  VMFS_BLK_TYPE 2684354637 = 5 /\
  vmfs_block_get_bitmap_info fs0 2684354637 = None /\
  run Disk.handle (vmfs_block_alloc fs0 5) w0 = ((-1, None), w0, []).
Proof.
  destruct (unknown_class_rejected fs0 5) as [A B]; try (simpl; lia).
  split; [reflexivity |]. split.
  - apply A. reflexivity.
  - apply B.
Defined.

Lemma zeroize_rejects_other_classes_witness :
  run Disk.handle (vmfs_block_zeroize_fb fs0 (VMFS_BLK_SB_BUILD 3 2)) w0
  = (Some (-1), w0, []).
Proof.
  apply zeroize_rejects_other_classes. vm_compute. discriminate.
Defined.

Lemma alloc_success_writes_id_witness :
  exists blk_id,
    (run Disk.handle (vmfs_block_alloc fs0 1) w0).1.1 = (0, Some blk_id) /\
    VMFS_BLK_TYPE blk_id = 1.
Proof.
  destruct (alloc_success_writes_id fs0 1 Disk.world Disk.handle w0
              (run Disk.handle (vmfs_block_alloc fs0 1) w0).1.2
              0 (Some 536870917)
              (run Disk.handle (vmfs_block_alloc fs0 1) w0).2)
    as (blk_id & Hout & Htag).
  - vm_compute. reflexivity.
  - reflexivity.
  - exists blk_id. split.
    + rewrite <- Hout. vm_compute. reflexivity.
    + apply Htag. exact spec_vmfs_h_ok.
Defined.

Lemma alloc_without_free_item_witness :
  (run Disk.handle (vmfs_block_alloc fs0 1) w_full).1 = ((-1, None), w_full) /\
  count_calls is_mutation
    (run Disk.handle (vmfs_block_alloc fs0 1) w_full).2 = 0%nat.
Proof.
  destruct (alloc_without_free_item fs0 1 w_full) as (A & B & _).
  - intros bmp [= <-]. exact w_full_full.
  - split; [exact A | exact B].
Defined.

Lemma alloc_then_free_status_witness :
  let r := run Disk.handle (vmfs_block_alloc fs0 1) w0 in
  let r2 := run Disk.handle (vmfs_block_free fs0 536870917) r.1.2 in
  r.1.1 = (0, Some 536870917) /\
  (run Disk.handle (vmfs_block_get_status fs0 536870917) r.1.2).1.1 = 1 /\
  r2.1.1 = 0 /\
  (run Disk.handle (vmfs_block_get_status fs0 536870917) r2.1.2).1.1 = 0.
Proof.
  intros r r2.
  destruct (alloc_then_free_status fs0 w0 r.1.2 536870917 r.2
              spec_vmfs_h_ok w0_wf fs0_addressable) as [Hst Hfree].
  - vm_compute. reflexivity.
  - apply stores_okb_sound. vm_compute. reflexivity.
  - split; [vm_compute; reflexivity |]. split; [exact Hst |].
    apply (Hfree r2.1.1 r2.1.2 r2.2).
    + vm_compute. reflexivity.
    + apply stores_okb_sound. vm_compute. reflexivity.
Defined.

Lemma w_no_room_wf : Disk.wf_bitmap Example2.w_no_room (fbb fs0).
Proof.
  split; [simpl; lia |]. split; [simpl; lia |].
  intros k Hk. simpl in Hk.
  assert (Hcase : k = 0 \/ k = 1) by lia.
  destruct Hcase as [-> | ->]; eexists;
    (split; [vm_compute; reflexivity | repeat split]).
Qed.

Lemma w_one_store_wf : Disk.wf_bitmap Example2.w_one_store (fbb fs0).
Proof.
  split; [simpl; lia |]. split; [simpl; lia |].
  intros k Hk. simpl in Hk.
  assert (Hcase : k = 0 \/ k = 1) by lia.
  destruct Hcase as [-> | ->]; eexists;
    (split; [vm_compute; reflexivity | repeat split]).
Qed.

(** C4 does not hold without the condition on the stores.  On a well-formed
    volume whose device accepts no more bytes, [vmfs_block_alloc] for the
    File Block class returns [0] with an identifier although
    [vmfs_bme_update] returned [-1], and [vmfs_block_get_status] of that
    identifier is [0], not [1].  On the same volume with room for one store
    the allocation is stored; [vmfs_block_free] then returns [0] although
    its store failed, and the status is still [1].  So the statement
    without the condition on the stores is false. *)
Lemma alloc_then_free_status_counterexample :
  let r := run Disk.handle (vmfs_block_alloc fs0 VMFS_BLK_TYPE_FB)
             Example2.w_no_room in
  let a := run Disk.handle (vmfs_block_alloc fs0 VMFS_BLK_TYPE_FB)
             Example2.w_one_store in
  let f := run Disk.handle (vmfs_block_free fs0 536870917) a.1.2 in
  vmfs_h_ok spec_vmfs_h /\
  Disk.fb_addressable fs0 /\
  Disk.wf_bitmap Example2.w_no_room (fbb fs0) /\
  r.1.1 = (0, Some 536870917) /\
  map ev_rc r.2 = [0; 0; -1; 0] /\
  (run Disk.handle (vmfs_block_get_status fs0 536870917) r.1.2).1.1 = 0 /\
  (run Disk.handle (vmfs_block_get_status fs0 536870917) r.1.2).1.1 <> 1 /\
  Disk.wf_bitmap Example2.w_one_store (fbb fs0) /\
  a.1.1 = (0, Some 536870917) /\
  (run Disk.handle (vmfs_block_get_status fs0 536870917) a.1.2).1.1 = 1 /\
  f.1.1 = 0 /\
  map ev_rc f.2 = [0; 0; 0; -1; 0] /\
  (run Disk.handle (vmfs_block_get_status fs0 536870917) f.1.2).1.1 <> 0 /\
  ~ (forall (fs : vmfs_fs_t) (w w1 : Disk.world) (blk_id : Z)
            (tr : list event),
        Disk.wf_bitmap w (fbb fs) ->
        Disk.fb_addressable fs ->
        run Disk.handle (vmfs_block_alloc fs VMFS_BLK_TYPE_FB) w
        = ((0, Some blk_id), w1, tr) ->
        (run Disk.handle (vmfs_block_get_status fs blk_id) w1).1.1 = 1 /\
        forall (rc : Z) (w2 : Disk.world) (tr2 : list event),
          run Disk.handle (vmfs_block_free fs blk_id) w1 = (rc, w2, tr2) ->
          rc = 0 /\
          (run Disk.handle (vmfs_block_get_status fs blk_id) w2).1.1 = 0).
Proof.
  intros r a f.
  split; [exact spec_vmfs_h_ok |]. split; [exact fs0_addressable |].
  split; [exact w_no_room_wf |].
  split; [vm_compute; reflexivity |]. split; [vm_compute; reflexivity |].
  split; [vm_compute; reflexivity |]. split; [vm_compute; discriminate |].
  split; [exact w_one_store_wf |].
  split; [vm_compute; reflexivity |]. split; [vm_compute; reflexivity |].
  split; [vm_compute; reflexivity |]. split; [vm_compute; reflexivity |].
  split; [vm_compute; discriminate |].
  intros Hall.
  assert (Hrun : run Disk.handle (vmfs_block_alloc fs0 VMFS_BLK_TYPE_FB)
                   Example2.w_no_room
                 = ((0, Some 536870917), r.1.2, r.2))
    by (vm_compute; reflexivity).
  destruct (Hall fs0 Example2.w_no_room r.1.2 536870917 r.2
              w_no_room_wf fs0_addressable Hrun) as [Hs _].
  vm_compute in Hs. discriminate Hs.
Qed.

End OnExample.

(** ** Queries and early exits of the block layer *)

Section BlockMore.
Context {H : vmfs_h}.

(** X1: [vmfs_block_get_status] only reads: in every run it makes at most
    two calls, loading the entry and reading the item status; it never
    locks, unlocks, changes or stores an entry and never writes to the
    volume. *)
Theorem get_status_only_queries (fs : vmfs_fs_t) (blk_id : Z)
    (W : Type) (h : handler) (w : W) :
  let tr := (run h (vmfs_block_get_status fs blk_id) w).2 in
  Forall (fun e => is_query (ev_call e) = true) tr /\
  (length tr <= 2)%nat /\
  count_calls is_lock tr = 0%nat /\
  count_calls is_unlock tr = 0%nat /\
  count_calls is_mutation tr = 0%nat /\
  count_calls is_write tr = 0%nat.
Proof.
  unfold vmfs_block_get_status.
  destruct (vmfs_block_get_bitmap_info fs blk_id) as [[[bmp be] bi] |].
  2:{ simpl. repeat split; [constructor | lia]. }
  rewrite run_Vis. destruct (h _ w) as [[rc e] w1].
  destruct (rc =? -1).
  { simpl. repeat split; [repeat constructor | lia]. }
  rewrite run_Vis. destruct (h _ w1) as [st w2]. simpl.
  repeat split; [repeat constructor | lia].
Qed.

(** X2: the failures of [vmfs_block_get_status].  For an identifier of no
    known class it returns [-1] without any call.  When the entry cannot be
    loaded it returns [-1] after that one call, without reading an item
    status.  Otherwise it returns what [vmfs_bitmap_get_item_status]
    answers for the resolved coordinates and the loaded entry. *)
Theorem get_status_failures (fs : vmfs_fs_t) (blk_id : Z)
    (W : Type) (h : handler) (w : W) :
  (vmfs_block_get_bitmap_info fs blk_id = None ->
   run h (vmfs_block_get_status fs blk_id) w = (-1, w, [])) /\
  (forall bmp be bi rc e w1,
      vmfs_block_get_bitmap_info fs blk_id = Some (bmp, be, bi) ->
      h (vmfs_bitmap_get_entry bmp be bi) w = ((rc, e), w1) ->
      (rc = -1 ->
       run h (vmfs_block_get_status fs blk_id) w
       = (-1, w1, [existT (vmfs_bitmap_get_entry bmp be bi) (rc, e)])) /\
      (rc <> -1 ->
       (run h (vmfs_block_get_status fs blk_id) w).1.1
       = (h (vmfs_bitmap_get_item_status (bmh bmp) e be bi) w1).1)).
Proof.
  unfold vmfs_block_get_status. split.
  - intros ->. reflexivity.
  - intros bmp be bi rc e w1 -> Hget. rewrite run_Vis, Hget. split.
    + intros ->. reflexivity.
    + intros Hrc. rewrite (proj2 (Z.eqb_neq _ _) Hrc).
      rewrite run_Vis. destruct (h _ w1) as [st w2]. reflexivity.
Qed.

(** X3: the early exits of [vmfs_block_set_status] (so of
    [vmfs_block_alloc_specified] and [vmfs_block_free]).  For an identifier
    of no known class it returns [-1] without any call.  When the entry
    cannot be loaded it returns [-1] after that one call: no lock is
    requested and nothing is changed, stored or unlocked. *)
Theorem set_status_early_exits (fs : vmfs_fs_t) (blk_id status : Z)
    (W : Type) (h : handler) (w : W) :
  (vmfs_block_get_bitmap_info fs blk_id = None ->
   run h (vmfs_block_set_status fs blk_id status) w = (-1, w, [])) /\
  (forall bmp be bi e w1,
      vmfs_block_get_bitmap_info fs blk_id = Some (bmp, be, bi) ->
      h (vmfs_bitmap_get_entry bmp be bi) w = ((-1, e), w1) ->
      run h (vmfs_block_set_status fs blk_id status) w
      = (-1, w1, [existT (vmfs_bitmap_get_entry bmp be bi) (-1, e)])).
Proof.
  unfold vmfs_block_set_status. split.
  - intros ->. reflexivity.
  - intros bmp be bi e w1 -> Hget. rewrite run_Vis, Hget. reflexivity.
Qed.

(** X4: [vmfs_block_set_status] returns [0] or [-1], and it stores the
    entry exactly when it returns [0]: a run that returns [-1] never calls
    [vmfs_bme_update].  When it returns [0] the last two calls are the store
    of the local [entry] as the codec left it and the release of its
    lock. *)
Theorem set_status_stores_iff_success (fs : vmfs_fs_t) (blk_id status : Z)
    (W : Type) (h : handler) (w : W) :
  let r := run h (vmfs_block_set_status fs blk_id status) w in
  (r.1.1 = 0 \/ r.1.1 = -1) /\
  count_calls is_bme_update r.2 = (if r.1.1 =? 0 then 1%nat else 0%nat) /\
  (r.1.1 = 0 ->
   exists pre e r1 r2,
     r.2 = pre ++ [existT (vmfs_bme_update fs e) r1;
                   existT (vmfs_metadata_unlock fs (mdh e)) r2] /\
     entry_local pre = Some e /\
     count_calls is_mutation pre = 1%nat).
Proof.
  unfold vmfs_block_set_status.
  destruct (vmfs_block_get_bitmap_info fs blk_id) as [[[bmp be] bi] |].
  2:{ simpl. repeat split; [right; reflexivity | discriminate]. }
  rewrite run_Vis. destruct (h _ w) as [[rc e] w1].
  destruct (rc =? -1).
  { simpl. repeat split; [right; reflexivity | discriminate]. }
  rewrite run_Vis. destruct (h _ w1) as [[rcl m] w2].
  rewrite c_lnot_never_minus_one.
  rewrite run_Vis. destruct (h _ w2) as [[rcs e2] w3].
  destruct (rcs =? -1).
  - rewrite run_Vis. destruct (h _ w3) as [ru w4]. simpl.
    repeat split; [right; reflexivity | discriminate].
  - rewrite run_Vis. destruct (h _ w3) as [rp w4].
    rewrite run_Vis. destruct (h _ w4) as [ru w5]. simpl.
    repeat split; [left; reflexivity |].
    intros _. eexists [_; _; _], e2, rp, ru. repeat split.
Qed.

(** X5: [vmfs_block_alloc] returns [0] or [-1]; when it returns [-1] it has
    stored nothing through [blk_id] and has not stored the entry; it calls
    [vmfs_bme_update] exactly when it returns [0], and searches at most
    once. *)
Theorem alloc_failure_stores_nothing (fs : vmfs_fs_t) (blk_type : Z)
    (W : Type) (h : handler) (w : W) :
  let r := run h (vmfs_block_alloc fs blk_type) w in
  (r.1.1.1 = 0 \/ r.1.1.1 = -1) /\
  (r.1.1.1 = -1 -> r.1.1.2 = None) /\
  count_calls is_bme_update r.2 = (if r.1.1.1 =? 0 then 1%nat else 0%nat) /\
  (count_calls is_find_free_items r.2 <= 1)%nat.
Proof.
  unfold vmfs_block_alloc.
  destruct (alloc_select_bitmap fs blk_type) as [bmp |].
  2:{ cbn. repeat split; [right; reflexivity | apply Nat.le_0_l]. }
  rewrite run_Vis. destruct (h _ w) as [[rc e] w1].
  destruct (rc =? -1).
  { cbn. repeat split; [right; reflexivity | apply Nat.le_refl]. }
  rewrite run_Vis. destruct (h _ w1) as [[[rca e2] item] w2].
  destruct (rca =? -1).
  - rewrite run_Vis. destruct (h _ w2) as [ru w3]. cbn.
    repeat split; [right; reflexivity | apply Nat.le_refl].
  - rewrite run_Vis. destruct (h _ w2) as [rp w3].
    rewrite run_Vis. destruct (h _ w3) as [ru w4]. cbn.
    repeat split; [left; reflexivity | discriminate | apply Nat.le_refl].
Qed.

End BlockMore.

(** ** Allocation and resolution *)

Section AllocResolve.
Context {H : vmfs_h}.
Hypothesis Hok : vmfs_h_ok H.

(** The identifier the second [switch] of [vmfs_block_alloc] builds resolves
    to the bitmap the first [switch] selected. *)
Lemma build_id_resolves (fs : vmfs_fs_t) (blk_type : Z)
    (bmp : vmfs_bitmap_t) (e : vmfs_bitmap_entry_t) (item blk_id : Z) :
  alloc_select_bitmap fs blk_type = Some bmp ->
  alloc_build_id bmp e item blk_type = Some blk_id ->
  exists be bi,
    vmfs_block_get_bitmap_info fs blk_id = Some (bmp, be, bi) /\
    (blk_type = VMFS_BLK_TYPE_FB ->
     be = 0 /\
     (bf_fits fb_item_bits
        (u32 (u32 (id e * items_per_bitmap_entry (bmh bmp)) + item)) ->
      bi = u32 (u32 (id e * items_per_bitmap_entry (bmh bmp)) + item))) /\
    (blk_type = VMFS_BLK_TYPE_SB ->
     bf_fits sb_entry_bits (id e) -> bf_fits sb_item_bits item ->
     be = id e /\ bi = item) /\
    (blk_type = VMFS_BLK_TYPE_PB ->
     bf_fits pb_entry_bits (id e) -> bf_fits pb_item_bits item ->
     be = id e /\ bi = item) /\
    (blk_type = VMFS_BLK_TYPE_FD ->
     bf_fits fd_entry_bits (id e) -> bf_fits fd_item_bits item ->
     be = id e /\ bi = item).
Proof.
  pose proof (tags_distinct Hok) as (D1 & D2 & D3 & D4 & D5 & D6).
  unfold alloc_select_bitmap, alloc_build_id, vmfs_block_get_bitmap_info.
  cbv zeta.
  destruct (Z.eqb_spec blk_type VMFS_BLK_TYPE_FB) as [-> | N1].
  { intros [= <-] [= <-]. rewrite type_of_FB_BUILD, Z.eqb_refl by exact Hok.
    do 2 eexists. split; [reflexivity |].
    split; [| repeat split; intros; congruence].
    intros _. split; [reflexivity |]. intros Hfit.
    apply item_of_FB_BUILD; assumption. }
  destruct (Z.eqb_spec blk_type VMFS_BLK_TYPE_SB) as [-> | N2].
  { intros [= <-] [= <-]. rewrite type_of_SB_BUILD by exact Hok.
    rewrite (proj2 (Z.eqb_neq _ _) N1), Z.eqb_refl.
    do 2 eexists. split; [reflexivity |].
    split; [intros; congruence |].
    split; [| split; intros; congruence].
    intros _ He Hi. apply coords_of_SB_BUILD; assumption. }
  destruct (Z.eqb_spec blk_type VMFS_BLK_TYPE_PB) as [-> | N3].
  { intros [= <-] [= <-]. rewrite type_of_PB_BUILD by exact Hok.
    rewrite (proj2 (Z.eqb_neq _ _) N1), (proj2 (Z.eqb_neq _ _) N2), Z.eqb_refl.
    do 2 eexists. split; [reflexivity |].
    split; [intros; congruence |]. split; [intros; congruence |].
    split; [| intros; congruence].
    intros _ He Hi. apply coords_of_PB_BUILD; assumption. }
  destruct (Z.eqb_spec blk_type VMFS_BLK_TYPE_FD) as [-> | N4].
  { intros [= <-] [= <-]. rewrite type_of_FD_BUILD by exact Hok.
    rewrite (proj2 (Z.eqb_neq _ _) N1), (proj2 (Z.eqb_neq _ _) N2),
      (proj2 (Z.eqb_neq _ _) N3), Z.eqb_refl.
    do 2 eexists. split; [reflexivity |].
    repeat (split; [intros; congruence |]).
    intros _ He Hi. apply coords_of_FD_BUILD; assumption. }
  discriminate.
Qed.

(** X6: the identifier [vmfs_block_alloc] returns resolves, by
    [vmfs_block_get_bitmap_info], to the bitmap that was searched.  When the
    entry number and the item index the codec answered fit the fields of the
    class, it resolves to exactly that entry and item; for a File Block, to
    entry [0] and the item number [entry.id * items_per_bitmap_entry +
    item]. *)
Theorem alloc_id_resolves (fs : vmfs_fs_t) (blk_type : Z)
    (W : Type) (h : handler) (w w' : W) (blk_id : Z) (tr : list event) :
  run h (vmfs_block_alloc fs blk_type) w = ((0, Some blk_id), w', tr) ->
  exists bmp e item be bi,
    alloc_select_bitmap fs blk_type = Some bmp /\
    entry_local tr = Some e /\ item_local tr = Some item /\
    vmfs_block_get_bitmap_info fs blk_id = Some (bmp, be, bi) /\
    (blk_type = VMFS_BLK_TYPE_FB ->
     be = 0 /\
     (bf_fits fb_item_bits
        (u32 (u32 (id e * items_per_bitmap_entry (bmh bmp)) + item)) ->
      bi = u32 (u32 (id e * items_per_bitmap_entry (bmh bmp)) + item))) /\
    (blk_type = VMFS_BLK_TYPE_SB ->
     bf_fits sb_entry_bits (id e) -> bf_fits sb_item_bits item ->
     be = id e /\ bi = item) /\
    (blk_type = VMFS_BLK_TYPE_PB ->
     bf_fits pb_entry_bits (id e) -> bf_fits pb_item_bits item ->
     be = id e /\ bi = item) /\
    (blk_type = VMFS_BLK_TYPE_FD ->
     bf_fits fd_entry_bits (id e) -> bf_fits fd_item_bits item ->
     be = id e /\ bi = item).
Proof.
  unfold vmfs_block_alloc.
  destruct (alloc_select_bitmap fs blk_type) as [bmp |] eqn:Hsel.
  2:{ simpl. discriminate. }
  rewrite run_Vis. destruct (h _ w) as [[rc e] w1].
  destruct (rc =? -1); [simpl; discriminate |].
  rewrite run_Vis. destruct (h _ w1) as [[[rca e2] item] w2].
  destruct (rca =? -1).
  { rewrite run_Vis. destruct (h _ w2) as [ru w3]. simpl. discriminate. }
  rewrite run_Vis. destruct (h _ w2) as [rp w3].
  rewrite run_Vis. destruct (h _ w3) as [ru w4]. simpl.
  intros [= Hbuild <- <-].
  destruct (build_id_resolves fs blk_type bmp e2 item blk_id Hsel Hbuild)
    as (be & bi & Hres & Hcoords).
  exists bmp, e2, item, be, bi.
  split; [reflexivity |]. split; [reflexivity |]. split; [reflexivity |].
  split; [exact Hres | exact Hcoords].
Qed.

End AllocResolve.

(** ** More on the zeroize loop *)

Section ZeroizeMore.
Context {H : vmfs_h}.

(** Each call of the loop is the write of its rank and starts inside the
    block. *)
Lemma zeroize_loop_within {W : Type} (h : handler (W := W))
    (fs : vmfs_fs_t) (blk_item : Z) (buf : list Byte.byte) (c len : Z)
    (fuel : nat) :
  forall pos w r w' tr (i : nat) ev,
    run h (zeroize_loop fuel fs blk_item buf c len pos) w = (r, w', tr) ->
    tr !! i = Some ev ->
    ev_call ev = nth_write fs blk_item buf c pos i /\
    pos + Z.of_nat i * c < len.
Proof.
  induction fuel as [| fuel IH]; intros pos w r w' tr i ev; simpl.
  - intros [= <- <- <-]. discriminate.
  - destruct (Z.ltb_spec pos len) as [Hlt | Hge].
    2:{ simpl. intros [= <- <- <-]. discriminate. }
    rewrite run_Vis. destruct (h _ w) as [n w1]. simpl in n.
    destruct (negb (n =? c)).
    + simpl. intros [= <- <- <-]. destruct i as [| i]; [| discriminate].
      intros [= <-]. unfold nth_write. simpl.
      split; [f_equal; lia | lia].
    + destruct (run h (zeroize_loop fuel fs blk_item buf c len (pos + c)) w1)
        as [[r1 w2] tr1] eqn:Hrun.
      intros [= <- <- <-]. destruct i as [| i].
      * intros [= <-]. unfold nth_write. simpl. split; [f_equal; lia | lia].
      * simpl. intros Hi. destruct (IH _ _ _ _ _ _ _ Hrun Hi) as [Hc Hin].
        rewrite Hc. unfold nth_write. split; [f_equal; lia | lia].
Qed.

(** A run that returns [0] had no short write; a run that returns [-1]
    ends with a write that did not return [c], after complete writes
    only. *)
Lemma zeroize_loop_result {W : Type} (h : handler (W := W))
    (fs : vmfs_fs_t) (blk_item : Z) (buf : list Byte.byte) (c len : Z)
    (fuel : nat) :
  forall pos w r w' tr,
    run h (zeroize_loop fuel fs blk_item buf c len pos) w = (r, w', tr) ->
    (r = Some 0 -> all_complete c tr) /\
    (r = Some (-1) ->
     exists pre ev, tr = pre ++ [ev] /\ ev_rc ev <> c /\ all_complete c pre).
Proof.
  induction fuel as [| fuel IH]; intros pos w r w' tr; simpl.
  - intros [= <- <- <-]. split; discriminate.
  - destruct (pos <? len).
    2:{ simpl. intros [= <- <- <-].
        split; [intros _; constructor | discriminate]. }
    rewrite run_Vis. destruct (h _ w) as [n w1]. simpl in n.
    destruct (Z.eqb_spec n c) as [-> | Hn]; simpl negb; cbv iota.
    + destruct (run h (zeroize_loop fuel fs blk_item buf c len (pos + c)) w1)
        as [[r1 w2] tr1] eqn:Hrun.
      intros [= <- <- <-]. destruct (IH _ _ _ _ _ Hrun) as [Hok Hko]. split.
      * intros Hr. constructor; [reflexivity | exact (Hok Hr)].
      * intros Hr. destruct (Hko Hr) as (pre & ev & -> & Hev & Hpre).
        eexists (_ :: pre), ev. split; [reflexivity |]. split; [exact Hev |].
        constructor; [reflexivity | exact Hpre].
    + simpl. intros [= <- <- <-]. split; [discriminate |].
      intros _. eexists [], _. split; [reflexivity |].
      split; [exact Hn | constructor].
Qed.

(** X7: in every run of [vmfs_block_zeroize_fb], the call of rank [i] is the
    write of one chunk, [M_DIO_BLK_SIZE] bytes that are all zero, to the
    block of the identifier at offset [i * M_DIO_BLK_SIZE], and that offset
    lies inside the block; with a positive chunk size no run makes more than
    [ceil (len / c)] calls. *)
Theorem zeroize_writes_inside_block (fs : vmfs_fs_t) (blk_id : Z)
    (W : Type) (h : handler) (w : W) :
  0 < M_DIO_BLK_SIZE ->
  let tr := (run h (vmfs_block_zeroize_fb fs blk_id) w).2 in
  (forall (i : nat) ev,
      tr !! i = Some ev ->
      ev_call ev =
      vmfs_fs_write fs (VMFS_BLK_FB_ITEM blk_id)
        (Z.of_nat i * M_DIO_BLK_SIZE)
        (repeat Byte.x00 (Z.to_nat M_DIO_BLK_SIZE)) M_DIO_BLK_SIZE /\
      0 <= Z.of_nat i * M_DIO_BLK_SIZE < vmfs_fs_get_blocksize fs) /\
  Z.of_nat (length tr)
  <= Z.max 0 (ceil_div (vmfs_fs_get_blocksize fs) M_DIO_BLK_SIZE).
Proof.
  intros Hc.
  destruct (Z.eq_dec (VMFS_BLK_TYPE blk_id) VMFS_BLK_TYPE_FB) as [Ht | Ht].
  2:{ rewrite (zeroize_fb_other_class fs blk_id W h w Ht). simpl.
      split; [discriminate | lia]. }
  rewrite (zeroize_fb_unfold fs blk_id Ht).
  destruct (run h _ w) as [[r w'] tr] eqn:Hrun. simpl.
  assert (Hin : forall (i : nat) ev, tr !! i = Some ev ->
            ev_call ev =
            vmfs_fs_write fs (VMFS_BLK_FB_ITEM blk_id)
              (Z.of_nat i * M_DIO_BLK_SIZE)
              (repeat Byte.x00 (Z.to_nat M_DIO_BLK_SIZE)) M_DIO_BLK_SIZE /\
            0 <= Z.of_nat i * M_DIO_BLK_SIZE < vmfs_fs_get_blocksize fs).
  { intros i ev Hi.
    destruct (zeroize_loop_within h _ _ _ _ _ _ _ _ _ _ _ _ _ Hrun Hi)
      as [Hcall Hlt].
    rewrite Hcall. unfold nth_write, memset.
    split; [f_equal; lia | lia]. }
  split; [exact Hin |].
  destruct tr as [| ev0 tr0] using rev_ind; [simpl; lia |].
  clear IHtr0.
  assert (Hlast : (tr0 ++ [ev0]) !! length tr0 = Some ev0).
  { rewrite lookup_app_r by lia. rewrite Nat.sub_diag. reflexivity. }
  destruct (Hin _ _ Hlast) as [_ [_ Hlt]].
  rewrite length_app. simpl length.
  apply Z.max_le_iff. right. unfold ceil_div.
  apply Z.div_le_lower_bound; [exact Hc | lia].
Qed.

(** X8: for a block size of [0] (or less) [vmfs_block_zeroize_fb] on a File
    Block identifier returns [0] without any write, whatever the chunk
    size. *)
Theorem zeroize_empty_block (fs : vmfs_fs_t) (blk_id : Z)
    (W : Type) (h : handler) (w : W) :
  vmfs_fs_get_blocksize fs <= 0 ->
  VMFS_BLK_TYPE blk_id = VMFS_BLK_TYPE_FB ->
  run h (vmfs_block_zeroize_fb fs blk_id) w = (Some 0, w, []).
Proof.
  intros Hlen Ht. rewrite (zeroize_fb_unfold fs blk_id Ht). simpl.
  destruct (Z.ltb_spec 0 (vmfs_fs_get_blocksize fs)); [lia | reflexivity].
Qed.

(** X9: on a File Block identifier and with a positive chunk size,
    [vmfs_block_zeroize_fb] returns [0] exactly when no write of the run was
    short; when it returns [-1] the run ends with a write that did not
    return the chunk size, and every write before it was complete. *)
Theorem zeroize_result (fs : vmfs_fs_t) (blk_id : Z)
    (W : Type) (h : handler) (w w' : W) (r : option Z) (tr : list event) :
  0 < M_DIO_BLK_SIZE ->
  VMFS_BLK_TYPE blk_id = VMFS_BLK_TYPE_FB ->
  run h (vmfs_block_zeroize_fb fs blk_id) w = (r, w', tr) ->
  (r = Some 0 \/ r = Some (-1)) /\
  (r = Some 0 <-> all_complete M_DIO_BLK_SIZE tr) /\
  (r = Some (-1) ->
   exists pre ev,
     tr = pre ++ [ev] /\ ev_rc ev <> M_DIO_BLK_SIZE /\
     all_complete M_DIO_BLK_SIZE pre).
Proof.
  intros Hc Ht Hrun. rewrite (zeroize_fb_unfold fs blk_id Ht) in Hrun.
  destruct (zeroize_loop_result h _ _ _ _ _ _ _ _ _ _ _ Hrun) as [Hok Hko].
  assert (Hall : all_complete M_DIO_BLK_SIZE tr -> r = Some 0).
  { intros Hall.
    destruct (zeroize_loop_complete h fs _ _ _ _ _ Hc _ _ _ _ _ Hrun
                ltac:(lia) Hall) as [Hr _]. exact Hr. }
  split; [| split; [split; assumption | exact Hko]].
  pose proof (zeroize_loop_ends h fs (VMFS_BLK_FB_ITEM blk_id)
                (memset Byte.x00 M_DIO_BLK_SIZE) M_DIO_BLK_SIZE
                (vmfs_fs_get_blocksize fs)
                (S (Z.to_nat (vmfs_fs_get_blocksize fs))) Hc 0 w
                ltac:(lia)) as Hends.
  rewrite Hrun in Hends. simpl in Hends.
  destruct r as [z |]; [| congruence].
  clear Hends. revert Hrun. clear. intros Hrun.
  assert (Hz : forall fuel pos w0 w1 tr0 z0,
             run h (zeroize_loop fuel fs (VMFS_BLK_FB_ITEM blk_id)
                      (memset Byte.x00 M_DIO_BLK_SIZE) M_DIO_BLK_SIZE
                      (vmfs_fs_get_blocksize fs) pos) w0
             = (Some z0, w1, tr0) -> z0 = 0 \/ z0 = -1).
  { induction fuel as [| fuel IH]; intros pos w0 w1 tr0 z0; simpl.
    - discriminate.
    - destruct (pos <? vmfs_fs_get_blocksize fs).
      2:{ simpl. intros [= <- _ _]. left. reflexivity. }
      rewrite run_Vis. destruct (h _ w0) as [n w2]. simpl in n.
      destruct (negb (n =? M_DIO_BLK_SIZE)).
      + simpl. intros [= <- _ _]. right. reflexivity.
      + destruct (run h _ w2) as [[r1 w3] tr1] eqn:Hr1.
        intros [= -> _ _]. eapply IH. exact Hr1. }
  destruct (Hz _ _ _ _ _ _ Hrun) as [-> | ->]; [left | right]; reflexivity.
Qed.

End ZeroizeMore.

(** ** The FUSE bridge *)

Section FuseRun.
Context {W : Type} (h : Fuse.fhandler (W := W)).

Lemma frun_Vis {A} (c : Fuse.fcall) (k : Fuse.fresp c -> Fuse.fprog A)
    (w : W) :
  Fuse.frun h (Fuse.FVis c k) w =
  (let '(r, w1) := h c w in
   let '(a, w2, tr) := Fuse.frun h (k r) w1 in (a, w2, existT c r :: tr)).
Proof. reflexivity. Qed.

End FuseRun.

Section InodeNumbers.
Context {H : vmfs_h}.

Lemma u32_range (x : Z) : 0 <= u32 x < 2 ^ 32.
Proof. unfold u32. apply Z.mod_pos_bound. lia. Qed.

Lemma u32_idem (x : Z) : u32 (u32 x) = u32 x.
Proof. apply u32_small, u32_range. Qed.

Lemma FD_BUILD_range (entry item : Z) :
  0 <= VMFS_BLK_FD_BUILD entry item < 2 ^ 32.
Proof. unfold VMFS_BLK_FD_BUILD. apply u32_range. Qed.

(** X10: the inode number of the root, [FUSE_ROOT_ID], is mapped by
    [ino2blkid] to an identifier that [vmfs_block_get_bitmap_info] resolves
    to item 0 of entry 0 of the File Descriptor bitmap. *)
Theorem ino2blkid_root_resolves (fs : vmfs_fs_t) :
  vmfs_h_ok H ->
  vmfs_block_get_bitmap_info fs (Fuse.ino2blkid Fuse.FUSE_ROOT_ID)
  = Some (fdc fs, 0, 0).
Proof.
  intros Hok. unfold Fuse.ino2blkid. rewrite Z.eqb_refl.
  destruct (fd_bits_ok Hok) as ((_ & He & _) & (_ & Hi & _) & _).
  apply get_bitmap_info_FD_BUILD; [exact Hok | |];
    unfold bf_fits; (split; [lia | apply Z.pow_pos_nonneg; lia]).
Qed.

(** X11: [ino2blkid] always gives a 32-bit value; on an inode number other
    than the root's that fits 32 bits it is the identity, so such an inode
    number is used as a block identifier unchanged. *)
Theorem ino2blkid_range_and_identity (ino : Z) :
  0 <= Fuse.ino2blkid ino < 2 ^ 32 /\
  (ino <> Fuse.FUSE_ROOT_ID -> 0 <= ino < 2 ^ 32 ->
   Fuse.ino2blkid ino = ino).
Proof.
  unfold Fuse.ino2blkid. split.
  - destruct (ino =? Fuse.FUSE_ROOT_ID);
      [apply FD_BUILD_range | apply u32_range].
  - intros Hne Hr. rewrite (proj2 (Z.eqb_neq _ _) Hne).
    apply u32_small. exact Hr.
Qed.


(** X13: [vmfs_fuse_getattr] answers every request exactly once, as its
    last call.  It asks for the attributes of the block [ino2blkid ino] of
    the file system registered with the request.  When that call returns
    [0] the reply carries the mode, link count and size that call gave,
    with [st_ino] set to the inode number of the request (not to the block
    identifier), and a timeout of one second; when it returns anything else
    the reply is the error [ENOENT]. *)
Theorem getattr_replies_once (req ino : Z) (W : Type)
    (h : Fuse.fhandler) (w : W) :
  let tr := (Fuse.frun h (Fuse.vmfs_fuse_getattr req ino) w).2 in
  Fuse.fcount Fuse.is_reply tr = 1%nat /\
  exists fs rc st,
    tr !! 0%nat = Some (existT (Fuse.fuse_req_userdata req) fs) /\
    tr !! 1%nat = Some (existT (Fuse.vmfs_inode_stat_from_blkid fs
                                  (Fuse.ino2blkid ino)) (rc, st)) /\
    Fuse.calls tr =
    [Fuse.fuse_req_userdata req;
     Fuse.vmfs_inode_stat_from_blkid fs (Fuse.ino2blkid ino);
     if rc =? 0 then
       Fuse.fuse_reply_attr req
         {| Fuse.st_ino := ino;
            Fuse.st_mode := Fuse.st_mode st;
            Fuse.st_nlink := Fuse.st_nlink st;
            Fuse.st_size := Fuse.st_size st |} 1
     else Fuse.fuse_reply_err req Fuse.ENOENT].
Proof.
  unfold Fuse.vmfs_fuse_getattr.
  rewrite frun_Vis. destruct (h _ w) as [fs w1]. simpl in fs.
  rewrite frun_Vis. destruct (h _ w1) as [[rc st] w2].
  unfold c_lnot. destruct (rc =? 0) eqn:Hrc; simpl negb; cbv iota.
  - rewrite frun_Vis. destruct (h _ w2) as [r w3]. simpl.
    split; [reflexivity |]. exists fs, rc, st. rewrite Hrc. repeat split.
  - rewrite frun_Vis. destruct (h _ w2) as [r w3]. simpl.
    split; [reflexivity |]. exists fs, rc, st. rewrite Hrc. repeat split.
Qed.

End InodeNumbers.

Section FuseOptions.
Context {W : Type} (h : Fuse.fhandler (W := W)).

Local Ltac fexplore :=
  repeat first
    [ progress cbv beta iota zeta
    | match goal with
      | |- context [Fuse.frun h (Fuse.FVis ?c ?k) ?w] =>
          rewrite (frun_Vis h c k w);
          let r := fresh "r" in
          let w' := fresh "w" in
          destruct (h c w) as [r w']; simpl in r
      | r : (_ * _)%type |- _ => destruct r
      | r : unit |- _ => destruct r
      | |- context [Fuse.frun h (match ?o with Some _ => _ | None => _ end) _] =>
          destruct o eqn:?
      | |- context [Fuse.frun h (if negb ?b then _ else _) _] =>
          destruct b eqn:?; simpl negb
      | |- context [Fuse.frun h (if ?b then _ else _) _] =>
          destruct b eqn:?
      end ].

(** X14: what [vmfs_fuse_opts_func] never does.  It returns [-1], [0] or
    [1], and [1] exactly for a key other than [FUSE_OPT_KEY_NONOPT], then
    without any call.  It never changes the [lvm] and [foreground] fields;
    it changes nothing when it does not return [0]; it never replaces a
    mount point that is set.  It prints one message exactly when it returns
    [-1] and adds at most one extent. *)
Theorem opts_func_keeps_opts (opts : Fuse.vmfs_fuse_opts) (arg : string)
    (key : Z) (w : W) :
  let r := Fuse.frun h (Fuse.vmfs_fuse_opts_func opts arg key) w in
  let rc := r.1.1.1 in
  let opts' := r.1.1.2 in
  (rc = -1 \/ rc = 0 \/ rc = 1) /\
  (rc = 1 <-> key <> Fuse.FUSE_OPT_KEY_NONOPT) /\
  (key <> Fuse.FUSE_OPT_KEY_NONOPT -> r.2 = []) /\
  Fuse.lvm opts' = Fuse.lvm opts /\
  Fuse.foreground opts' = Fuse.foreground opts /\
  (rc <> 0 -> opts' = opts) /\
  (Fuse.mountpoint opts <> None -> opts' = opts) /\
  Fuse.fcount Fuse.is_message r.2 = (if rc =? -1 then 1%nat else 0%nat) /\
  (Fuse.fcount Fuse.is_add_extent r.2 <= 1)%nat.
Proof.
  unfold Fuse.vmfs_fuse_opts_func.
  destruct (Z.eqb_spec key Fuse.FUSE_OPT_KEY_NONOPT) as [Hk | Hk].
  - fexplore; cbn;
      (split; [auto |]); (split; [split; [discriminate | congruence] |]);
      (split; [congruence |]); repeat split; try congruence; try lia.
  - cbn. split; [auto |]. split; [tauto |]. repeat split; try lia.
Qed.

(** X15: the rejections of [vmfs_fuse_opts_func] that open nothing.  Once a
    mount point is set, every further non-option argument is refused with
    [-1] and the message that it is not allowed, without a [stat] of it and
    without adding it as an extent: a device named after the mount point is
    not opened.  And an argument that cannot be [stat]ed is refused with
    [-1] and a message; no extent is added and [opts] is unchanged. *)
Theorem opts_func_rejections (opts : Fuse.vmfs_fuse_opts) (arg : string)
    (w : W) :
  let r :=
    Fuse.frun h
      (Fuse.vmfs_fuse_opts_func opts arg Fuse.FUSE_OPT_KEY_NONOPT) w in
  (Fuse.mountpoint opts <> None ->
   r.1.1 = (-1, opts) /\
   Fuse.calls r.2 =
   [Fuse.fprintf_stderr
      ("'" +:+ arg +:+ "' is not allowed here" +:+ Fuse.nl)]) /\
  (Fuse.mountpoint opts = None ->
   (h (Fuse.stat arg) w).1.1 <> 0 ->
   r.1.1 = (-1, opts) /\
   Fuse.calls r.2 =
   [Fuse.stat arg;
    Fuse.fprintf_stderr ("Error stat()ing '" +:+ arg +:+ "'" +:+ Fuse.nl)]).
Proof.
  unfold Fuse.vmfs_fuse_opts_func. rewrite Z.eqb_refl. split.
  - intros Hm. destruct (Fuse.mountpoint opts) as [m |]; [| congruence].
    fexplore. cbn. split; reflexivity.
  - intros ->. rewrite frun_Vis. destruct (h _ w) as [[rc st] w1].
    intros Hrc. change (rc <> 0) in Hrc.
    rewrite (proj2 (Z.eqb_neq _ _) Hrc). simpl negb.
    fexplore. cbn. split; reflexivity.
Qed.

(** X16: what [vmfs_fuse_opts_func] does with a non-option argument that
    [stat] accepts, when no mount point is set yet.  A directory becomes the
    mount point (the copy [strdup] returns) and is not added as an extent.
    A regular file or a block device is added as an extent of [opts->lvm],
    and the result is [-1] exactly when that fails.  Anything else (a
    character device, a FIFO, a socket) is skipped without a message: the
    result is [0] and nothing changes. *)
Theorem opts_func_by_file_kind (opts : Fuse.vmfs_fuse_opts) (arg : string)
    (w w1 : W) (st : Fuse.stat_t) :
  Fuse.mountpoint opts = None ->
  h (Fuse.stat arg) w = ((0, st), w1) ->
  let r :=
    Fuse.frun h
      (Fuse.vmfs_fuse_opts_func opts arg Fuse.FUSE_OPT_KEY_NONOPT) w in
  (Fuse.S_ISDIR (Fuse.st_mode st) = true ->
   r.1.1 = (0, Fuse.set_mountpoint opts (h (Fuse.strdup arg) w1).1) /\
   Fuse.calls r.2 = [Fuse.stat arg; Fuse.strdup arg]) /\
  (Fuse.S_ISDIR (Fuse.st_mode st) = false ->
   Fuse.S_ISREG (Fuse.st_mode st) || Fuse.S_ISBLK (Fuse.st_mode st) = true ->
   let rc := (h (Fuse.vmfs_lvm_add_extent (Fuse.lvm opts) arg) w1).1 in
   r.1.1 = (if rc =? -1 then -1 else 0, opts) /\
   Fuse.fcount Fuse.is_add_extent r.2 = 1%nat /\
   Fuse.fcount Fuse.is_message r.2 = (if rc =? -1 then 1%nat else 0%nat)) /\
  (Fuse.S_ISDIR (Fuse.st_mode st) = false ->
   Fuse.S_ISREG (Fuse.st_mode st) || Fuse.S_ISBLK (Fuse.st_mode st) = false ->
   r.1 = ((0, opts), w1) /\ Fuse.calls r.2 = [Fuse.stat arg]).
Proof.
  intros Hm Hst. unfold Fuse.vmfs_fuse_opts_func.
  rewrite Z.eqb_refl, Hm, frun_Vis, Hst. simpl negb. cbv iota.
  split; [| split].
  - intros ->. rewrite frun_Vis. destruct (h _ w1) as [m w2]. cbn.
    split; reflexivity.
  - intros -> ->. rewrite frun_Vis. destruct (h _ w1) as [rc w2]. cbn.
    destruct (rc =? -1).
    + rewrite frun_Vis. destruct (h _ w2) as [rm w3]. cbn.
      repeat split.
    + cbn. repeat split.
  - intros -> ->. cbn. split; reflexivity.
Qed.

(** The computed form of the end of a run of [main]. *)
Lemma main_tail (argv : list string) (w : W) :
  let r := Fuse.frun h (Fuse.main argv) w in
  (r.1.1 = 0 \/ r.1.1 = 1) /\
  exists fs args mp,
    drop (length r.2 - 3) r.2 =
    [existT (Fuse.vmfs_fs_close fs) tt;
     existT (Fuse.fuse_opt_free_args args) tt;
     existT (Fuse.free mp) tt] /\
    Fuse.fcount Fuse.is_cleanup (take (length r.2 - 3) r.2) = 0%nat /\
    fs = default None (last (omap Fuse.fs_created r.2)).
Proof.
  unfold Fuse.main, Fuse.main_teardown, Fuse.main_cleanup.
  fexplore; cbn;
    (split; [first [left; reflexivity | right; reflexivity
                   | match goal with
                     | |- context [if ?b then _ else _] =>
                         destruct b; [left | right]; reflexivity
                     end] |]);
    do 3 eexists; repeat split.
Qed.

(** X17: every run of [main] ends with the three calls after the [cleanup]
    label, [vmfs_fs_close], [fuse_opt_free_args] and [free] of the mount
    point, each made once and only there, and returns [0] or [1].  The file
    system closed is the one [vmfs_fs_create] returned; when the run did not
    get that far, or [vmfs_fs_create] failed, [vmfs_fs_close] is called with
    [NULL]. *)
Theorem main_always_cleans_up (argv : list string) (w : W) :
  let r := Fuse.frun h (Fuse.main argv) w in
  (r.1.1 = 0 \/ r.1.1 = 1) /\
  exists pre fs args mp,
    r.2 = pre ++ [existT (Fuse.vmfs_fs_close fs) tt;
                  existT (Fuse.fuse_opt_free_args args) tt;
                  existT (Fuse.free mp) tt] /\
    Fuse.fcount Fuse.is_cleanup pre = 0%nat /\
    fs = default None (last (omap Fuse.fs_created r.2)).
Proof.
  intros r. destruct (main_tail argv w) as (Hrc & fs & args & mp & Hd & Hc & Hfs).
  fold r in Hrc, Hd, Hc, Hfs. split; [exact Hrc |].
  exists (take (length r.2 - 3) r.2), fs, args, mp.
  split; [| split; assumption].
  rewrite <- Hd. symmetry. apply take_drop.
Qed.

(** X18: [main] returns [0] exactly when the session loop ran and returned
    [0]; in every other run, whatever failed, it returns [1].  The loop runs
    at most once. *)
Theorem main_exit_status (argv : list string) (w : W) :
  let r := Fuse.frun h (Fuse.main argv) w in
  (r.1.1 = 0 <-> omap Fuse.loop_result r.2 = [0]) /\
  (length (omap Fuse.loop_result r.2) <= 1)%nat.
Proof.
  unfold Fuse.main, Fuse.main_teardown, Fuse.main_cleanup.
  fexplore; cbn;
    try (split; [split; discriminate | lia]).
  match goal with
  | |- context [if ?b =? 0 then _ else _] => destruct (Z.eqb_spec b 0)
  end.
  - subst. split; [split; reflexivity | lia].
  - split; [split; [discriminate | congruence] | lia].
Qed.

(** X19: [main] tears down what it set up, and nothing else.  The calls of
    [fuse_unmount] are those answering a mount that gave a channel, with the
    same mount point and channel; the calls of [fuse_session_destroy] those
    answering a session that was created; the handlers are removed exactly
    when they were set; the channel removed from the session is the one that
    was added. *)
Theorem main_tears_down (argv : list string) (w : W) :
  let r := Fuse.frun h (Fuse.main argv) w in
  omap Fuse.unmounted (Fuse.calls r.2) = omap Fuse.mounted r.2 /\
  omap Fuse.session_destroyed (Fuse.calls r.2)
  = omap Fuse.session_created r.2 /\
  omap Fuse.handlers_removed (Fuse.calls r.2)
  = omap Fuse.handlers_set r.2 /\
  omap Fuse.chan_removed (Fuse.calls r.2)
  = omap Fuse.chan_added (Fuse.calls r.2) /\
  (length (omap Fuse.mounted r.2) <= 1)%nat.
Proof.
  unfold Fuse.main, Fuse.main_teardown, Fuse.main_cleanup.
  fexplore; cbn;
    repeat match goal with
           | Hb : (?x =? -1) = _ |- context [?x =? -1] => rewrite Hb
           end;
    repeat split; lia.
Qed.

(** X20: [main] does not check that a mount point was given: whenever it
    calls [fuse_mount], the mount point it passes is the one
    [fuse_opt_parse] left in [opts], [NULL] included. *)
Theorem main_mounts_what_parse_left (argv : list string) (w : W)
    (mp : option string) (args : list string) :
  let r := Fuse.frun h (Fuse.main argv) w in
  In (Fuse.fuse_mount mp args) (Fuse.calls r.2) ->
  exists opts,
    omap Fuse.parsed_opts r.2 = [opts] /\ Fuse.mountpoint opts = mp.
Proof.
  unfold Fuse.main, Fuse.main_teardown, Fuse.main_cleanup.
  fexplore; cbn; intros Hin;
    repeat (destruct Hin as [Hin | Hin]; [try discriminate Hin |]);
    try contradiction;
    injection Hin as <- <-; eexists; split; reflexivity.
Qed.

End FuseOptions.

(** ** More on allocation over the [Disk] model *)

Section DiskMore.
Context {H : vmfs_h}.
Variable fs : vmfs_fs_t.
Hypothesis Hok : vmfs_h_ok H.
Hypothesis Haddr : Disk.fb_addressable fs.

Local Abbreviation n := (items_per_bitmap_entry (bmh (fbb fs))).
Local Abbreviation total := (total_entries (bmh (fbb fs))).
Local Abbreviation epos k := (Disk.entry_pos (fbb fs) k).

(** A successful allocation of a File Block, before and after, when the
    store of the entry succeeded: the identifier names item [j] of entry
    [k]; that item was free in the entry on the volume before the call;
    after it the volume differs only at the position of entry [k], where the
    entry has that item allocated and its lock released. *)
Lemma alloc_fb_before_after (w w1 : Disk.world) (blk_id : Z)
    (tr : list event) :
  Disk.wf_bitmap w (fbb fs) ->
  run Disk.handle (vmfs_block_alloc fs VMFS_BLK_TYPE_FB) w
  = ((0, Some blk_id), w1, tr) ->
  stores_ok tr ->
  exists k j e0 e1,
    0 <= k < total /\ 0 <= j < n /\
    blk_id = VMFS_BLK_FB_BUILD (k * n + j) /\
    Disk.disk w !! epos k = Some e0 /\
    Disk.bit_at (bitmap e0) j = Some false /\
    Disk.disk w1 !! epos k = Some e1 /\
    pos (mdh e1) = epos k /\ id e1 = k /\
    length (bitmap e1) = length (bitmap e0) /\
    Disk.bit_at (bitmap e1) j = Some true /\
    (forall q, q <> epos k -> Disk.disk w1 !! q = Disk.disk w !! q).
Proof.
  intros Hwf Hrun Hst.
  destruct (alloc_fb_run fs Hok Haddr w w1 blk_id tr Hwf Hrun)
    as (k & j & e0 & rp & wp & Hk & Hj & Hid & He0 & Hpos & Hide & Hbit
        & Hupd & Hw1 & Hrp).
  apply bme_update_stored in Hupd; [| exact (Hrp Hst)]. simpl in Hupd.
  pose proof (lookup_lt_Some _ _ _ Hbit) as Hjlen.
  exists k, (Z.of_nat j), e0, (Disk.set_lock
    (Disk.set_bitmap
       (set_mdh e0 {| pos := epos k; hb_lock := 1 |})
       (<[j := true]> (bitmap e0))) 0).
  split; [exact Hk |]. split; [exact Hj |]. split; [exact Hid |].
  split; [exact He0 |].
  split; [rewrite bit_at_of_nat; exact Hbit |].
  split.
  { rewrite Hw1, Hupd, lookup_alter_eq, lookup_insert_eq. reflexivity. }
  split; [reflexivity |]. split; [exact Hide |].
  split; [simpl; apply length_insert |].
  split.
  { simpl. rewrite bit_at_of_nat. apply list_lookup_insert_eq. exact Hjlen. }
  intros q Hq. rewrite Hw1, Hupd.
  rewrite lookup_alter_ne, !lookup_insert_ne by congruence. reflexivity.
Qed.

(** A successful allocation whose store succeeded keeps the File Block
    bitmap well formed. *)
Lemma alloc_fb_keeps_wf (w w1 : Disk.world) (blk_id : Z) (tr : list event) :
  Disk.wf_bitmap w (fbb fs) ->
  run Disk.handle (vmfs_block_alloc fs VMFS_BLK_TYPE_FB) w
  = ((0, Some blk_id), w1, tr) ->
  stores_ok tr ->
  Disk.wf_bitmap w1 (fbb fs).
Proof.
  intros Hwf Hrun Hst.
  destruct (alloc_fb_before_after w w1 blk_id tr Hwf Hrun Hst)
    as (k & j & e0 & e1 & Hk & Hj & _ & He0 & _ & He1 & Hpos & Hid & Hlen
        & _ & Hother).
  destruct Hwf as (Hn & Htot & Hwf).
  split; [exact Hn |]. split; [exact Htot |].
  intros k' Hk'.
  destruct (Hwf k' Hk') as (e' & He' & Hpos' & Hid' & Hlen').
  destruct (Z.eq_dec (epos k') (epos k)) as [Heq | Hne].
  - rewrite Heq in He'. rewrite He0 in He'. injection He' as Hee.
    destruct (Hwf k Hk) as (e0' & He0' & _ & Hid0 & Hlen0).
    rewrite He0 in He0'. injection He0' as Hee0.
    assert (Hkk : k' = k) by congruence. rewrite Hkk.
    exists e1. split; [exact He1 |]. split; [exact Hpos |].
    split; [exact Hid |]. rewrite Hlen, Hee0. exact Hlen0.
  - exists e'. rewrite (Hother _ Hne). repeat split; assumption.
Qed.

(** The block an allocation returns was free before the call, whatever the
    store of the entry did afterwards. *)
Lemma alloc_returns_free_block_aux (w w1 : Disk.world) (blk_id : Z)
    (tr : list event) :
  Disk.wf_bitmap w (fbb fs) ->
  run Disk.handle (vmfs_block_alloc fs VMFS_BLK_TYPE_FB) w
  = ((0, Some blk_id), w1, tr) ->
  (run Disk.handle (vmfs_block_get_status fs blk_id) w).1.1 = 0.
Proof.
  intros Hwf Hrun.
  destruct (alloc_fb_run fs Hok Haddr w w1 blk_id tr Hwf Hrun)
    as (k & j & e0 & rp & wp & Hk & Hj & -> & He0 & _ & _ & Hbit & _).
  rewrite (get_status_fb fs Hok Haddr w k (Z.of_nat j) e0 Hk Hj He0).
  rewrite bit_at_of_nat, Hbit. reflexivity.
Qed.

(** X21: no double allocation.  On a well-formed volume, the identifier that
    a successful [vmfs_block_alloc] for the File Block class returns named a
    free block when the call was made: [vmfs_block_get_status] of it on the
    volume before the call is [0]. *)
Theorem alloc_returns_free_block (w w1 : Disk.world) (blk_id : Z)
    (tr : list event) :
  Disk.wf_bitmap w (fbb fs) ->
  run Disk.handle (vmfs_block_alloc fs VMFS_BLK_TYPE_FB) w
  = ((0, Some blk_id), w1, tr) ->
  (run Disk.handle (vmfs_block_get_status fs blk_id) w).1.1 = 0.
Proof. apply alloc_returns_free_block_aux. Qed.

(** X22: two successive successful allocations of a File Block on a
    well-formed volume return different identifiers, when the store of the
    entry in the first one succeeded ([vmfs_bme_update] did not return
    [-1], a result [vmfs_block_alloc] does not look at). *)
Theorem successive_allocs_differ (w w1 w2 : Disk.world) (id1 id2 : Z)
    (tr1 tr2 : list event) :
  Disk.wf_bitmap w (fbb fs) ->
  run Disk.handle (vmfs_block_alloc fs VMFS_BLK_TYPE_FB) w
  = ((0, Some id1), w1, tr1) ->
  stores_ok tr1 ->
  run Disk.handle (vmfs_block_alloc fs VMFS_BLK_TYPE_FB) w1
  = ((0, Some id2), w2, tr2) ->
  id1 <> id2.
Proof.
  intros Hwf Hrun1 Hst1 Hrun2 Heq.
  pose proof (alloc_fb_keeps_wf w w1 id1 tr1 Hwf Hrun1 Hst1) as Hwf1.
  pose proof (alloc_returns_free_block_aux w1 w2 id2 tr2 Hwf1 Hrun2) as Hfree.
  destruct (alloc_fb_before_after w w1 id1 tr1 Hwf Hrun1 Hst1)
    as (k & j & e0 & e1 & Hk & Hj & Hid & _ & _ & He1 & _ & _ & _ & Hbit & _).
  rewrite <- Heq, Hid in Hfree.
  rewrite (get_status_fb fs Hok Haddr w1 k j e1 Hk Hj He1), Hbit in Hfree.
  discriminate.
Qed.

(** X23: a status change to the state the block is already in.  For a File
    Block whose item has status bit [b], [vmfs_block_set_status] with the
    status that means [b] (so [vmfs_block_free] of a free block and
    [vmfs_block_alloc_specified] of an allocated one) returns [-1]; no
    allocation map on the volume changes, and the lock of the entry is left
    released. *)
Theorem set_status_same_state (w w2 : Disk.world) (k j status : Z)
    (e : vmfs_bitmap_entry_t) (b : bool) (rc : Z) (tr : list event) :
  0 <= k < total -> 0 <= j < n ->
  Disk.disk w !! epos k = Some e ->
  pos (mdh e) = epos k ->
  Disk.bit_at (bitmap e) j = Some b ->
  negb (status =? 0) = b ->
  run Disk.handle
    (vmfs_block_set_status fs (VMFS_BLK_FB_BUILD (k * n + j)) status) w
  = (rc, w2, tr) ->
  rc = -1 /\
  (forall q, bitmap <$> Disk.disk w2 !! q = bitmap <$> Disk.disk w !! q) /\
  (hb_lock ∘ mdh) <$> Disk.disk w2 !! epos k = Some 0 /\
  count_calls is_bme_update tr = 0%nat /\
  count_calls is_unlock tr = 1%nat.
Proof.
  intros Hk Hj He Hpos Hbit Hst.
  unfold vmfs_block_set_status.
  rewrite (get_bitmap_info_FB_BUILD fs _ Hok)
    by (apply (fb_number_fits fs Haddr); assumption).
  destruct (item_addr_split n k j ltac:(lia) Hj) as [Hdiv Hmod].
  rewrite run_Vis.
  change (Disk.handle (vmfs_bitmap_get_entry (fbb fs) 0 (k * n + j)) w)
    with (Disk.get_entry w (fbb fs) 0 (k * n + j), w).
  unfold Disk.get_entry, Disk.item_addr. rewrite Hdiv, He.
  replace (0 <? n) with true by (symmetry; apply Z.ltb_lt; lia).
  replace (0 <=? 0 * n + (k * n + j)) with true
    by (symmetry; apply Z.leb_le; nia).
  replace (k <? total) with true by (symmetry; apply Z.ltb_lt; lia).
  simpl andb. cbv iota.
  repeat (progress change (0 =? -1) with false; cbv iota).
  rewrite run_Vis.
  match goal with
  | |- context [Disk.handle (vmfs_metadata_lock ?a ?b ?c ?d) ?y] =>
      change (Disk.handle (vmfs_metadata_lock a b c d) y)
        with (Disk.lock y b d)
  end.
  unfold Disk.lock. rewrite Hpos, He.
  destruct (hb_lock (mdh e) =? 0);
    rewrite c_lnot_never_minus_one; rewrite run_Vis;
    match goal with
    | |- context [Disk.handle (vmfs_bitmap_set_item_status ?a ?b ?c ?d ?s) ?y] =>
        change (Disk.handle (vmfs_bitmap_set_item_status a b c d s) y)
          with (Disk.set_item_status a b c d s, y)
    end;
    unfold Disk.set_item_status, Disk.item_addr; rewrite Hmod;
    simpl bitmap; rewrite Hbit, Hst, eqb_reflx; simpl; rewrite ?Hpos;
    intros [= <- <- <-]; (split; [reflexivity |]); simpl;
    (split; [| split; [| split; reflexivity]]).
  - intros q. destruct (Z.eq_dec q (epos k)) as [-> | Hq].
    + rewrite lookup_alter_eq, lookup_insert_eq, He. reflexivity.
    + rewrite lookup_alter_ne, lookup_insert_ne by congruence. reflexivity.
  - rewrite lookup_alter_eq, lookup_insert_eq. reflexivity.
  - intros q. destruct (Z.eq_dec q (epos k)) as [-> | Hq].
    + rewrite lookup_alter_eq, He. reflexivity.
    + rewrite lookup_alter_ne by congruence. reflexivity.
  - rewrite lookup_alter_eq, He. reflexivity.
Qed.

End DiskMore.

(** ** The further properties on small inputs *)

Section MoreOnExamples.
Import Example Example2.
#[local] Existing Instance spec_vmfs_h.

Lemma get_status_failures_witness :
  run Disk.handle (vmfs_block_get_status fs0 2684354637) w0 = (-1, w0, []) /\
  run Disk.handle (vmfs_block_get_status fs0 (VMFS_BLK_FB_BUILD 100)) w0
  = (-1, w0,
     [existT (vmfs_bitmap_get_entry (fbb fs0) 0 100) (-1, Disk.bme_none)]).
Proof.
  split.
  - apply (proj1 (get_status_failures fs0 2684354637 Disk.world
                    Disk.handle w0)).
    reflexivity.
  - destruct (get_status_failures fs0 (VMFS_BLK_FB_BUILD 100)
                Disk.world Disk.handle w0) as [_ B].
    apply (B (fbb fs0) 0 100 (-1) Disk.bme_none w0);
      [vm_compute; reflexivity | vm_compute; reflexivity | reflexivity].
Defined.

Lemma set_status_early_exits_witness :
  run Disk.handle (vmfs_block_free fs0 2684354637) w0 = (-1, w0, []) /\
  run Disk.handle (vmfs_block_free fs0 (VMFS_BLK_FB_BUILD 100)) w0
  = (-1, w0,
     [existT (vmfs_bitmap_get_entry (fbb fs0) 0 100) (-1, Disk.bme_none)]).
Proof.
  split.
  - apply (proj1 (set_status_early_exits fs0 2684354637 0 Disk.world
                    Disk.handle w0)).
    reflexivity.
  - apply (proj2 (set_status_early_exits fs0 (VMFS_BLK_FB_BUILD 100) 0
                    Disk.world Disk.handle w0)
             (fbb fs0) 0 100 Disk.bme_none w0);
      vm_compute; reflexivity.
Defined.

Lemma set_status_stores_iff_success_witness :
  exists pre e r1 r2,
    (run Disk.handle (vmfs_block_free fs0 (VMFS_BLK_FB_BUILD 0)) w0).2
    = pre ++ [existT (vmfs_bme_update fs0 e) r1;
              existT (vmfs_metadata_unlock fs0 (mdh e)) r2] /\
    entry_local pre = Some e /\
    count_calls is_mutation pre = 1%nat.
Proof.
  apply (proj2 (proj2 (set_status_stores_iff_success fs0
                         (VMFS_BLK_FB_BUILD 0) 0 Disk.world Disk.handle w0))).
  vm_compute. reflexivity.
Defined.

Lemma alloc_failure_stores_nothing_witness :
  (run Disk.handle (vmfs_block_alloc fs0 1) w_full).1.1.2 = None.
Proof.
  apply (proj1 (proj2 (alloc_failure_stores_nothing fs0 1 Disk.world
                         Disk.handle w_full))).
  vm_compute. reflexivity.
Defined.

Lemma alloc_id_resolves_witness :
  exists bmp be bi,
    alloc_select_bitmap fs0 1 = Some bmp /\
    vmfs_block_get_bitmap_info fs0 536870917 = Some (bmp, be, bi) /\
    be = 0.
Proof.
  destruct (alloc_id_resolves spec_vmfs_h_ok fs0 1 Disk.world Disk.handle w0
              (run Disk.handle (vmfs_block_alloc fs0 1) w0).1.2
              536870917
              (run Disk.handle (vmfs_block_alloc fs0 1) w0).2)
    as (bmp & e & item & be & bi & Hsel & He & Hi & Hres & Hfb & _).
  - vm_compute. reflexivity.
  - exists bmp, be, bi. split; [exact Hsel |]. split; [exact Hres |].
    apply Hfb. reflexivity.
Defined.

Lemma zeroize_writes_inside_block_witness :
  let tr := (run Disk.handle
               (vmfs_block_zeroize_fb fs0 (VMFS_BLK_FB_BUILD 5)) w_short).2 in
  (exists ev,
      tr !! 1%nat = Some ev /\
      ev_call ev = vmfs_fs_write fs0 5 512 (repeat Byte.x00 512) 512 /\
      0 <= 512 < 4096) /\
  Z.of_nat (length tr) <= 8.
Proof.
  intros tr.
  assert (Hc : 0 < @M_DIO_BLK_SIZE spec_vmfs_h) by reflexivity.
  destruct (zeroize_writes_inside_block fs0 (VMFS_BLK_FB_BUILD 5)
              Disk.world Disk.handle w_short Hc) as [Hin Hlen].
  split; [| exact Hlen].
  exists (existT (vmfs_fs_write fs0 5 512 (repeat Byte.x00 512) 512) 512).
  assert (Hi : tr !! 1%nat
               = Some (existT
                         (vmfs_fs_write fs0 5 512 (repeat Byte.x00 512) 512)
                         512))
    by (vm_compute; reflexivity).
  split; [exact Hi |].
  exact (Hin 1%nat _ Hi).
Defined.

Lemma zeroize_empty_block_witness :
  run Disk.handle (vmfs_block_zeroize_fb fs_empty (VMFS_BLK_FB_BUILD 5)) w0
  = (Some 0, w0, []).
Proof.
  apply zeroize_empty_block; [vm_compute; discriminate | reflexivity].
Defined.

Lemma zeroize_result_witness :
  exists pre ev,
    (run Disk.handle
       (vmfs_block_zeroize_fb fs0 (VMFS_BLK_FB_BUILD 5)) w_short).2
    = pre ++ [ev] /\
    ev_rc ev <> 512 /\ all_complete 512 pre.
Proof.
  assert (Hc : 0 < @M_DIO_BLK_SIZE spec_vmfs_h) by reflexivity.
  assert (Ht : VMFS_BLK_TYPE (VMFS_BLK_FB_BUILD 5) = VMFS_BLK_TYPE_FB)
    by (vm_compute; reflexivity).
  set (r := run Disk.handle
              (vmfs_block_zeroize_fb fs0 (VMFS_BLK_FB_BUILD 5)) w_short).
  assert (Hrun : r = (Some (-1), r.1.2, r.2)) by (vm_compute; reflexivity).
  pose proof (zeroize_result fs0 (VMFS_BLK_FB_BUILD 5) Disk.world
                Disk.handle w_short r.1.2 (Some (-1)) r.2 Hc Ht Hrun)
    as (_ & _ & Hx).
  exact (Hx eq_refl).
Defined.

Lemma ino2blkid_root_resolves_witness :
  vmfs_block_get_bitmap_info fs0 (Fuse.ino2blkid 1) = Some (fdc fs0, 0, 0).
Proof. apply (ino2blkid_root_resolves fs0 spec_vmfs_h_ok). Defined.

Lemma ino2blkid_range_and_identity_witness :
  Fuse.ino2blkid 536870917 = 536870917.
Proof.
  apply (proj2 (ino2blkid_range_and_identity 536870917));
    [vm_compute; discriminate | vm_compute; split; [discriminate | reflexivity]].
Defined.


Lemma getattr_replies_once_witness :
  let tr := (Fuse.frun Fuse.demo_handle (Fuse.vmfs_fuse_getattr 9 1)
               Fuse.demo_w).2 in
  let tr0 := (Fuse.frun Fuse.demo_handle (Fuse.vmfs_fuse_getattr 9 0)
                Fuse.demo_w).2 in
  (Fuse.fcount Fuse.is_reply tr = 1%nat /\
   exists fs rc st,
     tr !! 0%nat = Some (existT (Fuse.fuse_req_userdata 9) fs) /\
     tr !! 1%nat = Some (existT (Fuse.vmfs_inode_stat_from_blkid fs
                                   (Fuse.ino2blkid 1)) (rc, st)) /\
     Fuse.calls tr =
     [Fuse.fuse_req_userdata 9;
      Fuse.vmfs_inode_stat_from_blkid fs (Fuse.ino2blkid 1);
      if rc =? 0 then
        Fuse.fuse_reply_attr 9
          {| Fuse.st_ino := 1;
             Fuse.st_mode := Fuse.st_mode st;
             Fuse.st_nlink := Fuse.st_nlink st;
             Fuse.st_size := Fuse.st_size st |} 1
      else Fuse.fuse_reply_err 9 Fuse.ENOENT]) /\
  Fuse.calls tr =
  [Fuse.fuse_req_userdata 9;
   Fuse.vmfs_inode_stat_from_blkid 7 2147483648;
   Fuse.fuse_reply_attr 9
     {| Fuse.st_ino := 1; Fuse.st_mode := 16877; Fuse.st_nlink := 2;
        Fuse.st_size := 4096 |} 1] /\
  Fuse.calls tr0 =
  [Fuse.fuse_req_userdata 9;
   Fuse.vmfs_inode_stat_from_blkid 7 0;
   Fuse.fuse_reply_err 9 2].
Proof.
  intros tr tr0.
  split; [| split; vm_compute; reflexivity].
  exact (getattr_replies_once 9 1 Fuse.demo_world Fuse.demo_handle
           Fuse.demo_w).
Defined.

Lemma opts_func_keeps_opts_witness :
  (Fuse.frun Fuse.demo_handle
     (Fuse.vmfs_fuse_opts_func opts0 "/nonexistent"
        Fuse.FUSE_OPT_KEY_NONOPT) Fuse.demo_w).1.1.2 = opts0 /\
  (Fuse.frun Fuse.demo_handle
     (Fuse.vmfs_fuse_opts_func opts0 "-f" 0) Fuse.demo_w).2 = [].
Proof.
  split.
  - destruct (opts_func_keeps_opts Fuse.demo_handle opts0 "/nonexistent"
                Fuse.FUSE_OPT_KEY_NONOPT Fuse.demo_w)
      as (_ & _ & _ & _ & _ & Hkeep & _).
    apply Hkeep. vm_compute. discriminate.
  - destruct (opts_func_keeps_opts Fuse.demo_handle opts0 "-f" 0
                Fuse.demo_w) as (_ & _ & Hnone & _).
    apply Hnone. vm_compute. discriminate.
Defined.

Lemma opts_func_rejections_witness :
  (Fuse.frun Fuse.demo_handle
     (Fuse.vmfs_fuse_opts_func opts_mnt "/dev/sdb"
        Fuse.FUSE_OPT_KEY_NONOPT) Fuse.demo_w).1.1 = (-1, opts_mnt) /\
  (Fuse.frun Fuse.demo_handle
     (Fuse.vmfs_fuse_opts_func opts0 "/nonexistent"
        Fuse.FUSE_OPT_KEY_NONOPT) Fuse.demo_w).1.1 = (-1, opts0).
Proof.
  split.
  - apply (proj1 (opts_func_rejections Fuse.demo_handle opts_mnt "/dev/sdb"
                    Fuse.demo_w)).
    discriminate.
  - apply (proj2 (opts_func_rejections Fuse.demo_handle opts0 "/nonexistent"
                    Fuse.demo_w)).
    + reflexivity.
    + vm_compute. discriminate.
Defined.

Lemma opts_func_by_file_kind_witness :
  (Fuse.frun Fuse.demo_handle
     (Fuse.vmfs_fuse_opts_func opts0 "/mnt" Fuse.FUSE_OPT_KEY_NONOPT)
     Fuse.demo_w).1.1 = (0, opts_mnt) /\
  Fuse.fcount Fuse.is_add_extent
    (Fuse.frun Fuse.demo_handle
       (Fuse.vmfs_fuse_opts_func opts0 "/dev/sdb" Fuse.FUSE_OPT_KEY_NONOPT)
       Fuse.demo_w).2 = 1%nat /\
  (Fuse.frun Fuse.demo_handle
     (Fuse.vmfs_fuse_opts_func opts0 "/dev/tty" Fuse.FUSE_OPT_KEY_NONOPT)
     Fuse.demo_w).1 = ((0, opts0), Fuse.demo_w).
Proof.
  split; [| split].
  - eapply (opts_func_by_file_kind Fuse.demo_handle opts0 "/mnt"
              Fuse.demo_w Fuse.demo_w);
      [reflexivity | vm_compute; reflexivity | reflexivity].
  - eapply (opts_func_by_file_kind Fuse.demo_handle opts0 "/dev/sdb"
              Fuse.demo_w Fuse.demo_w);
      [reflexivity | vm_compute; reflexivity | reflexivity | reflexivity].
  - eapply (opts_func_by_file_kind Fuse.demo_handle opts0 "/dev/tty"
              Fuse.demo_w Fuse.demo_w);
      [reflexivity | vm_compute; reflexivity | reflexivity | reflexivity].
Defined.

Lemma main_exit_status_witness :
  (Fuse.frun Fuse.demo_handle (Fuse.main argv0) Fuse.demo_w).1.1 = 0 /\
  (Fuse.frun Fuse.demo_handle (Fuse.main argv0) demo_bad_volume).1.1 <> 0.
Proof.
  split.
  - apply (proj1 (main_exit_status Fuse.demo_handle argv0 Fuse.demo_w)).
    vm_compute. reflexivity.
  - intros Hz.
    apply (proj1 (main_exit_status Fuse.demo_handle argv0 demo_bad_volume))
      in Hz.
    vm_compute in Hz. discriminate Hz.
Defined.

Lemma main_mounts_what_parse_left_witness :
  exists opts,
    omap Fuse.parsed_opts
      (Fuse.frun Fuse.demo_handle (Fuse.main argv0) demo_no_mountpoint).2
    = [opts] /\
    Fuse.mountpoint opts = None.
Proof.
  apply (main_mounts_what_parse_left Fuse.demo_handle argv0
           demo_no_mountpoint None
           ["vmfs-fuse"; "/dev/sdb"; "/mnt"; "-odefault_permissions"]).
  vm_compute. do 6 right. left. reflexivity.
Defined.

Lemma alloc_returns_free_block_witness :
  (run Disk.handle (vmfs_block_get_status fs0 536870917) w0).1.1 = 0.
Proof.
  apply (alloc_returns_free_block fs0 spec_vmfs_h_ok fs0_addressable w0
           (run Disk.handle (vmfs_block_alloc fs0 1) w0).1.2 536870917
           (run Disk.handle (vmfs_block_alloc fs0 1) w0).2 w0_wf).
  vm_compute. reflexivity.
Defined.

Lemma successive_allocs_differ_witness :
  let r1 := run Disk.handle (vmfs_block_alloc fs0 1) w0 in
  let r2 := run Disk.handle (vmfs_block_alloc fs0 1) r1.1.2 in
  r1.1.1 = (0, Some 536870917) /\ r2.1.1 = (0, Some 536870919) /\
  536870917 <> 536870919.
Proof.
  intros r1 r2.
  split; [vm_compute; reflexivity |]. split; [vm_compute; reflexivity |].
  apply (successive_allocs_differ fs0 spec_vmfs_h_ok fs0_addressable
           w0 r1.1.2 r2.1.2 536870917 536870919 r1.2 r2.2 w0_wf).
  - vm_compute. reflexivity.
  - apply stores_okb_sound. vm_compute. reflexivity.
  - vm_compute. reflexivity.
Defined.

Lemma set_status_same_state_witness :
  (run Disk.handle (vmfs_block_free fs0 (VMFS_BLK_FB_BUILD 5)) w0).1.1 = -1 /\
  (run Disk.handle
     (vmfs_block_alloc_specified fs0 (VMFS_BLK_FB_BUILD 4)) w0).1.1 = -1.
Proof.
  split.
  - apply (set_status_same_state fs0 spec_vmfs_h_ok fs0_addressable w0
             (run Disk.handle (vmfs_block_free fs0 (VMFS_BLK_FB_BUILD 5))
                w0).1.2
             1 1 0 (entry_at 5120 1 0 [true; false; true; false]) false
             (run Disk.handle (vmfs_block_free fs0 (VMFS_BLK_FB_BUILD 5))
                w0).1.1
             (run Disk.handle (vmfs_block_free fs0 (VMFS_BLK_FB_BUILD 5))
                w0).2);
      try (simpl; lia); try reflexivity.
  - apply (set_status_same_state fs0 spec_vmfs_h_ok fs0_addressable w0
             (run Disk.handle
                (vmfs_block_alloc_specified fs0 (VMFS_BLK_FB_BUILD 4))
                w0).1.2
             1 0 1 (entry_at 5120 1 0 [true; false; true; false]) true
             (run Disk.handle
                (vmfs_block_alloc_specified fs0 (VMFS_BLK_FB_BUILD 4))
                w0).1.1
             (run Disk.handle
                (vmfs_block_alloc_specified fs0 (VMFS_BLK_FB_BUILD 4))
                w0).2);
      try (simpl; lia); try reflexivity.
Defined.

End MoreOnExamples.
